(** * mqtt-sensor-pipeline: ingestion recorder and point-cloud stages

    A shallow embedding of [receiver/receiver.py], of
    [visualizer/visualizer.py], of [visualizer/advanced_visualizer.py],
    of the callbacks of [visualizer/point_cloud_server.py] that show and
    send a scan, and of the messages of [sender/sender.py].

    Python floats are IEEE binary64 values ([spec_float] at precision 53),
    module globals are the fields of a state record that is threaded through
    a state-and-exception monad, and library calls whose code is not part of
    the repository ([time.time], [statistics.mean], numpy, open3d,
    matplotlib) are section variables. *)

From Stdlib Require Import ZArith List String Ascii Bool Lia.
From Stdlib Require Import Permutation Sorted.
From Stdlib Require Import SpecFloat.
From Stdlib Require Import Reals Lra.
From Stdlib Require Import DecimalString.
Import ListNotations.

Set Warnings "-register-all".

Local Open Scope string_scope.
Local Open Scope list_scope.
Local Open Scope Z_scope.

(** ** Python values, exceptions and results *)

Module Py.

(** binary64 *)
Definition float := spec_float.
Definition prec : Z := 53.
Definition emax : Z := 1024.

Definition fadd : float -> float -> float := SFadd prec emax.
Definition fsub : float -> float -> float := SFsub prec emax.
Definition fmul : float -> float -> float := SFmul prec emax.
Definition fdiv : float -> float -> float := SFdiv prec emax.
Definition flt : float -> float -> bool := SFltb.
Definition feq : float -> float -> bool := SFeqb.

(** [a <= b]; it fails when one of the two is a NaN. *)
Definition leq (a b : float) : Prop := SFleb a b = true.

Definition is_nan (f : float) : bool :=
  match f with S754_nan => true | _ => false end.

Definition is_finite (f : float) : bool :=
  match f with S754_zero _ | S754_finite _ _ _ => true | _ => false end.

(** The exceptions the modelled code can meet.  [Sqlite3Error] stands for
    [sqlite3.Error] and all of its subclasses. *)
Inductive exn :=
| JSONDecodeError | UnicodeDecodeError
| TypeError | AttributeError | ValueError | IndexError | KeyError
| OverflowError | ZeroDivisionError | OSError
| Sqlite3Error
| SystemExit.

(** [except Exception] catches everything but [SystemExit]. *)
Definition is_Exception (e : exn) : bool :=
  match e with SystemExit => false | _ => true end.

Definition is_sqlite3_Error (e : exn) : bool :=
  match e with Sqlite3Error => true | _ => false end.

Inductive result (A : Type) :=
| Ok (a : A)
| Raise (e : exn).
Arguments Ok {A} a.
Arguments Raise {A} e.

(** What [json.loads] can produce, which is also what is bound to the
    parameters of an SQL statement.  A dict keeps its items in insertion
    order. *)
Inductive value :=
| PyNone
| PyBool (b : bool)
| PyInt (z : Z)
| PyFloat (f : float)
| PyStr (s : string)
| PyList (l : list value)
| PyDict (items : list (string * value)).

(** [int -> float], round to nearest even ([PyLong_AsDouble]). *)
Definition float_of_int (z : Z) : result float :=
  match binary_normalize prec emax z 0 false with
  | S754_infinity _ => Raise OverflowError
  | f => Ok f
  end.

(** [int(x)] for a float: truncation towards zero. *)
Definition int_of_float (f : float) : result Z :=
  match f with
  | S754_nan => Raise ValueError
  | S754_infinity _ => Raise OverflowError
  | S754_zero _ => Ok 0
  | S754_finite s m e =>
      Ok (cond_Zopp s (match e with
                       | Z0 => Zpos m
                       | Zpos p => Zpos m * 2 ^ Zpos p
                       | Zneg p => Zpos m / 2 ^ Zpos p
                       end))
  end.

(** [d.get(k)] on the items of a dict. *)
Fixpoint dict_get (items : list (string * value)) (k : string) : option value :=
  match items with
  | [] => None
  | (k', v) :: rest => if String.eqb k' k then Some v else dict_get rest k
  end.

(** [needle in hay] for two strings. *)
Fixpoint str_contains (needle hay : string) : bool :=
  if prefix needle hay then true
  else match hay with
       | EmptyString => false
       | String _ rest => str_contains needle rest
       end.

(** [k in x] for a string [k]: key of a dict, element of a list,
    substring of a string; other values are not iterable. *)
Definition contains (k : string) (x : value) : result bool :=
  match x with
  | PyDict items => Ok (match dict_get items k with Some _ => true | None => false end)
  | PyList l => Ok (existsb (fun v => match v with PyStr s => String.eqb s k | _ => false end) l)
  | PyStr s => Ok (str_contains k s)
  | _ => Raise TypeError
  end.

(** [x[k]] for a string [k]. *)
Definition getitem (x : value) (k : string) : result value :=
  match x with
  | PyDict items => match dict_get items k with Some v => Ok v | None => Raise KeyError end
  | _ => Raise TypeError
  end.

(** The float that stands for [v] in float arithmetic: [v] must be a
    number ([bool] is an [int]). *)
Definition as_float (v : value) : result float :=
  match v with
  | PyFloat b => Ok b
  | PyInt z => float_of_int z
  | PyBool b => float_of_int (if b then 1 else 0)
  | _ => Raise TypeError
  end.

(** [a - v] for a float [a]. *)
Definition float_sub_value (a : float) (v : value) : result float :=
  match as_float v with
  | Ok b => Ok (fsub a b)
  | Raise e => Raise e
  end.

(** [n / r] for an int [n] and a float [r]. *)
Definition int_truediv_float (n : Z) (r : float) : result float :=
  match float_of_int n with
  | Raise e => Raise e
  | Ok a => match r with
            | S754_zero _ => Raise ZeroDivisionError
            | _ => Ok (fdiv a r)
            end
  end.

(** The builtin [min] and [max] keep the first of several equal extremes. *)
Definition py_min (l : list float) : result float :=
  match l with
  | [] => Raise ValueError
  | x :: rest => Ok (fold_left (fun cur item => if flt item cur then item else cur) rest x)
  end.

Definition py_max (l : list float) : result float :=
  match l with
  | [] => Raise ValueError
  | x :: rest => Ok (fold_left (fun cur item => if flt cur item then item else cur) rest x)
  end.

(** [sorted] on floats that [<] orders, that is, with no NaN among
    them: the list in ascending order, equal elements in the order in
    which they came (the sort is stable).  An insertion sort gives that
    list. *)
Fixpoint insert (x : float) (l : list float) : list float :=
  match l with
  | [] => [x]
  | y :: rest => if flt y x then y :: insert x rest else x :: l
  end.

Fixpoint sort_ordered (l : list float) : list float :=
  match l with
  | [] => []
  | x :: rest => insert x (sort_ordered rest)
  end.

Definition has_nan (l : list float) : bool := existsb is_nan l.

(** [l[i]]: a negative index counts from the end. *)
Definition list_getitem {A : Type} (l : list A) (i : Z) : result A :=
  let j := if i <? 0 then i + Z.of_nat (List.length l) else i in
  if j <? 0 then Raise IndexError
  else match nth_error l (Z.to_nat j) with
       | Some x => Ok x
       | None => Raise IndexError
       end.

Inductive level := INFO | WARNING | ERROR.

(** A log record: level, the fixed part of the message, and the values
    interpolated into it. *)
Record log_record := LogRecord {
  levelname : level;
  msg : string;
  args : list value
}.

End Py.
Import Py.

(** ** The SQLite connection

    Rows are the values bound to the parameters of the [INSERT]
    statements, before the column affinities of the tables convert
    them.  The connection keeps the rows of the open transaction apart
    from the committed ones; [commit] moves the former to the latter. *)

Module Sqlite.

Inductive row :=
| SensorData (timestamp receive_time message_id device_id latency_ms : value)
| SensorReading (data_id : Z) (angle : value) (reading : value)
| PerformanceStats (timestamp message_count avg_latency min_latency
                    max_latency p95_latency throughput : value).

Record connection := Connection {
  durable : list row;      (* committed *)
  pending : list row;      (* written in the open transaction *)
  closed : bool;
  commit_log : list nat    (* per commit(): the sensor_data rows then durable *)
}.

Definition is_sensor_data (r : row) : bool :=
  match r with SensorData _ _ _ _ _ => true | _ => false end.

Definition is_performance_stats (r : row) : bool :=
  match r with PerformanceStats _ _ _ _ _ _ _ => true | _ => false end.

Definition scans (rows : list row) : list row := filter is_sensor_data rows.
Definition snapshots (rows : list row) : list row := filter is_performance_stats rows.

Definition connect : connection :=
  {| durable := []; pending := []; closed := false; commit_log := [] |}.

(** Binding one parameter: [None], [int] (64 bits), [float] and [str] are
    supported. *)
Definition bind_param (v : value) : result unit :=
  match v with
  | PyNone | PyBool _ | PyFloat _ | PyStr _ => Ok tt
  | PyInt z => if (- 2 ^ 63 <=? z) && (z <? 2 ^ 63) then Ok tt else Raise OverflowError
  | PyList _ | PyDict _ => Raise Sqlite3Error
  end.

Fixpoint bind_params (vs : list value) : result unit :=
  match vs with
  | [] => Ok tt
  | v :: rest => match bind_param v with
                 | Ok _ => bind_params rest
                 | Raise e => Raise e
                 end
  end.

(** What SQLite is given for a parameter: a [bool] is bound as the
    integer it is, and a NaN is bound as NULL ([sqlite3_bind_double]
    takes a NaN for NULL). *)
Definition bound (v : value) : value :=
  match v with
  | PyBool b => PyInt (if b then 1 else 0)
  | PyFloat S754_nan => PyNone
  | _ => v
  end.

Definition bound_row (r : row) : row :=
  match r with
  | SensorData a b c d e => SensorData (bound a) (bound b) (bound c) (bound d) (bound e)
  | SensorReading i a v => SensorReading i (bound a) (bound v)
  | PerformanceStats a b c d e f g =>
      PerformanceStats (bound a) (bound b) (bound c) (bound d) (bound e) (bound f) (bound g)
  end.

Definition not_null (v : value) : bool :=
  match v with PyNone => false | _ => true end.

(** The columns of a row and the [NOT NULL] constraints on the values
    bound to them, as declared by [ensure_db_schema]. *)
Definition params (r : row) : list value :=
  match r with
  | SensorData a b c d e => [a; b; c; d; e]
  | SensorReading _ a v => [a; v]   (* [data_id] is a rowid of the database's own *)
  | PerformanceStats a b c d e f g => [a; b; c; d; e; f; g]
  end.

Definition constraints_ok (r : row) : bool :=
  match r with
  | SensorData ts rt _ dev _ => not_null ts && not_null rt && not_null dev
  | SensorReading _ a v => not_null a && not_null v
  | PerformanceStats ts n _ _ _ _ _ => not_null ts && not_null n
  end.

(** [cursor.execute("INSERT ...", params)]: the parameters [r] are
    bound, then the statement runs and the constraints are checked on
    what was bound. *)
Definition execute_insert (c : connection) (r : row) : result unit * connection :=
  if closed c then (Raise Sqlite3Error, c)
  else match bind_params (params r) with
       | Raise e => (Raise e, c)
       | Ok _ =>
           if constraints_ok (bound_row r)
           then (Ok tt, {| durable := durable c; pending := pending c ++ [bound_row r];
                           closed := closed c; commit_log := commit_log c |})
           else (Raise Sqlite3Error, c)
       end.

(** [cursor.executemany]: the rows one after the other, up to the first
    that fails. *)
Fixpoint insert_each (c : connection) (rs : list row) : result unit * connection :=
  match rs with
  | [] => (Ok tt, c)
  | r :: rest => match execute_insert c r with
                 | (Ok _, c') => insert_each c' rest
                 | (Raise e, c') => (Raise e, c')
                 end
  end.

Definition executemany_insert (c : connection) (rs : list row) : result unit * connection :=
  if closed c then (Raise Sqlite3Error, c) else insert_each c rs.

(** [cursor.execute("CREATE TABLE IF NOT EXISTS ...")] for a table that
    [ensure_db_schema] has created. *)
Definition execute_create_if_not_exists (c : connection) : result unit * connection :=
  if closed c then (Raise Sqlite3Error, c) else (Ok tt, c).

(** [cursor.lastrowid] after an insert into [sensor_data]
    ([AUTOINCREMENT], nothing is ever deleted). *)
Definition lastrowid (c : connection) : Z :=
  Z.of_nat (List.length (scans (durable c ++ pending c))).

Definition commit (c : connection) : result unit * connection :=
  if closed c then (Raise Sqlite3Error, c)
  else (Ok tt, {| durable := durable c ++ pending c; pending := [];
                  closed := false;
                  commit_log := commit_log c ++ [List.length (scans (durable c ++ pending c))] |}).

(** [close()] discards the open transaction. *)
Definition close (c : connection) : connection :=
  {| durable := durable c; pending := []; closed := true; commit_log := commit_log c |}.

End Sqlite.
Import Sqlite.

(** ** receiver/receiver.py *)

Module Receiver.

(** The module globals, the clock position and the logger's output. *)
Record state := State {
  latencies : list float;
  message_counts : Z;
  start_time : option float;
  last_report_time : float;
  db_connection : option connection;   (* [db_cursor] is its cursor *)
  ticks : nat;                         (* calls of [time.time] so far *)
  log : list log_record
}.

(** Statements run in a state; an exception leaves the state as it was
    when it was raised. *)
Definition M (A : Type) : Type := state -> result A * state.

Definition ret {A} (a : A) : M A := fun s => (Ok a, s).
Definition raise {A} (e : exn) : M A := fun s => (Raise e, s).
Definition bind {A B} (m : M A) (k : A -> M B) : M B :=
  fun s => match m s with
           | (Ok a, s') => k a s'
           | (Raise e, s') => (Raise e, s')
           end.
Definition lift {A} (r : result A) : M A := fun s => (r, s).
Definition gets {A} (f : state -> A) : M A := fun s => (Ok (f s), s).
Definition modify (f : state -> state) : M unit := fun s => (Ok tt, f s).

(** [try: m  except ...: handler]; the handler answers [None] for an
    exception no clause matches. *)
Definition try_except {A} (m : M A) (handler : exn -> option (M A)) : M A :=
  fun s => match m s with
           | (Ok a, s') => (Ok a, s')
           | (Raise e, s') => match handler e with
                              | Some h => h s'
                              | None => (Raise e, s')
                              end
           end.

(** [try: m  finally: f] *)
Definition try_finally {A} (m : M A) (f : M unit) : M A :=
  fun s => match m s with
           | (r, s') => match f s' with
                        | (Ok _, s'') => (r, s'')
                        | (Raise e, s'') => (Raise e, s'')
                        end
           end.

Declare Scope py_scope.
Delimit Scope py_scope with py.
Notation "x <- m ;; k" := (bind m (fun x => k))
  (at level 61, m at next level, right associativity) : py_scope.
Notation "m ;; k" := (bind m (fun _ => k))
  (at level 61, right associativity) : py_scope.
Local Open Scope py_scope.

Definition set_latencies (l : list float) (s : state) : state :=
  {| latencies := l; message_counts := message_counts s; start_time := start_time s;
     last_report_time := last_report_time s; db_connection := db_connection s;
     ticks := ticks s; log := log s |}.
Definition set_message_counts (n : Z) (s : state) : state :=
  {| latencies := latencies s; message_counts := n; start_time := start_time s;
     last_report_time := last_report_time s; db_connection := db_connection s;
     ticks := ticks s; log := log s |}.
Definition set_start_time (t : option float) (s : state) : state :=
  {| latencies := latencies s; message_counts := message_counts s; start_time := t;
     last_report_time := last_report_time s; db_connection := db_connection s;
     ticks := ticks s; log := log s |}.
Definition set_last_report_time (t : float) (s : state) : state :=
  {| latencies := latencies s; message_counts := message_counts s; start_time := start_time s;
     last_report_time := t; db_connection := db_connection s;
     ticks := ticks s; log := log s |}.
Definition set_db_connection (c : option connection) (s : state) : state :=
  {| latencies := latencies s; message_counts := message_counts s; start_time := start_time s;
     last_report_time := last_report_time s; db_connection := c;
     ticks := ticks s; log := log s |}.
Definition set_ticks (n : nat) (s : state) : state :=
  {| latencies := latencies s; message_counts := message_counts s; start_time := start_time s;
     last_report_time := last_report_time s; db_connection := db_connection s;
     ticks := n; log := log s |}.
Definition set_log (l : list log_record) (s : state) : state :=
  {| latencies := latencies s; message_counts := message_counts s; start_time := start_time s;
     last_report_time := last_report_time s; db_connection := db_connection s;
     ticks := ticks s; log := l |}.

Definition logger (lvl : level) (m : string) (a : list value) : M unit :=
  modify (fun s => set_log (log s ++ [LogRecord lvl m a]) s).

(** A method of the connection or of its cursor; both are [None] until
    [setup_database] has run. *)
Definition db {A} (f : connection -> result A * connection) : M A :=
  fun s => match db_connection s with
           | None => (Raise AttributeError, s)
           | Some c => let (r, c') := f c in (r, set_db_connection (Some c') s)
           end.

Definition reporting_interval : Z := 5.

Definition f1000 : float := S754_finite false (1000 * 2 ^ 43) (-43).
Definition f0_95 : float := S754_finite false 8556839292003942 (-53).
Definition f_reporting_interval : float := S754_finite false (5 * 2 ^ 50) (-50).

Definition value_of_latency (latency : option float) : value :=
  match latency with Some l => PyFloat l | None => PyNone end.

Definition dict_get_default (items : list (string * value)) (k : string) (d : value) : value :=
  match dict_get items k with Some v => v | None => d end.

Section WithEnvironment.

(** [time.time()]: the reading of the n-th call. *)
Variable clock : nat -> float.
(** [statistics.mean] on a non-empty list of floats. *)
Variable statistics_mean : list float -> float.
(** [sorted] on a list that holds a NaN: [<] does not order such a
    list, and what comes out depends on the merges the interpreter's
    sort happens to make. *)
Variable sort_unordered : list float -> list float.

Definition sorted (l : list float) : list float :=
  if has_nan l then sort_unordered l else sort_ordered l.

Definition time_time : M float :=
  fun s => (Ok (clock (ticks s)), set_ticks (S (ticks s)) s).

Definition setup_database : M unit :=
  modify (set_db_connection (Some connect)) ;;
  logger INFO "Database ready" [].

Definition close_database : M unit :=
  c <- gets db_connection ;;
  match c with
  | Some _ =>
      db commit ;;
      db (fun c => (Ok tt, close c)) ;;
      logger INFO "Database connection closed" []
  | None => ret tt
  end.

Definition on_connect : M unit :=
  logger INFO "Connected to broker" [] ;;
  t <- time_time ;;
  modify (set_start_time (Some t)).

Definition save_statistics_snapshot
    (avg_latency min_latency max_latency p95_latency throughput : float) : M unit :=
  try_except
    (db execute_create_if_not_exists ;;
     now <- time_time ;;
     n <- gets message_counts ;;
     db (fun c => execute_insert c
           (PerformanceStats (PyFloat now) (PyInt n) (PyFloat avg_latency)
              (PyFloat min_latency) (PyFloat max_latency) (PyFloat p95_latency)
              (PyFloat throughput))) ;;
     db commit ;;
     logger INFO "Performance statistics snapshot saved to database" [])
    (fun e => if is_sqlite3_Error e
              then Some (logger ERROR "Error saving performance stats" [])
              else None).

(** [int(len(latencies) * 0.95)] *)
Definition p95_index (n : nat) : result Z :=
  match float_of_int (Z.of_nat n) with
  | Raise e => Raise e
  | Ok len => int_of_float (fmul len f0_95)
  end.

(** [sorted(latencies)[int(len(latencies) * 0.95)]] *)
Definition p95_of (l : list float) : result float :=
  match p95_index (List.length l) with
  | Raise e => Raise e
  | Ok i => list_getitem (sorted l) i
  end.

Definition report_statistics : M unit :=
  l <- gets latencies ;;
  match l with
  | [] => ret tt
  | _ :: _ =>
      now <- time_time ;;
      st <- gets start_time ;;
      runtime <- lift (match st with
                       | Some t0 => Ok (fsub now t0)
                       | None => Raise TypeError
                       end) ;;
      n <- gets message_counts ;;
      throughput <- lift (int_truediv_float n runtime) ;;
      logger INFO "--- Communication Statistics ---" [] ;;
      logger INFO "Messages received" [PyInt n] ;;
      logger INFO "Average throughput" [PyFloat throughput] ;;
      let avg_latency := statistics_mean l in
      min_latency <- lift (py_min l) ;;
      max_latency <- lift (py_max l) ;;
      p95_latency <- lift (p95_of l) ;;
      logger INFO "Latency (ms)"
        [PyFloat avg_latency; PyFloat min_latency; PyFloat max_latency; PyFloat p95_latency] ;;
      logger INFO "-------------------------------" [] ;;
      if n mod (100 * reporting_interval) =? 0
      then save_statistics_snapshot avg_latency min_latency max_latency p95_latency throughput
      else ret tt
  end.

Definition store_message (data : value) (receive_time : float) (latency : option float)
  : M unit :=
  match data with
  | PyDict items =>
      now <- time_time ;;
      let timestamp := dict_get_default items "timestamp" (PyFloat now) in
      let message_id := dict_get_default items "message_id" (PyInt (-1)) in
      let device_id := dict_get_default items "device_id" (PyStr "unknown") in
      try_except
        (db (fun c => execute_insert c
               (SensorData timestamp (PyFloat receive_time) message_id device_id
                  (value_of_latency latency))) ;;
         data_id <- db (fun c => (Ok (lastrowid c), c)) ;;
         match dict_get items "readings" with
         | Some (PyDict readings) =>
             let reading_data :=
               map (fun '(angle, v) => SensorReading data_id (PyStr angle) v)
                   readings in
             db (fun c => executemany_insert c reading_data)
         | _ => ret tt
         end ;;
         n <- gets message_counts ;;
         if n mod 100 =? 0 then db commit else ret tt)
        (fun e => if is_sqlite3_Error e
                  then Some (logger ERROR "Database error" [] ;; db commit)
                  else None)
  | _ => raise AttributeError   (* no attribute [get] *)
  end.

(** [msg.payload] is given by what [json.loads] makes of it. *)
Definition on_message (payload : result value) : M unit :=
  receive_time <- time_time ;;
  try_except
    (data <- lift payload ;;
     has_send_time <- lift (contains "send_time" data) ;;
     latency <- (if has_send_time : bool
                 then
                   sent <- lift (getitem data "send_time") ;;
                   d <- lift (float_sub_value receive_time sent) ;;
                   let latency := fmul d f1000 in
                   modify (fun s => set_latencies (latencies s ++ [latency]) s) ;;
                   ret (Some latency)
                 else ret None) ;;
     modify (fun s => set_message_counts (message_counts s + 1) s) ;;
     store_message data receive_time latency ;;
     n <- gets message_counts ;;
     (if n mod 100 =? 0
      then
        match data with
        | PyDict items =>
            logger INFO "Received message" [PyInt n; dict_get_default items "message_id" PyNone]
        | _ => raise AttributeError
        end
      else ret tt) ;;
     now <- time_time ;;
     last <- gets last_report_time ;;
     if flt f_reporting_interval (fsub now last)
     then
       report_statistics ;;
       t <- time_time ;;
       modify (set_last_report_time t)
     else ret tt)
    (fun e => match e with
              | JSONDecodeError => Some (logger ERROR "Error decoding message" [])
              | _ => if is_Exception e
                     then Some (logger ERROR "Error processing message" [])
                     else None
              end).

Definition handle_exit : M unit :=
  logger INFO "Shutting down receiver..." [] ;;
  report_statistics ;;
  close_database ;;
  raise SystemExit.

(** The way out of [main] when a signal arrives during
    [client.loop_forever()]: the handler's exception meets the
    [except] clauses and the [finally] clause of [main]. *)
Definition main_interrupted : M unit :=
  try_finally
    (try_except handle_exit
       (fun e => if is_Exception e
                 then Some (logger ERROR "Error in main" [])
                 else None))
    close_database.

(** The messages of a run, in delivery order. *)
Fixpoint deliver (payloads : list (result value)) : M unit :=
  match payloads with
  | [] => ret tt
  | p :: rest => on_message p ;; deliver rest
  end.

(** The globals when the module has been loaded ([last_report_time] is
    the first clock reading), the database set up and the broker
    connected. *)
Definition loaded : state :=
  {| latencies := []; message_counts := 0; start_time := None;
     last_report_time := clock 0; db_connection := None; ticks := 1; log := [] |}.

Definition listening : state :=
  snd (on_connect (snd (setup_database loaded))).

End WithEnvironment.

End Receiver.

(** ** numpy arrays of coordinates

    The visualizer computes on float64 arrays with numpy, matplotlib and
    open3d.  Their element type and operations are the fields of a class;
    the code of the repository is written once for every instance. *)

Module Numpy.

Class Float64 (num : Type) := {
  zero : num;
  add : num -> num -> num;
  sub : num -> num -> num;
  mul : num -> num -> num;
  div : num -> num -> num;
  gt : num -> num -> bool;               (* [a > b] *)
  np_radians : num -> num;
  np_cos : num -> num;
  np_sin : num -> num;
  np_minimum : num -> num -> num;
  np_maximum : num -> num -> num;
  two : num;
  (** the builtin [float] on a string, [None] for [ValueError] *)
  float_of_string : string -> option num;
  (** [cm.get_cmap('viridis')], an RGBA colour *)
  colormap : num -> num * num * num * num
}.

Definition point (num : Type) : Type := num * num * num.
Definition color (num : Type) : Type := num * num * num.

End Numpy.
Import Numpy.

(** ** visualizer/visualizer.py *)

Module Visualizer.

(** [s.split(sep)] *)
Fixpoint split_from (sep : ascii) (cur : string) (s : string) : list string :=
  match s with
  | EmptyString => [cur]
  | String c rest =>
      if Ascii.eqb c sep then cur :: split_from sep EmptyString rest
      else split_from sep (cur ++ String c EmptyString)%string rest
  end.

Definition split (sep : ascii) (s : string) : list string :=
  split_from sep EmptyString s.

Section WithNumpy.
Context {num : Type} `{Float64 num}.

(** The dict that [get_latest_scan] and [get_historical_scan] build;
    a key that is missing is [None]. *)
Record scan_dict := ScanDict {
  timestamp : option num;
  device_id : option string;
  readings : option (list (string * num))
}.

(** [not scan_data] for a dict: it has no key. *)
Definition is_empty (d : scan_dict) : bool :=
  match timestamp d, device_id d, readings d with
  | None, None, None => true
  | _, _, _ => false
  end.

(** The builtin [max] over the values of a dict. *)
Definition max_values (vs : list num) : result num :=
  match vs with
  | [] => Raise ValueError
  | x :: rest => Ok (fold_left (fun cur item => if gt item cur then item else cur) rest x)
  end.

(** [float(angle_key.split('_')[1])] *)
Definition parse_angle (angle_key : string) : result num :=
  match nth_error (split "_"%char angle_key) 1 with
  | None => Raise IndexError
  | Some part => match float_of_string part with
                 | None => Raise ValueError
                 | Some a => Ok a
                 end
  end.

(** One turn of the loop over [readings.items()]. *)
Definition convert_reading (max_distance : num)
    (acc : list (point num) * list (color num) * list log_record)
    (item : string * num) : list (point num) * list (color num) * list log_record :=
  let '(points, colors, logs) := acc in
  let '(angle_key, distance) := item in
  match parse_angle angle_key with
  | Raise _ =>
      (points, colors,
       logs ++ [LogRecord WARNING "Could not parse angle from" [PyStr angle_key]])
  | Ok angle_deg =>
      let angle_rad := np_radians angle_deg in
      let x := mul distance (np_cos angle_rad) in
      let y := mul distance (np_sin angle_rad) in
      let z := zero in
      let norm_distance :=
        if gt max_distance zero then div distance max_distance else zero in
      let '(r, g, b, _) := colormap norm_distance in
      (points ++ [(x, y, z)], colors ++ [(r, g, b)], logs)
  end.

Definition convert_readings_to_points (scan_data : option scan_dict)
  : result (option (list (point num)) * option (list (color num))) * list log_record :=
  match scan_data with
  | None => (Ok (None, None), [])
  | Some d =>
      if is_empty d then (Ok (None, None), [])
      else match readings d with
           | None => (Ok (None, None), [])
           | Some rs =>
               match max_values (map snd rs) with
               | Raise e => (Raise e, [])
               | Ok max_distance =>
                   let '(points, colors, logs) :=
                     fold_left (convert_reading max_distance) rs ([], [], []) in
                   (Ok (Some points, Some colors), logs)
               end
           end
  end.

End WithNumpy.
Arguments scan_dict num : clear implicits.

End Visualizer.

(** ** visualizer/advanced_visualizer.py *)

Module AdvancedVisualizer.

Section WithOpen3d.
Context {num : Type} `{Float64 num}.

Definition plane_model : Type := num * num * num * num.

(** [pcd.remove_statistical_outlier(nb_neighbors, std_ratio)]: the
    cleaned points and their indices. *)
Variable remove_statistical_outlier :
  list (point num) -> Z -> num -> result (list (point num) * list nat).
(** [pcd.segment_plane(distance_threshold, ransac_n, num_iterations)]:
    the plane and the indices of its inliers. *)
Variable segment_plane :
  list (point num) -> num -> Z -> Z -> result (plane_model * list nat).
(** [pcd.select_by_index(indices, invert)] *)
Variable select_by_index : list (point num) -> list nat -> bool -> list (point num).

(** The attributes of [self] that the methods below write. *)
Record visualizer := Visualizer {
  ground_plane : option plane_model;
  logs : list log_record
}.

Definition logger (lvl : level) (m : string) (a : list value) (self : visualizer)
  : visualizer :=
  {| ground_plane := ground_plane self; logs := logs self ++ [LogRecord lvl m a] |}.

Definition len {A} (l : list A) : Z := Z.of_nat (List.length l).

(** [np.arange(n)] *)
Definition np_arange (n : nat) : list nat := seq 0 n.

Definition filter_outliers (self : visualizer) (points : list (point num))
    (nb_neighbors : Z) (std_ratio : num)
  : (list (point num) * list nat) * visualizer :=
  if len points <? nb_neighbors + 1 then
    ((points, np_arange (List.length points)),
     logger WARNING "Not enough points for outlier removal"
       [PyInt (nb_neighbors + 1); PyInt (len points)] self)
  else
    match remove_statistical_outlier points nb_neighbors std_ratio with
    | Ok (filtered_points, indices) =>
        ((filtered_points, indices),
         logger INFO "Filtered outlier points"
           [PyInt (len points - len filtered_points)] self)
    | Raise e =>
        ((points, np_arange (List.length points)),
         logger ERROR "Error in outlier removal" [] self)
    end.

(** Returns [(inlier_points, outlier_points, inliers)]. *)
Definition segment_ground_plane (self : visualizer) (points : list (point num))
    (distance_threshold : num) (ransac_n num_iterations : Z)
  : (list (point num) * list (point num) * list nat) * visualizer :=
  if len points <? ransac_n then
    ((points, [], []),
     logger WARNING "Not enough points for ground plane segmentation"
       [PyInt ransac_n; PyInt (len points)] self)
  else
    match segment_plane points distance_threshold ransac_n num_iterations with
    | Ok (model, inliers) =>
        let self := {| ground_plane := Some model; logs := logs self |} in
        let inlier_points := select_by_index points inliers false in
        let outlier_points := select_by_index points inliers true in
        ((inlier_points, outlier_points, inliers),
         logger INFO "Plane equation" []
           (logger INFO "Ground plane segmentation"
              [PyInt (len inlier_points); PyInt (len outlier_points)] self))
    | Raise e =>
        ((points, [], []), logger ERROR "Error in ground plane segmentation" [] self)
    end.

(** The dict that [calculate_object_dimensions] returns. *)
Record dimensions := Dimensions {
  center : point num;
  width : num;
  depth : num;
  height : num;
  min_coords : point num;
  max_coords : point num
}.

(** [np.min(points, axis=0)] and [np.max(points, axis=0)] on an array
    with at least one row. *)
Definition reduce_rows (f : num -> num -> num) (first : point num)
    (rest : list (point num)) : point num :=
  fold_left (fun '(ax, ay, az) '(x, y, z) => (f ax x, f ay y, f az z)) rest first.

Definition calculate_object_dimensions (self : visualizer) (points : list (point num))
  : option dimensions * visualizer :=
  if len points <? 3 then
    (None,
     logger WARNING "Not enough points to calculate dimensions" [PyInt (len points)] self)
  else
    match points with
    | [] => (None, logger ERROR "Error calculating object dimensions" [] self)
    | p :: rest =>
        let '(minx, miny, minz) := reduce_rows np_minimum p rest in
        let '(maxx, maxy, maxz) := reduce_rows np_maximum p rest in
        (Some {| center := (div (add minx maxx) two, div (add miny maxy) two,
                            div (add minz maxz) two);
                 width := sub maxx minx;
                 depth := sub maxy miny;
                 height := sub maxz minz;
                 min_coords := (minx, miny, minz);
                 max_coords := (maxx, maxy, maxz) |},
         self)
    end.

End WithOpen3d.

End AdvancedVisualizer.

(** ** Vocabulary of the statements *)

Module Spec.
Import Receiver.

(** All rows written so far, committed or not. *)
Definition rows (c : connection) : list row := durable c ++ pending c.

Definition add_rows (c : connection) (rs : list row) : connection :=
  {| durable := durable c; pending := pending c ++ rs;
     closed := closed c; commit_log := commit_log c |}.

Definition committed (c : connection) : connection :=
  {| durable := durable c ++ pending c; pending := []; closed := false;
     commit_log := commit_log c ++ [List.length (scans (durable c ++ pending c))] |}.

(** A row that [INSERT] accepts: its parameters can be bound, and
    what is bound meets the constraints. *)
Definition insertable (r : row) : bool :=
  match bind_params (params r) with
  | Ok _ => constraints_ok (bound_row r)
  | Raise _ => false
  end.

(** The Scan rows and the PerformanceSnapshot rows of the recorder's
    database. *)
Definition all_scans (s : state) : list row :=
  match db_connection s with Some c => scans (rows c) | None => [] end.

Definition all_snapshots (s : state) : list row :=
  match db_connection s with Some c => snapshots (rows c) | None => [] end.

Definition is_open (s : state) : Prop :=
  exists c, db_connection s = Some c /\ closed c = false.

(** The parameters of the Scan row that [store_message] writes for a
    payload, and the row: what is bound of them. *)
Definition scan_params (items : list (string * value)) (receive_time now : float)
    (latency : option float) : row :=
  SensorData (dict_get_default items "timestamp" (PyFloat now))
             (PyFloat receive_time)
             (dict_get_default items "message_id" (PyInt (-1)))
             (dict_get_default items "device_id" (PyStr "unknown"))
             (value_of_latency latency).

Definition scan_row (items : list (string * value)) (receive_time now : float)
    (latency : option float) : row :=
  bound_row (scan_params items receive_time now latency).

(** A field of the payload that is present can be stored: it is of a
    type SQLite binds and, where the column requires it, not null. *)
Definition bindable (v : value) : bool :=
  match bind_param v with Ok _ => true | Raise _ => false end.

Definition field_ok (required : bool) (items : list (string * value)) (k : string) : bool :=
  match dict_get items k with
  | None => true
  | Some v => bindable v && (negb required || not_null (bound v))
  end.

Definition scan_fields_ok (items : list (string * value)) : bool :=
  field_ok true items "timestamp" && field_ok false items "message_id"
  && field_ok true items "device_id".

(** [send_time], when present, is a number. *)
Definition send_time_ok (items : list (string * value)) : bool :=
  match dict_get items "send_time" with
  | None => true
  | Some v => match as_float v with Ok _ => true | Raise _ => false end
  end.

(** The rows that [store_message] hands to [executemany] for the
    readings of a payload, and what is bound of them. *)
Definition reading_params (data_id : Z) (items : list (string * value)) : list row :=
  match dict_get items "readings" with
  | Some (PyDict readings) =>
      map (fun '(angle, v) => SensorReading data_id (PyStr angle) v) readings
  | _ => []
  end.

Definition reading_rows (data_id : Z) (items : list (string * value)) : list row :=
  map bound_row (reading_params data_id items).

Definition readings_ok (items : list (string * value)) : bool :=
  forallb insertable (reading_params 0 items).

(** A payload that follows the message contract: its handling meets no
    error. *)
Definition well_formed (items : list (string * value)) : bool :=
  scan_fields_ok items && send_time_ok items && readings_ok items.

(** The latency of a payload received at [receive_time]. *)
Definition latency_of (items : list (string * value)) (receive_time : float) : option float :=
  match dict_get items "send_time" with
  | None => None
  | Some v => match as_float v with
              | Ok send_time => Some (fmul (fsub receive_time send_time) f1000)
              | Raise _ => None
              end
  end.

(** A state that differs in the connection, the clock and the log. *)
Definition upd (s : state) (c : connection) (tk : nat) (lg : list log_record) : state :=
  {| latencies := latencies s; message_counts := message_counts s;
     start_time := start_time s; last_report_time := last_report_time s;
     db_connection := Some c; ticks := tk; log := lg |}.

Definition latency_list (o : option float) : list float :=
  match o with Some l => [l] | None => [] end.

(** The parameters of the row that [save_statistics_snapshot] writes,
    and the row: what is bound of them. *)
Definition stats_params (now : float) (n : Z) (avg mn mx p95 throughput : float) : row :=
  PerformanceStats (PyFloat now) (PyInt n) (PyFloat avg) (PyFloat mn) (PyFloat mx)
    (PyFloat p95) (PyFloat throughput).

Definition stats_row (now : float) (n : Z) (avg mn mx p95 throughput : float) : row :=
  bound_row (stats_params now n avg mn mx p95 throughput).

(** An exception that [except Exception] catches. *)
Definition ordinary {A} (r : result A) : Prop :=
  match r with Ok _ => True | Raise e => is_Exception e = true end.

(** A delivered payload that decodes to a well-formed record. *)
Definition payload_ok (p : result value) : bool :=
  match p with
  | Ok (PyDict items) => well_formed items
  | _ => false
  end.

(** The transaction follows the message count [k]: all [k] Scan rows are
    written, those after the last multiple of 100 are still pending, and
    a commit was made at each multiple of 100 and at no other count. *)
Definition cadence (c : connection) (k : nat) : Prop :=
  List.length (scans (rows c)) = k
  /\ List.length (scans (pending c)) = (k mod 100)%nat
  /\ (forall j, In j (commit_log c) <-> (0 < j <= k /\ j mod 100 = 0)%nat)
  /\ ((k < 500)%nat -> commit_log c = map (Nat.mul 100) (seq 1 (k / 100))).

(** *** A sample run

    A clock that advances by 1/1024 s per reading, a mean for
    [statistics.mean], and a payload of the sender. *)
Definition ticks_1024 (n : Z) : float := binary_normalize prec emax n (-10) false.

Definition brisk_clock (n : nat) : float := ticks_1024 (Z.of_nat n).

Definition naive_mean (l : list float) : float :=
  fdiv (fold_left fadd l (S754_zero false)) (ticks_1024 (1024 * Z.of_nat (List.length l))).

Definition f100 : float := S754_finite false (100 * 2 ^ 46) (-46).
Definition f50 : float := S754_finite false (50 * 2 ^ 47) (-47).

Definition sample_items : list (string * value) :=
  [("timestamp", PyFloat (S754_zero false)); ("device_id", PyStr "raspberry-pi");
   ("message_id", PyInt 7); ("send_time", PyFloat (S754_zero false));
   ("readings", PyDict [("angle_0", PyFloat f100); ("angle_90", PyFloat f50)])].

Definition sample_payload : result value := Ok (PyDict sample_items).

(** The recorder after three messages of the sender. *)
Definition after_three : state :=
  snd (deliver brisk_clock naive_mean sort_ordered (repeat sample_payload 3)
         (listening brisk_clock)).

(** A clock that advances by one second per reading, and a recorder
    that has handled 499 messages, twelve seconds after its last
    report. *)
Definition slow_clock (n : nat) : float := ticks_1024 (1024 * Z.of_nat n).

Definition at_499 : state :=
  {| latencies := [f100]; message_counts := 499; start_time := Some (slow_clock 1);
     last_report_time := slow_clock 0; db_connection := Some connect;
     ticks := 10; log := [] |}.

(** After [j] right shifts of [P], a record holds the quotient, the bit
    shifted out last and whether a lower bit was set. *)
Definition shr_inv (P j : Z) (mrs : shr_record) : Prop :=
  0 <= shr_m mrs
  /\ exists t, 2 * P = shr_m mrs * 2 ^ (j + 1) + Z.b2z (shr_r mrs) * 2 ^ j + t
               /\ 0 <= t < 2 ^ j
               /\ (shr_s mrs = false <-> t = 0).

(** [a <= b], for the order that [<] sorts by. *)
Definition fle (a b : float) : Prop := flt b a = false.

End Spec.

Module VisualizerSpec.
Import Visualizer AdvancedVisualizer.

Section WithNumpy.
Context {num : Type} `{Float64 num}.

(** The readings whose label gives an angle, with that angle. *)
Definition parsed (rs : list (string * num)) : list (num * num) :=
  flat_map (fun '(angle_key, distance) =>
              match parse_angle angle_key with
              | Ok angle_deg => [(angle_deg, distance)]
              | Raise _ => []
              end) rs.

Definition cartesian (reading : num * num) : point num :=
  let '(angle_deg, distance) := reading in
  (mul distance (np_cos (np_radians angle_deg)),
   mul distance (np_sin (np_radians angle_deg)),
   zero).

End WithNumpy.

(** *** float64

    The arithmetic of numpy's float64 is that of [spec_float] at
    precision 53.  [np.cos] and [np.sin] call the C library, whose code
    is not part of the repository: they are parameters, as are the
    builtin [float] on strings and the colormap. *)

Definition f_pi : float := S754_finite false 7074237752028440 (-51).
Definition f180 : float := S754_finite false (180 * 2 ^ 45) (-45).

(** numpy's constant [NPY_PI / 180.0], by which [np.radians]
    multiplies *)
Definition deg2rad : float := fdiv f_pi f180.

Definition f2 : float := S754_finite false (2 ^ 52) (-51).

Definition binary64 (libm_cos libm_sin : float -> float)
    (parse : string -> option float) (cmap : float -> float * float * float * float)
  : Float64 float :=
  {| zero := S754_zero false;
     add := fadd;
     sub := fsub;
     mul := fmul;
     div := fdiv;
     gt := fun a b => flt b a;
     np_radians := fun x => fmul x deg2rad;
     np_cos := libm_cos;
     np_sin := libm_sin;
     (* a NaN wins, else the smaller (the larger) of the two *)
     np_minimum := fun a b => if is_nan a then a else if flt a b then a else b;
     np_maximum := fun a b => if is_nan a then a else if flt b a then a else b;
     two := f2;
     float_of_string := parse;
     colormap := cmap |}.

(** The real number that a float stands for (0 for an infinity and for
    a NaN, which stand for none). *)
Definition SF2R (f : float) : R :=
  match f with
  | S754_finite s m e => (IZR (cond_Zopp s (Z.pos m)) * powerRZ 2 e)%R
  | _ => 0%R
  end.

(** The C library's [libm] is, at the argument [x], within 2^-28 of the
    function [f] that it computes. *)
Definition accurate (libm : float -> float) (f : R -> R) (x : float) : Prop :=
  is_finite (libm x) = true /\ (Rabs (SF2R (libm x) - f (SF2R x)) <= / 2 ^ 28)%R.

(** A coordinate that is a number within 1e-6 of [r]. *)
Definition near (x : float) (r : R) : Prop :=
  is_finite x = true /\ (Rabs (SF2R x - r) <= / 1000000)%R.

(** *** Sample instances *)

Fixpoint decimal (acc : Z) (s : string) : option Z :=
  match s with
  | EmptyString => Some acc
  | String c rest =>
      let d := Z.of_nat (nat_of_ascii c) - 48 in
      if (0 <=? d) && (d <=? 9) then decimal (10 * acc + d) rest else None
  end.

(** [float] on unsigned decimal integers. *)
Definition integer_literal (s : string) : option float :=
  match s with
  | EmptyString => None
  | _ => option_map (fun z => binary_normalize prec emax z 0 false) (decimal 0 s)
  end.

Definition f0 : float := S754_zero false.
Definition f1 : float := S754_finite false (2 ^ 52) (-52).
Definition f10 : float := S754_finite false (10 * 2 ^ 49) (-49).
Definition f90 : float := S754_finite false (90 * 2 ^ 46) (-46).

(** A C library of which two values are known: at 0 and at the
    float64 next to a quarter turn. *)
Definition table_cos (x : float) : float :=
  if feq x f0 then f1
  else if feq x (fmul f90 deg2rad) then S754_finite false 4967757600021511 (-106)
  else S754_nan.

Definition table_sin (x : float) : float :=
  if feq x f0 then f0
  else if feq x (fmul f90 deg2rad) then f1
  else S754_nan.

Definition gray (x : float) : float * float * float * float := (x, x, x, f1).

Definition numpy : Float64 float := binary64 table_cos table_sin integer_literal gray.

Definition no_outlier_removal (points : list (point float)) (nb_neighbors : Z)
    (std_ratio : float)
  : result (list (point float) * list nat) := Raise ValueError.

Definition no_segment_plane (points : list (point float)) (distance_threshold : float)
    (ransac_n num_iterations : Z)
  : result (@plane_model float * list nat) := Raise ValueError.

Definition select_none (points : list (point float)) (indices : list nat) (invert : bool)
  : list (point float) := [].

Definition fresh : @visualizer float := {| ground_plane := None; logs := [] |}.

Definition two_points : list (point float) := [(f0, f0, f0); (f1, f0, f0)].

End VisualizerSpec.


(** ** Vocabulary of the recorder's invariants *)

Module Invariants.
Import Receiver Spec.

(** [l] begins with [p]. *)
Definition prefix_of {A : Type} (p l : list A) : Prop := exists rest, l = p ++ rest.

(** A later state of a connection: what was written or committed still
    is, in the same place, and it is as open or closed as it was. *)
Definition conn_extends (c c' : connection) : Prop :=
  prefix_of (rows c) (rows c')
  /\ prefix_of (durable c) (durable c')
  /\ prefix_of (commit_log c) (commit_log c')
  /\ closed c' = closed c.

Definition db_extends (d d' : option connection) : Prop :=
  match d, d' with
  | None, None => True
  | Some c, Some c' => conn_extends c c'
  | _, _ => False
  end.

(** A later state of the recorder while it listens. *)
Definition extends (s s' : state) : Prop :=
  prefix_of (latencies s) (latencies s')
  /\ message_counts s <= message_counts s'
  /\ start_time s' = start_time s
  /\ db_extends (db_connection s) (db_connection s')
  /\ (ticks s <= ticks s')%nat
  /\ prefix_of (log s) (log s').

Definition scan_count (s : state) : Z := Z.of_nat (List.length (all_scans s)).

(** From [s] to [s'] the state has only grown: the message count by at
    most [u], and the Scan rows by at most [j] more than the count. *)
Definition advance (j u : Z) (s s' : state) : Prop :=
  extends s s'
  /\ message_counts s' <= message_counts s + u
  /\ scan_count s' - scan_count s <= message_counts s' - message_counts s + j.

(** A statement that advances the state and raises nothing but what
    [except Exception] catches. *)
Definition runs {A : Type} (j u : Z) (m : M A) : Prop :=
  forall s, ordinary (fst (m s)) /\ advance j u s (snd (m s)).

(** The same for a method of the connection. *)
Definition conn_runs {A : Type} (j : Z) (f : connection -> result A * connection) : Prop :=
  forall c,
    ordinary (fst (f c)) /\ conn_extends c (snd (f c))
    /\ Z.of_nat (List.length (scans (rows (snd (f c)))))
       <= Z.of_nat (List.length (scans (rows c))) + j.

Definition is_dict (v : value) : bool :=
  match v with PyDict _ => true | _ => false end.

(** A row that [INSERT] refuses with an [sqlite3.Error]: a parameter of
    a type that is not supported, or a [NOT NULL] column for which
    NULL is bound. *)
Definition rejected (r : row) : bool :=
  match bind_params (params r) with
  | Ok _ => negb (constraints_ok (bound_row r))
  | Raise e => is_sqlite3_Error e
  end.

(** The state after [on_message] has logged an error. *)
Definition logged_error (m : string) (s : state) : state :=
  set_log (log s ++ [LogRecord ERROR m []]) s.

End Invariants.


(** ** visualizer/visualizer.py: reading scans back

    The queries are answered by the database, which is not part of the
    repository: what [fetchone] and [fetchall] return is given by the
    variables of the section, with the column types of the schema. *)

Module LidarVisualizer.
Import Visualizer.

Section WithDatabase.
Context {num : Type} `{Float64 num}.

(** A row of the join of [sensor_data] with [sensor_readings]:
    [s.id], [s.timestamp], [s.device_id], [r.angle], [r.value]. *)
Definition joined_row : Type := Z * num * string * string * num.

(** The truth value of a float: it is not zero. *)
Variable truth : num -> bool.
(** [sqlite3.connect(self.db_path)] *)
Variable sqlite3_connect : result unit.
(** [SELECT MAX(timestamp) FROM sensor_data], [None] on an empty table *)
Variable select_max_timestamp : result (option num).
(** the rows of the scan with a given timestamp, [ORDER BY r.angle] *)
Variable select_scan : num -> result (list joined_row).
(** [SELECT DISTINCT timestamp ... ORDER BY timestamp DESC LIMIT ?] *)
Variable select_timestamps : Z -> result (list num).
(** The Plotly figure of [create_plotly_point_cloud], which is drawn
    from the points, their colours and [self.latest_timestamp] (its
    title). *)
Variable figure : Type.
Variable go_Figure : list (point num) -> list (color num) -> option num -> figure.
(** [o3d.io.write_point_cloud(filename, cloud)] *)
Variable write_point_cloud :
  string -> list (point num) * list (color num) -> result unit.
(** [time.strftime("%Y-%m-%d %H:%M:%S", time.localtime(t))]:
    [localtime] raises [OverflowError] or [OSError] for a timestamp
    that the platform's [time_t] cannot hold; for [None] it takes the
    current time. *)
Variable strftime_localtime : option num -> result string.

(** The attributes of a [LidarVisualizer] and the records of its
    logger. *)
Record lidar := Lidar {
  local_conn : bool;                 (* [self.local.conn] is set *)
  latest_timestamp : option num;
  point_cloud : option (list (point num) * list (color num));
  records : list log_record
}.

Definition logger (lvl : level) (m : string) (a : list value) (self : lidar) : lidar :=
  {| local_conn := local_conn self; latest_timestamp := latest_timestamp self;
     point_cloud := point_cloud self;
     records := records self ++ [LogRecord lvl m a] |}.

Definition set_local_conn (b : bool) (self : lidar) : lidar :=
  {| local_conn := b; latest_timestamp := latest_timestamp self;
     point_cloud := point_cloud self; records := records self |}.

Definition set_latest_timestamp (t : option num) (self : lidar) : lidar :=
  {| local_conn := local_conn self; latest_timestamp := t;
     point_cloud := point_cloud self; records := records self |}.

Definition set_point_cloud (p : option (list (point num) * list (color num)))
    (self : lidar) : lidar :=
  {| local_conn := local_conn self; latest_timestamp := latest_timestamp self;
     point_cloud := p; records := records self |}.

(** Whether a connection is at hand. *)
Definition get_connection (self : lidar) : result bool * lidar :=
  if local_conn self then (Ok true, self)
  else match sqlite3_connect with
       | Ok _ => (Ok true, logger INFO "Connected to database" [] (set_local_conn true self))
       | Raise e =>
           if is_sqlite3_Error e
           then (Ok false, logger ERROR "Database connection error" [] self)
           else (Raise e, self)
       end.

Definition close_connection (self : lidar) : lidar :=
  if local_conn self
  then logger INFO "Closed database connection" [] (set_local_conn false self)
  else self.

(** [d[k] = v] on the items of a dict: a key that is present keeps its
    place. *)
Fixpoint dict_setitem (d : list (string * num)) (k : string) (v : num)
  : list (string * num) :=
  match d with
  | [] => [(k, v)]
  | (k', v') :: rest =>
      if String.eqb k' k then (k', v) :: rest else (k', v') :: dict_setitem rest k v
  end.

(** [d.get(k)] *)
Fixpoint dict_lookup (d : list (string * num)) (k : string) : option num :=
  match d with
  | [] => None
  | (k', v) :: rest => if String.eqb k' k then Some v else dict_lookup rest k
  end.

(** The loop over the rows: [readings[row[3]] = row[4]]. *)
Definition readings_of (rows : list joined_row) : list (string * num) :=
  fold_left (fun readings '(_, _, _, angle_key, distance) =>
               dict_setitem readings angle_key distance) rows [].

Definition get_latest_scan (self : lidar) : result (option (scan_dict num)) * lidar :=
  match get_connection self with
  | (Raise e, self) => (Raise e, self)
  | (Ok false, self) => (Ok None, self)
  | (Ok true, self) =>
      let failed e self :=
        if is_sqlite3_Error e
        then (Ok None, logger ERROR "Database query error" [] self)
        else (Raise e, self) in
      match select_max_timestamp with
      | Raise e => failed e self
      | Ok None => (Ok None, logger WARNING "No data found in database" [] self)
      | Ok (Some latest_time) =>
          if truth latest_time then
            match select_scan latest_time with
            | Raise e => failed e self
            | Ok [] =>
                (Ok None,
                 logger WARNING "No readings found for the latest timestamp" [] self)
            | Ok (((_, _, device_id, _, _) :: _) as rows) =>
                let self := set_latest_timestamp (Some latest_time) self in
                (Ok (Some (ScanDict (Some latest_time) (Some device_id)
                             (Some (readings_of rows)))),
                 self)
            end
          else (Ok None, logger WARNING "No data found in database" [] self)
      end
  end.

Definition get_historical_scan (timestamp : num) (self : lidar)
  : result (option (scan_dict num)) * lidar :=
  match get_connection self with
  | (Raise e, self) => (Raise e, self)
  | (Ok false, self) => (Ok None, self)
  | (Ok true, self) =>
      match select_scan timestamp with
      | Raise e =>
          if is_sqlite3_Error e
          then (Ok None, logger ERROR "Database query error" [] self)
          else (Raise e, self)
      | Ok [] => (Ok None, logger WARNING "No readings found for timestamp" [] self)
      | Ok (((_, _, device_id, _, _) :: _) as rows) =>
          (Ok (Some (ScanDict (Some timestamp) (Some device_id)
                       (Some (readings_of rows)))),
           self)
      end
  end.

Definition get_timestamp_list (limit : Z) (self : lidar) : result (list num) * lidar :=
  match get_connection self with
  | (Raise e, self) => (Raise e, self)
  | (Ok false, self) => (Ok [], self)
  | (Ok true, self) =>
      match select_timestamps limit with
      | Raise e =>
          if is_sqlite3_Error e
          then (Ok [], logger ERROR "Database query error" [] self)
          else (Raise e, self)
      | Ok timestamps => (Ok timestamps, self)
      end
  end.

(** [None] without points, else the figure. *)
Definition create_plotly_point_cloud (points : option (list (point num)))
    (colors : list (color num)) (self : lidar) : option figure :=
  match points with
  | None | Some [] => None
  | Some points => Some (go_Figure points colors (latest_timestamp self))
  end.

(** The part that [process_latest_scan] and [process_scan_by_timestamp]
    share, from the scan to the figure. *)
Definition process (scan : result (option (scan_dict num)) * lidar)
  : result (option figure) * lidar :=
  match scan with
  | (Raise e, self) => (Raise e, self)
  | (Ok None, self) => (Ok None, self)
  | (Ok (Some scan_data), self) =>
      match convert_readings_to_points (Some scan_data) with
      | (Raise e, logs) =>
          (Raise e,
           {| local_conn := local_conn self; latest_timestamp := latest_timestamp self;
              point_cloud := point_cloud self; records := records self ++ logs |})
      | (Ok (points, colors), logs) =>
          let self :=
            {| local_conn := local_conn self; latest_timestamp := latest_timestamp self;
               point_cloud := point_cloud self; records := records self ++ logs |} in
          match points, colors with
          | Some (p :: ps), Some colors =>
              let self := set_point_cloud (Some (p :: ps, colors)) self in
              (Ok (create_plotly_point_cloud (Some (p :: ps)) colors self), self)
          | Some (p :: ps), None => (Raise TypeError, self)
          | _, _ => (Ok None, self)
          end
      end
  end.

Definition process_latest_scan (self : lidar) : result (option figure) * lidar :=
  process (get_latest_scan self).

Definition process_scan_by_timestamp (timestamp : num) (self : lidar)
  : result (option figure) * lidar :=
  process (get_historical_scan timestamp self).

(** The dict of [get_latest_metadata]; [None] stands for the empty
    dict. *)
Record metadata := Metadata {
  meta_timestamp : option num;
  datetime : string;
  point_count : Z
}.

Definition is_set (t : option num) : bool :=
  match t with Some t => truth t | None => false end.

Definition get_latest_metadata (self : lidar) : result (option metadata) * lidar :=
  let answer self :=
    match strftime_localtime (latest_timestamp self) with
    | Raise e => (Raise e, self)
    | Ok text =>
        (Ok (Some {| meta_timestamp := latest_timestamp self;
                     datetime := text;
                     point_count := match point_cloud self with
                                    | Some (points, _) => Z.of_nat (List.length points)
                                    | None => 0
                                    end |}),
         self)
    end in
  if is_set (latest_timestamp self) then answer self
  else match get_latest_scan self with
       | (Raise e, self) => (Raise e, self)
       | (Ok None, self) => (Ok None, self)
       | (Ok (Some _), self) => answer self
       end.

(** The files written, newest first. *)
Definition files : Type := list (string * (list (point num) * list (color num))).

Definition save_point_cloud (filename : string) (self : lidar) (fs : files)
  : bool * lidar * files :=
  match point_cloud self with
  | None => (false, logger WARNING "No point cloud to save" [] self, fs)
  | Some cloud =>
      match write_point_cloud filename cloud with
      | Ok _ => (true, logger INFO "Point cloud saved" [PyStr filename] self,
                 (filename, cloud) :: fs)
      | Raise e => (false, logger ERROR "Error saving point cloud" [] self, fs)
      end
  end.

End WithDatabase.

(** The distance of the last row with the label [k]. *)
Definition last_value {num : Type} (rows : list (@joined_row num)) (k : string)
  : option num :=
  fold_left (fun acc '(_, _, _, angle_key, distance) =>
               if String.eqb angle_key k then Some distance else acc) rows None.

End LidarVisualizer.

(** ** visualizer/point_cloud_server.py: the callbacks *)

Module PointCloudServer.
Import Visualizer LidarVisualizer.

Section WithDatabase.
Context {num : Type} `{Float64 num}.
Variable truth : num -> bool.
Variable sqlite3_connect : result unit.
Variable select_max_timestamp : result (option num).
Variable select_scan : num -> result (list (@joined_row num)).
Variable figure : Type.
Variable go_Figure : list (point num) -> list (color num) -> option num -> figure.
Variable write_point_cloud :
  string -> list (point num) * list (color num) -> result unit.
Variable strftime_localtime : option num -> result string.
(** ["/tmp/point_cloud_{timestamp}.ply"] *)
Variable ply_path : num -> string.

(** What [update_point_cloud] shows: a figure, and under it the
    date and time of the metadata (['Unknown'] without one) and the
    number of points. *)
Inductive shown :=
| NoDataSelected
| FailedToGenerate
| Cloud (fig : figure) (datetime : option string) (points : Z).

Definition update_point_cloud (timestamp : option num) (visualizer : @lidar num)
  : result shown * @lidar num :=
  match timestamp with
  | None => (Ok NoDataSelected, visualizer)
  | Some timestamp =>
      match process_scan_by_timestamp sqlite3_connect select_scan figure go_Figure
              timestamp visualizer with
      | (Raise e, visualizer) => (Raise e, visualizer)
      | (Ok None, visualizer) => (Ok FailedToGenerate, visualizer)
      | (Ok (Some fig), visualizer) =>
          match get_latest_metadata truth sqlite3_connect select_max_timestamp
                  select_scan strftime_localtime visualizer with
          | (Raise e, visualizer) => (Raise e, visualizer)
          | (Ok None, visualizer) => (Ok (Cloud fig None 0), visualizer)
          | (Ok (Some m), visualizer) =>
              (Ok (Cloud fig (Some (datetime m)) (point_count m)), visualizer)
          end
      end
  end.

(** The file that [download_point_cloud] sends, if any. *)
Definition download_point_cloud (timestamp : option num) (visualizer : @lidar num)
    (fs : @files num) : result (option string) * @lidar num * @files num :=
  match timestamp with
  | None => (Ok None, visualizer, fs)
  | Some timestamp =>
      match process_scan_by_timestamp sqlite3_connect select_scan figure go_Figure
              timestamp visualizer with
      | (Raise e, visualizer) => (Raise e, visualizer, fs)
      | (Ok _, visualizer) =>
          let filename := ply_path timestamp in
          match save_point_cloud write_point_cloud filename visualizer fs with
          | (true, visualizer, fs) => (Ok (Some filename), visualizer, fs)
          | (false, visualizer, fs) => (Ok None, visualizer, fs)
          end
      end
  end.

End WithDatabase.

End PointCloudServer.


(** ** Vocabulary of the further statements on point clouds *)

Module CloudSpec.
Import Visualizer AdvancedVisualizer VisualizerSpec.

(** A string without the character [sep]. *)
Fixpoint no_sep (sep : ascii) (s : string) : bool :=
  match s with
  | EmptyString => true
  | String c rest => negb (Ascii.eqb c sep) && no_sep sep rest
  end.

Section WithNumpy.
Context {num : Type} `{Float64 num}.

(** The labels that give no angle, in the order of the readings. *)
Definition unparsed (rs : list (string * num)) : list string :=
  flat_map (fun '(angle_key, _) =>
              match parse_angle (num := num) angle_key with
              | Ok _ => []
              | Raise _ => [angle_key]
              end) rs.

Definition could_not_parse (angle_key : string) : log_record :=
  LogRecord WARNING "Could not parse angle from" [PyStr angle_key].

(** The distance of a reading against the largest distance of the
    scan, as the colormap receives it. *)
Definition norm_distance (max_distance distance : num) : num :=
  if gt max_distance zero then div distance max_distance else zero.

Definition colour_of (max_distance : num) (reading : num * num) : color num :=
  let '(r, g, b, _) := colormap (norm_distance max_distance (snd reading)) in (r, g, b).

End WithNumpy.

(** A point within the box between two corners. *)
Definition within_box (lo hi p : point float) : Prop :=
  let '(lx, ly, lz) := lo in
  let '(hx, hy, hz) := hi in
  let '(x, y, z) := p in
  (leq lx x /\ leq x hx) /\ (leq ly y /\ leq y hy) /\ (leq lz z /\ leq z hz).

(** A point none of whose coordinates is a NaN. *)
Definition numbers (p : point float) : bool :=
  let '(x, y, z) := p in negb (is_nan x) && negb (is_nan y) && negb (is_nan z).

End CloudSpec.


(** ** sender/sender.py: the test messages *)

Module Sender.

(** [str(i)] for a natural number *)
Definition str (n : nat) : string := NilZero.string_of_uint (Nat.to_uint n).

(** [range(0, 360, 10)] *)
Definition angles : list nat := map (Nat.mul 10) (seq 0 36).

Section WithEnvironment.
Variable DEVICE_ID : string.
(** [round(random.uniform(10, 500), 2)] as drawn for the angle [i] *)
Variable draw : nat -> float.

Definition generate_test_data (timestamp : float) : list (string * value) :=
  let readings :=
    map (fun i => (("angle_" ++ str i)%string, PyFloat (draw i))) angles in
  [("timestamp", PyFloat timestamp); ("device_id", PyStr DEVICE_ID);
   ("readings", PyDict readings)].

(** One turn of the loop of [main]: the data that [json.dumps]
    encodes, for the clock readings [timestamp] and [send_time]. *)
Definition message (message_id : Z) (timestamp send_time : float)
  : list (string * value) :=
  generate_test_data timestamp
  ++ [("message_id", PyInt message_id); ("send_time", PyFloat send_time)].

End WithEnvironment.

End Sender.


(** ** visualizer/advanced_visualizer.py: clustering and the pipeline *)

Module AdvancedPipeline.
Import Visualizer LidarVisualizer AdvancedVisualizer.

(** [np.unique]: the distinct values in ascending order *)
Fixpoint insert_unique (x : Z) (l : list Z) : list Z :=
  match l with
  | [] => [x]
  | y :: rest =>
      if x <? y then x :: l
      else if x =? y then l
      else y :: insert_unique x rest
  end.

Definition np_unique (l : list Z) : list Z := fold_right insert_unique [] l.

(** [np.where(labels == label)[0]] *)
Definition np_where_eq (labels : list Z) (label : Z) : list nat :=
  map fst (filter (fun '(_, l) => l =? label)
             (combine (seq 0 (List.length labels)) labels)).

(** [a[indices]] for an array of indices: each must lie within [a]. *)
Fixpoint take {A : Type} (a : list A) (indices : list nat) : result (list A) :=
  match indices with
  | [] => Ok []
  | i :: rest =>
      match nth_error a i with
      | None => Raise IndexError
      | Some x => match take a rest with
                  | Ok xs => Ok (x :: xs)
                  | Raise e => Raise e
                  end
      end
  end.

Section WithOpen3d.
Context {num : Type} `{Float64 num}.

Variable remove_statistical_outlier :
  list (point num) -> Z -> num -> result (list (point num) * list nat).
Variable segment_plane :
  list (point num) -> num -> Z -> Z -> result (@plane_model num * list nat).
Variable select_by_index : list (point num) -> list nat -> bool -> list (point num).
(** [pcd.cluster_dbscan(eps, min_points)]: the label of each point,
    [-1] for noise *)
Variable cluster_dbscan : list (point num) -> num -> Z -> result (list Z).

(** The loop over the labels: the points of each cluster. *)
Fixpoint gather (points : list (point num)) (labels : list Z) (unique_labels : list Z)
  : result (list (list (point num))) :=
  match unique_labels with
  | [] => Ok []
  | label :: rest =>
      match take points (np_where_eq labels label) with
      | Raise e => Raise e
      | Ok cluster_points =>
          match gather points labels rest with
          | Ok clusters => Ok (cluster_points :: clusters)
          | Raise e => Raise e
          end
      end
  end.

Definition cluster_points (self : @visualizer num) (points : list (point num))
    (eps : num) (min_points : Z)
  : (list (list (point num)) * list Z) * @visualizer num :=
  if len points <? min_points then
    (([], []),
     logger WARNING "Not enough points for clustering"
       [PyInt min_points; PyInt (len points)] self)
  else
    match cluster_dbscan points eps min_points with
    | Raise e => (([], []), logger ERROR "Error in clustering" [] self)
    | Ok labels =>
        let unique_labels := filter (fun l => 0 <=? l) (np_unique labels) in
        match gather points labels unique_labels with
        | Raise e => (([], []), logger ERROR "Error in clustering" [] self)
        | Ok clusters =>
            ((clusters, labels),
             logger INFO "Clustering found" [PyInt (len clusters)] self)
        end
    end.

(** *** [process_scan_with_advanced_features] *)

Variable truth : num -> bool.
Variable sqlite3_connect : result unit.
Variable select_max_timestamp : result (option num).
Variable select_scan : num -> result (list (@joined_row num)).
(** [colors[indices]] *)
Variable colors_at : list (color num) -> list nat -> result (list (color num)).
(** [colors[object_mask]] for the mask of length [n] that is false at
    the indices *)
Variable colors_outside : list (color num) -> Z -> list nat -> result (list (color num)).
(** The defaults [distance_threshold=10.0] and [eps=30.0] *)
Variable ten thirty : num.
(** The figure of [create_enhanced_plotly_figure], drawn from the
    original points and colours, those of the ground and of the
    objects, the clusters and the timestamp. *)
Variable figure : Type.
Variable enhanced_figure :
  list (point num) -> list (color num) -> list (point num) -> list (color num) ->
  list (point num) -> list (color num) -> list (list (point num)) -> option num -> figure.

Record cluster_dimension := ClusterDimension {
  cluster_id : Z;
  cluster_center : point num;
  cluster_width : num;
  cluster_depth : num;
  cluster_height : num;
  cluster_point_count : Z
}.

Record results := Results {
  scan_timestamp : option num;
  original_points : Z;
  filtered_points : Z;
  ground_points : Z;
  object_points : Z;
  clusters : Z;
  cluster_dimensions : option (list cluster_dimension)
}.

(** Step 1: the points and colours that go on, after the filter if it
    runs. *)
Definition filter_step (flag : bool) (self : @visualizer num)
    (points : list (point num)) (colors : list (color num))
  : result (list (point num) * list (color num)) * @visualizer num :=
  if flag && (20 <? len points) then
    let '((filtered_points, indices), self) :=
      filter_outliers remove_statistical_outlier self points 20 two in
    match colors_at colors indices with
    | Raise e => (Raise e, self)
    | Ok filtered_colors => (Ok (filtered_points, filtered_colors), self)
    end
  else (Ok (points, colors), self).

(** Step 2: the ground and the objects, each with its colours. *)
Definition ground_step (flag : bool) (self : @visualizer num)
    (points : list (point num)) (colors : list (color num))
  : result ((list (point num) * list (color num))
            * (list (point num) * list (color num))) * @visualizer num :=
  if flag && (3 <? len points) then
    let '((ground_points, object_points, ground_indices), self) :=
      segment_ground_plane segment_plane select_by_index self points ten 3 100 in
    if 0 <? len ground_indices then
      match colors_at colors ground_indices with
      | Raise e => (Raise e, self)
      | Ok ground_colors =>
          match colors_outside colors (len points) ground_indices with
          | Raise e => (Raise e, self)
          | Ok object_colors =>
              (Ok ((ground_points, ground_colors), (object_points, object_colors)), self)
          end
      end
    else (Ok ((ground_points, []), (object_points, [])), self)
  else (Ok (([], []), ([], [])), self).

(** The loop over [enumerate(clusters)]. *)
Fixpoint dimensions_loop (self : @visualizer num) (i : Z)
    (clusters : list (list (point num))) (acc : list cluster_dimension)
  : list cluster_dimension * @visualizer num :=
  match clusters with
  | [] => (acc, self)
  | cluster :: rest =>
      let '(dims, self) := calculate_object_dimensions self cluster in
      let acc :=
        match dims with
        | Some dims =>
            acc ++ [{| cluster_id := i; cluster_center := center dims;
                       cluster_width := width dims; cluster_depth := depth dims;
                       cluster_height := height dims;
                       cluster_point_count := len cluster |}]
        | None => acc
        end in
      dimensions_loop self (i + 1) rest acc
  end.

(** Step 3: the clusters of the objects and their dimensions. *)
Definition cluster_step (flag : bool) (self : @visualizer num)
    (object_points : list (point num))
  : (list (list (point num)) * option (list cluster_dimension)) * @visualizer num :=
  if flag && (10 <? len object_points) then
    let '((clusters, labels), self) := cluster_points self object_points thirty 10 in
    if 0 <? len clusters then
      let '(dims, self) := dimensions_loop self 0 clusters [] in
      ((clusters, Some dims), self)
    else ((clusters, None), self)
  else (([], None), self).

Definition with_records (logs : list log_record) (l : @lidar num) : @lidar num :=
  {| local_conn := local_conn l; latest_timestamp := latest_timestamp l;
     point_cloud := point_cloud l; records := records l ++ logs |}.

(** The method, on the attributes of the base class and of the
    subclass; [None] stands for the answer [None, {}]. *)
Definition process_scan_with_advanced_features (timestamp : option num)
    (filter_outliers segment_ground cluster_objects : bool)
    (self : @lidar num * @visualizer num)
  : result (option (figure * results)) * (@lidar num * @visualizer num) :=
  let '(base, self) := self in
  let '(scan, base) :=
    match timestamp with
    | Some t =>
        if truth t then get_historical_scan sqlite3_connect select_scan t base
        else get_latest_scan truth sqlite3_connect select_max_timestamp select_scan base
    | None => get_latest_scan truth sqlite3_connect select_max_timestamp select_scan base
    end in
  match scan with
  | Raise e => (Raise e, (base, self))
  | Ok None => (Ok None, (base, self))
  | Ok (Some scan_data) =>
      match convert_readings_to_points (Some scan_data) with
      | (Raise e, logs) => (Raise e, (with_records logs base, self))
      | (Ok (Some (p :: ps), Some colors), logs) =>
          let base := with_records logs base in
          let points := p :: ps in
          match filter_step filter_outliers self points colors with
          | (Raise e, self) => (Raise e, (base, self))
          | (Ok (filtered_points, filtered_colors), self) =>
              match ground_step segment_ground self filtered_points filtered_colors with
              | (Raise e, self) => (Raise e, (base, self))
              | (Ok ((ground, ground_colors), (objects, object_colors)), self) =>
                  let '((found, dims), self) := cluster_step cluster_objects self objects in
                  (Ok (Some
                         (enhanced_figure points colors ground ground_colors objects
                            object_colors found (Visualizer.timestamp scan_data),
                          {| scan_timestamp := Visualizer.timestamp scan_data;
                             original_points := len points;
                             filtered_points := len filtered_points;
                             ground_points := len ground;
                             object_points := len objects;
                             clusters := len found;
                             cluster_dimensions := dims |})),
                   (base, self))
              end
          end
      | (Ok (Some (p :: ps), None), logs) =>
          (Raise AttributeError, (with_records logs base, self))
      | (Ok _, logs) => (Ok None, (with_records logs base, self))
      end
  end.

End WithOpen3d.

(** The points with a given label. *)
Definition group {A : Type} (points : list A) (labels : list Z) (label : Z) : list A :=
  map fst (filter (fun '(_, l) => l =? label) (combine points labels)).

(** The points whose label is not negative. *)
Definition labelled {A : Type} (points : list A) (labels : list Z) : list A :=
  map fst (filter (fun '(_, l) => 0 <=? l) (combine points labels)).

(** The warnings of the stages that find too few points. *)
Definition too_few_points (r : log_record) : bool :=
  (msg r =? "Not enough points for outlier removal")%string
  || (msg r =? "Not enough points for ground plane segmentation")%string
  || (msg r =? "Not enough points for clustering")%string.

(** From [self] to [self'] the logger has received records, none of
    them such a warning. *)
Definition without_too_few_points {num : Type} (self self' : @visualizer num) : Prop :=
  exists new,
    logs self' = logs self ++ new /\ Forall (fun r => too_few_points r = false) new.

End AdvancedPipeline.


(** ** Sample inputs of the further statements *)

Module Samples.
Import Receiver Spec Visualizer LidarVisualizer AdvancedVisualizer VisualizerSpec.
Import AdvancedPipeline.

(** A message with a reading that is null, and one whose number does not
    fit in 64 bits. *)
Definition null_reading_items : list (string * value) :=
  [("timestamp", PyFloat (S754_zero false));
   ("readings", PyDict [("angle_0", PyFloat f100); ("angle_90", PyNone)])].

Definition huge_id_items : list (string * value) :=
  [("message_id", PyInt (2 ^ 63)); ("send_time", PyFloat (S754_zero false))].

Definition mixed_payloads : list (result value) :=
  [sample_payload; Raise JSONDecodeError; Ok (PyList [PyStr "send_time"]); Ok PyNone].

(** Floats of small integers. *)
Definition fl (z : Z) : float := binary_normalize prec emax z 0 false.

(** Two rows for the same label, and four rows a quarter turn apart. *)
Definition two_rows : list (@joined_row float) :=
  [(1, fl 7, "lidar", "angle_0", fl 100); (1, fl 7, "lidar", "angle_0", fl 50)].

Definition four_rows : list (@joined_row float) :=
  [(1, fl 7, "lidar", "angle_0", fl 100); (1, fl 7, "lidar", "angle_90", fl 50);
   (1, fl 7, "lidar", "angle_180", fl 100); (1, fl 7, "lidar", "angle_270", fl 50)].

(** The truth value of a float. *)
Definition nonzero (t : float) : bool :=
  match t with S754_zero _ => false | _ => true end.

Definition scan_of_two (t : float) : result (list (@joined_row float)) := Ok two_rows.
Definition scan_of_four (t : float) : result (list (@joined_row float)) := Ok four_rows.
Definition no_scan (t : float) : result (list (@joined_row float)) := Ok [].

(** A figure that keeps what it is drawn from. *)
Definition drawn : Type := list (point float) * list (color float) * option float.
Definition draw_figure (points : list (point float)) (colors : list (color float))
    (latest : option float) : drawn := (points, colors, latest).

Definition write_ok (filename : string) (cloud : list (point float) * list (color float))
  : result unit := Ok tt.
Definition ply_name (t : float) : string := "/tmp/point_cloud.ply".

(** A local time that is known for the timestamp 7 only. *)
Definition epoch_plus_7 (t : option float) : result string :=
  match t with
  | Some t => if feq t (fl 7) then Ok "1970-01-01 00:00:07" else Raise OverflowError
  | None => Raise OSError
  end.

(** A visualizer that is connected and has shown the scan of the
    timestamp 7. *)
Definition shown_before : @lidar float :=
  {| local_conn := true; latest_timestamp := Some (fl 7);
     point_cloud := Some ([(f1, f0, f0)], [(f0, f0, f0)]); records := [] |}.

Definition three_points : list (point float) :=
  [(f0, f0, f0); (fl 1, fl 2, fl 3); (fl 2, fl 1, f0)].

Definition one_noise (points : list (point float)) (eps : float) (min_points : Z)
  : result (list Z) := Ok [0; -1; 0].

Definition no_colors_at (colors : list (color float)) (indices : list nat)
  : result (list (color float)) := Ok [].
Definition no_colors_outside (colors : list (color float)) (n : Z) (indices : list nat)
  : result (list (color float)) := Ok [].
Definition no_figure (original : list (point float)) (original_colors : list (color float))
    (ground : list (point float)) (ground_colors : list (color float))
    (objects : list (point float)) (object_colors : list (color float))
    (found : list (list (point float))) (timestamp : option float) : unit := tt.

End Samples.


(** ** binary64 arithmetic *)

Module FloatFacts.
Import Spec.

Lemma digits2_pos_log2 (p : positive) :
  Z.pos (digits2_pos p) = Z.log2 (Z.pos p) + 1.
Proof.
  induction p as [p IH|p IH|]; cbn [digits2_pos]; [| |reflexivity].
  - rewrite Pos2Z.inj_succ, IH.
    change (Z.pos p~1) with (2 * Z.pos p + 1). rewrite Z.log2_succ_double by lia. lia.
  - rewrite Pos2Z.inj_succ, IH.
    change (Z.pos p~0) with (2 * Z.pos p). rewrite Z.log2_double by lia. lia.
Qed.

Lemma digits2_pos_unique (p : positive) (d : Z) :
  0 < d -> 2 ^ (d - 1) <= Z.pos p < 2 ^ d -> Z.pos (digits2_pos p) = d.
Proof.
  intros Hd Hp. rewrite digits2_pos_log2.
  rewrite (Z.log2_unique (Z.pos p) (d - 1)); [lia|lia|].
  replace (Z.succ (d - 1)) with d by lia. exact Hp.
Qed.

Lemma digits2_pos_bounds (p : positive) :
  2 ^ (Z.pos (digits2_pos p) - 1) <= Z.pos p < 2 ^ Z.pos (digits2_pos p).
Proof.
  rewrite digits2_pos_log2. replace (Z.log2 (Z.pos p) + 1 - 1) with (Z.log2 (Z.pos p)) by lia.
  pose proof (Z.log2_spec (Z.pos p) ltac:(lia)) as H.
  replace (Z.succ (Z.log2 (Z.pos p))) with (Z.log2 (Z.pos p) + 1) in H by lia. exact H.
Qed.

Lemma iter_xO (k p : positive) : Z.pos (Pos.iter xO p k) = Z.pos p * 2 ^ Z.pos k.
Proof.
  change (Pos.iter xO p k) with (shift_pos k p).
  rewrite shift_pos_correct. change (Zpower_pos 2 k) with (2 ^ Z.pos k). lia.
Qed.

Lemma shr_1_nonneg (m : Z) (r s : bool) :
  0 <= m ->
  shr_1 (Build_shr_record m r s) = Build_shr_record (Z.div2 m) (Z.odd m) (r || s).
Proof. destruct m as [|[p|p|]|p]; intros Hm; try reflexivity. lia. Qed.

Lemma shr_inv_init (P : Z) :
  0 <= P -> shr_inv P 0 (shr_record_of_loc P loc_Exact).
Proof.
  intros HP. split; [exact HP|]. exists 0. cbn [shr_record_of_loc shr_m shr_r shr_s Z.b2z].
  repeat split; lia.
Qed.

Lemma shr_inv_step (P j : Z) (mrs : shr_record) :
  0 <= j -> shr_inv P j mrs -> shr_inv P (j + 1) (shr_1 mrs).
Proof.
  intros Hj [Hm (t & Ht & Hb & Hs)]. destruct mrs as [m r s]. cbn [shr_m shr_r shr_s] in *.
  rewrite (shr_1_nonneg m r s Hm). split; cbn [shr_m shr_r shr_s].
  - pose proof (Z.div2_odd m). destruct (Z.odd m); cbn [Z.b2z] in *; lia.
  - exists (Z.b2z r * 2 ^ j + t).
    pose proof (Z.div2_odd m) as Hdiv.
    replace (j + 1 + 1) with (Z.succ (Z.succ j)) by lia.
    replace (j + 1) with (Z.succ j) in * by lia.
    rewrite !Z.pow_succ_r in * by lia.
    pose proof (Z.pow_pos_nonneg 2 j ltac:(lia) Hj) as Hpow.
    split; [|split].
    + rewrite Hdiv in Ht at 1. lia.
    + destruct r; cbn [Z.b2z]; lia.
    + destruct r, s; cbn [orb Z.b2z]; split; intros H; try discriminate; try lia;
        try (apply Hs; lia); try reflexivity.
Qed.

Lemma shr_inv_iter (p : positive) (P j : Z) (mrs : shr_record) :
  0 <= j -> shr_inv P j mrs -> shr_inv P (j + Z.pos p) (SpecFloat.iter_pos shr_1 p mrs).
Proof.
  revert j mrs. induction p as [p IH|p IH|]; intros j mrs Hj H; cbn [SpecFloat.iter_pos].
  - replace (j + Z.pos p~1) with (j + 1 + Z.pos p + Z.pos p) by lia.
    apply IH; [lia|]. apply IH; [lia|]. now apply shr_inv_step.
  - replace (j + Z.pos p~0) with (j + Z.pos p + Z.pos p) by lia.
    apply IH; [lia|]. now apply IH.
  - now apply shr_inv_step.
Qed.

(** Rounding the shifted record to nearest-even is within half a unit. *)
Lemma round_nearest_even_inv (P j : Z) (mrs : shr_record) :
  0 <= j -> shr_inv P j mrs ->
  let q := round_nearest_even (shr_m mrs) (loc_of_shr_record mrs) in
  shr_m mrs <= q <= shr_m mrs + 1 /\ - 2 ^ j <= 2 * (q * 2 ^ j - P) <= 2 ^ j.
Proof.
  intros Hj [Hm (t & Ht & Hb & Hs)]. destruct mrs as [m r s]. cbn [shr_m shr_r shr_s] in *.
  replace (j + 1) with (Z.succ j) in * by lia. rewrite Z.pow_succ_r in Ht by lia.
  pose proof (Z.pow_pos_nonneg 2 j ltac:(lia) Hj) as Hpow.
  destruct r, s; cbn [loc_of_shr_record round_nearest_even Z.b2z] in *.
  - assert (t <> 0) by (intros E; apply Hs in E; discriminate). split; nia.
  - assert (t = 0) by (now apply Hs). destruct (Z.even m); split; nia.
  - assert (t <> 0) by (intros E; apply Hs in E; discriminate). split; nia.
  - assert (t = 0) by (now apply Hs). split; nia.
Qed.

Lemma fexp_normal (e : Z) : -1021 <= e -> fexp prec emax e = e - 53.
Proof. unfold fexp, emin, prec, emax. lia. Qed.

(** A 53-bit mantissa is not rounded. *)
Lemma binary_round_aux_exact (sx : bool) (m : positive) (e : Z) :
  Z.pos (digits2_pos m) = 53 -> -1074 <= e <= 971 ->
  binary_round_aux prec emax sx (Z.pos m) e loc_Exact = S754_finite sx m e.
Proof.
  intros Hd He. unfold binary_round_aux.
  assert (Hshift : forall l, shr_fexp prec emax (Z.pos m) e l
                             = (shr_record_of_loc (Z.pos m) l, e)).
  { intros l. unfold shr_fexp. cbn [Zdigits2]. rewrite Hd, fexp_normal by lia.
    replace (53 + e - 53 - e) with 0 by lia. reflexivity. }
  rewrite Hshift. cbn [shr_record_of_loc shr_m loc_of_shr_record round_nearest_even].
  rewrite Hshift. cbn [shr_record_of_loc shr_m].
  unfold prec, emax. destruct (Z.leb_spec e (1024 - 53)); [reflexivity|lia].
Qed.

(** An integer below 2^53 converts exactly. *)
Lemma float_of_int_exact (z : Z) :
  0 < z < 2 ^ 53 ->
  exists m s, float_of_int z = Ok (S754_finite false m (- s))
              /\ Z.pos m = z * 2 ^ s /\ 0 <= s <= 52
              /\ 2 ^ 52 <= Z.pos m < 2 ^ 53
              /\ 2 ^ (52 - s) <= z < 2 ^ (53 - s).
Proof.
  intros Hz. destruct z as [|p|p]; try lia.
  pose proof (digits2_pos_bounds p) as Hb. set (D := Z.pos (digits2_pos p)) in *.
  assert (HD : 1 <= D <= 53).
  { split; [subst D; lia|]. destruct (Z.le_gt_cases D 53) as [H|H]; [exact H|].
    assert (2 ^ 53 <= 2 ^ (D - 1)) by (apply Z.pow_le_mono_r; lia). lia. }
  unfold float_of_int, binary_normalize, binary_round.
  fold D. rewrite fexp_normal by lia. unfold shl_align.
  destruct (D + 0 - 53 - 0) as [|d|d] eqn:Ed; try lia.
  - assert (D = 53) by lia.
    rewrite binary_round_aux_exact by (fold D; lia).
    exists p, 0. replace (D + 0 - 53) with (- 0) by lia.
    rewrite Z.mul_1_r. replace (52 - 0) with (D - 1) by lia.
    replace (53 - 0) with D by lia. replace 52 with (D - 1) at 2 by lia.
    replace 53 with D at 1 by lia. repeat split; try lia.
  - assert (Hm : Z.pos (Pos.iter xO p d) = Z.pos p * 2 ^ Z.pos d) by apply iter_xO.
    assert (Hd : 2 ^ 52 <= Z.pos (Pos.iter xO p d) < 2 ^ 53).
    { rewrite Hm. replace (2 ^ 52) with (2 ^ (D - 1 + Z.pos d)) by (f_equal; lia).
      replace (2 ^ 53) with (2 ^ (D + Z.pos d)) by (f_equal; lia).
      rewrite !Z.pow_add_r by lia.
      pose proof (Z.pow_pos_nonneg 2 (Z.pos d) ltac:(lia) ltac:(lia)). nia. }
    rewrite binary_round_aux_exact; [|apply digits2_pos_unique; lia|lia].
    exists (Pos.iter xO p d), (Z.pos d). replace (D + 0 - 53) with (- Z.pos d) by lia.
    replace (52 - Z.pos d) with (D - 1) by lia. replace (53 - Z.pos d) with D by lia.
    repeat split; try lia.
Qed.

(** The product of two positive floats: the exact product of the
    mantissas, shifted right by [n] bits and rounded to nearest. *)
Lemma fmul_round (m1 m2 : positive) (e1 e2 n : Z) :
  let P := Z.pos m1 * Z.pos m2 in
  2 ^ (n + 52) <= P < 2 ^ (n + 53) -> 0 < n ->
  -1074 <= e1 + e2 + n -> e1 + e2 + n + 1 <= 971 ->
  exists m e q,
    fmul (S754_finite false m1 e1) (S754_finite false m2 e2) = S754_finite false m e
    /\ ((e = e1 + e2 + n /\ Z.pos m = q) \/ (e = e1 + e2 + n + 1 /\ 2 * Z.pos m = q))
    /\ - 2 ^ n <= 2 * (q * 2 ^ n - P) <= 2 ^ n.
Proof.
  intros P HP Hn Hlo Hhi. unfold fmul, SFmul. cbn [xorb].
  change (Z.pos (m1 * m2)) with P. unfold binary_round_aux.
  assert (HD : Zdigits2 P = n + 53).
  { unfold P. rewrite <- Pos2Z.inj_mul. cbn [Zdigits2]. apply digits2_pos_unique; [lia|].
    rewrite Pos2Z.inj_mul. fold P. replace (n + 53 - 1) with (n + 52) by lia. exact HP. }
  unfold shr_fexp at 1. rewrite HD, fexp_normal by lia.
  replace (n + 53 + (e1 + e2) - 53 - (e1 + e2)) with n by lia.
  destruct n as [|pn|pn]; try lia. cbn [shr].
  pose proof (shr_inv_iter pn P 0 (shr_record_of_loc P loc_Exact) ltac:(lia)
                (shr_inv_init P ltac:(lia))) as Hinv.
  set (mrs := SpecFloat.iter_pos shr_1 pn (shr_record_of_loc P loc_Exact)) in *.
  rewrite Z.add_0_l in Hinv.
  pose proof (round_nearest_even_inv P (Z.pos pn) mrs ltac:(lia) Hinv) as [Hq Herr].
  set (q := round_nearest_even (shr_m mrs) (loc_of_shr_record mrs)) in *.
  assert (Hqb : 2 ^ 52 <= q <= 2 ^ 53).
  { destruct Hinv as [Hm (t & Ht & Hb & _)].
    replace (Z.pos pn + 1) with (Z.succ (Z.pos pn)) in Ht by lia.
    rewrite Z.pow_succ_r in Ht by lia.
    rewrite !Z.pow_add_r in HP by lia.
    pose proof (Z.pow_pos_nonneg 2 (Z.pos pn) ltac:(lia) ltac:(lia)) as Hpow.
    assert (Z.b2z (shr_r mrs) = 0 \/ Z.b2z (shr_r mrs) = 1) as Hr
        by (destruct (shr_r mrs); cbn; lia).
    split; nia. }
  destruct q as [|pq|pq] eqn:Eq; try lia.
  destruct (Z.eq_dec (Z.pos pq) (2 ^ 53)) as [Htop|Htop].
  - (* the rounding carried into a 54th bit *)
    unfold shr_fexp. cbn [Zdigits2].
    rewrite (digits2_pos_unique pq 54) by lia. rewrite fexp_normal by lia.
    replace (54 + (e1 + e2 + Z.pos pn) - 53 - (e1 + e2 + Z.pos pn)) with 1 by lia.
    cbn [shr SpecFloat.iter_pos shr_record_of_loc]. rewrite shr_1_nonneg by lia. cbn [shr_m].
    rewrite Htop. change (Z.div2 (2 ^ 53)) with (Z.pos (2 ^ 52)%positive).
    cbv iota. unfold prec, emax.
    destruct (Z.leb_spec (e1 + e2 + Z.pos pn + 1) (1024 - 53)); [|lia].
    exists (2 ^ 52)%positive, (e1 + e2 + Z.pos pn + 1), (Z.pos pq).
    split; [reflexivity|]. split; [right; split; [reflexivity|rewrite Htop; reflexivity]|].
    exact Herr.
  - unfold shr_fexp. cbn [Zdigits2].
    rewrite (digits2_pos_unique pq 53) by lia. rewrite fexp_normal by lia.
    replace (53 + (e1 + e2 + Z.pos pn) - 53 - (e1 + e2 + Z.pos pn)) with 0 by lia.
    cbn [shr shr_record_of_loc shr_m]. unfold prec, emax.
    destruct (Z.leb_spec (e1 + e2 + Z.pos pn) (1024 - 53)); [|lia].
    exists pq, (e1 + e2 + Z.pos pn), (Z.pos pq).
    split; [reflexivity|]. split; [now left|exact Herr].
Qed.

Lemma iter_shr_1_nonneg (p : positive) (mrs : shr_record) :
  0 <= shr_m mrs -> 0 <= shr_m (SpecFloat.iter_pos shr_1 p mrs).
Proof.
  revert mrs. induction p as [p IH|p IH|]; intros mrs Hm; cbn [SpecFloat.iter_pos].
  - apply IH, IH. destruct mrs as [m r s]. cbn [shr_m] in Hm. rewrite shr_1_nonneg by exact Hm.
    cbn [shr_m]. pose proof (Z.div2_odd m). destruct (Z.odd m); cbn [Z.b2z] in *; lia.
  - now apply IH, IH.
  - destruct mrs as [m r s]. cbn [shr_m] in Hm. rewrite shr_1_nonneg by exact Hm.
    cbn [shr_m]. pose proof (Z.div2_odd m). destruct (Z.odd m); cbn [Z.b2z] in *; lia.
Qed.

Lemma shr_fexp_nonneg (m e : Z) (l : location) :
  0 <= m -> 0 <= shr_m (fst (shr_fexp prec emax m e l)).
Proof.
  intros Hm. unfold shr_fexp, shr.
  assert (H0 : 0 <= shr_m (shr_record_of_loc m l)) by (now destruct l as [|[]]).
  destruct (fexp prec emax (Zdigits2 m + e) - e); cbn [fst]; try exact H0.
  now apply iter_shr_1_nonneg.
Qed.

Lemma round_nearest_even_nonneg (m : Z) (l : location) :
  0 <= m -> 0 <= round_nearest_even m l.
Proof.
  intros Hm. destruct l as [|[]]; cbn [round_nearest_even]; try lia.
  destruct (Z.even m); lia.
Qed.

(** Rounding gives a number. *)
Lemma binary_round_aux_number (s : bool) (m e : Z) (l : location) :
  0 <= m -> is_nan (binary_round_aux prec emax s m e l) = false.
Proof.
  intros Hm. unfold binary_round_aux.
  pose proof (shr_fexp_nonneg m e l Hm) as H1.
  destruct (shr_fexp prec emax m e l) as [mrs1 e1]. cbn [fst] in H1.
  pose proof (shr_fexp_nonneg _ e1 loc_Exact
                (round_nearest_even_nonneg _ (loc_of_shr_record mrs1) H1)) as H2.
  destruct (shr_fexp prec emax _ e1 loc_Exact) as [mrs2 e2]. cbn [fst] in H2.
  destruct (shr_m mrs2) as [|p|p]; [reflexivity| |lia].
  now destruct (e2 <=? emax - prec).
Qed.

Lemma binary_normalize_number (m e : Z) (s : bool) :
  is_nan (binary_normalize prec emax m e s) = false.
Proof.
  unfold binary_normalize, binary_round.
  destruct m as [|p|p]; [reflexivity| |];
    destruct (shl_align _ _ _) as [mz ez]; now apply binary_round_aux_number.
Qed.

(** The difference of two finite floats, and a finite multiple of what
    is a number, are numbers. *)
Lemma fsub_number (a b : float) :
  is_finite a = true -> is_finite b = true -> is_nan (fsub a b) = false.
Proof.
  unfold fsub. destruct a as [sa|sa| |sa ma ea], b as [sb|sb| |sb mb eb];
    try discriminate; intros _ _; cbn [SFsub].
  - now destruct sa, sb.
  - reflexivity.
  - reflexivity.
  - apply binary_normalize_number.
Qed.

Lemma fmul_number (a b : float) :
  is_nan a = false -> is_finite b = true ->
  (forall s, b <> S754_zero s) -> is_nan (fmul a b) = false.
Proof.
  unfold fmul. destruct a as [sa|sa| |sa ma ea], b as [sb|sb| |sb mb eb];
    try discriminate; intros _ _ Hz; cbn [SFmul]; try reflexivity.
  - now elim (Hz sb).
  - now apply binary_round_aux_number.
Qed.

Lemma latency_number (receive_time send_time : float) :
  is_finite receive_time = true -> is_finite send_time = true ->
  is_nan (fmul (fsub receive_time send_time) Receiver.f1000) = false.
Proof.
  intros Hr Hs. apply fmul_number; [now apply fsub_number|reflexivity|discriminate].
Qed.

Lemma Zdigits2_small (q : Z) : 0 < q < 2 ^ 53 -> Zdigits2 q <= 53.
Proof.
  intros Hq. destruct q as [|pq|pq]; try lia. cbn [Zdigits2].
  pose proof (digits2_pos_bounds pq) as Hb.
  destruct (Z.le_gt_cases (Z.pos (digits2_pos pq)) 53) as [H|H]; [exact H|].
  assert (2 ^ 53 <= 2 ^ (Z.pos (digits2_pos pq) - 1)) by (apply Z.pow_le_mono_r; lia). lia.
Qed.

Lemma shr_fexp_noshift (m e : Z) (l : location) :
  fexp prec emax (Zdigits2 m + e) - e <= 0 ->
  shr_fexp prec emax m e l = (shr_record_of_loc m l, e).
Proof.
  intros H. unfold shr_fexp, shr.
  destruct (fexp prec emax (Zdigits2 m + e) - e); try reflexivity. lia.
Qed.

(** Rounding a positive mantissa [P] at the exponent [E]: [p] low bits
    are dropped, and the result is [q * 2^(E + p)] for the integer [q]
    nearest to [P / 2^p], unless it overflows. *)
Lemma binary_round_aux_spec (s : bool) (P : positive) (E : Z) :
  let d := Z.pos (digits2_pos P) in
  let p := Z.max 0 (Z.max (d - 53) (-1074 - E)) in
  let r := binary_round_aux prec emax s (Z.pos P) E loc_Exact in
  exists q,
    0 <= q /\ - 2 ^ p <= 2 * (q * 2 ^ p - Z.pos P) <= 2 ^ p
    /\ (p = 0 -> q = Z.pos P)
    /\ ((q = 0 /\ r = S754_zero s)
        \/ (exists m e, r = S754_finite s m e /\ E + p <= e <= 971
                        /\ Z.pos m * 2 ^ (e - (E + p)) = q)
        \/ (r = S754_infinity s /\ 971 <= E + p /\ 0 < q)).
Proof.
  intros d p r.
  assert (Hfexp : fexp prec emax (d + E) - E = Z.max (d - 53) (-1074 - E))
    by (unfold fexp, emin, prec, emax; lia).
  assert (Hd : 0 < d) by (subst d; lia).
  pose proof (digits2_pos_bounds P) as HP. fold d in HP.
  assert (Hr : r = binary_round_aux prec emax s (Z.pos P) E loc_Exact) by reflexivity.
  assert (Hp : p = Z.max 0 (Z.max (d - 53) (-1074 - E))) by reflexivity.
  clearbody r p. unfold binary_round_aux in Hr.
  destruct (Z.max (d - 53) (-1074 - E)) as [|pn|pn] eqn:En.
  1,3: (* nothing is dropped *)
    assert (Hp0 : p = 0) by lia; clear Hp; rename Hp0 into Hp;
    rewrite (shr_fexp_noshift (Z.pos P) E loc_Exact) in Hr
      by (cbn [Zdigits2]; fold d; rewrite Hfexp; lia);
    cbn [shr_record_of_loc shr_m loc_of_shr_record round_nearest_even] in Hr;
    rewrite (shr_fexp_noshift (Z.pos P) E loc_Exact) in Hr
      by (cbn [Zdigits2]; fold d; rewrite Hfexp; lia);
    cbn [shr_record_of_loc shr_m] in Hr; unfold prec, emax in Hr;
    exists (Z.pos P); rewrite Hp, Z.add_0_r; cbn [Z.pow]; split; [lia|]; split; [lia|];
    (split; [reflexivity|]);
    destruct (Z.leb_spec E (1024 - 53));
    [right; left; exists P, E; split; [exact Hr|]; split; [lia|];
     rewrite Z.sub_diag; cbn; lia
    |right; right; split; [exact Hr|lia]].
  (* [pn] bits are dropped *)
  assert (Hp' : p = Z.pos pn) by lia. clear Hp. rename Hp' into Hp.
  unfold shr_fexp at 1 in Hr. cbn [Zdigits2] in Hr. fold d in Hr. rewrite Hfexp in Hr.
  rewrite Hp. cbn [shr] in Hr.
  pose proof (shr_inv_iter pn (Z.pos P) 0 (shr_record_of_loc (Z.pos P) loc_Exact)
                ltac:(lia) (shr_inv_init (Z.pos P) ltac:(lia))) as Hinv.
  set (mrs := SpecFloat.iter_pos shr_1 pn (shr_record_of_loc (Z.pos P) loc_Exact)) in *.
  rewrite Z.add_0_l in Hinv.
  pose proof (round_nearest_even_inv (Z.pos P) (Z.pos pn) mrs ltac:(lia) Hinv)
    as [Hq Herr].
  set (q := round_nearest_even (shr_m mrs) (loc_of_shr_record mrs)) in *.
  assert (Hpow : 0 < 2 ^ Z.pos pn) by (apply Z.pow_pos_nonneg; lia).
  assert (Hqb : 0 <= q <= 2 ^ 53).
  { destruct Hinv as [Hm (t & Ht & Hb & _)].
    replace (Z.pos pn + 1) with (Z.succ (Z.pos pn)) in Ht by lia.
    rewrite Z.pow_succ_r in Ht by lia.
    assert (Z.b2z (shr_r mrs) = 0 \/ Z.b2z (shr_r mrs) = 1) as Hb2
        by (destruct (shr_r mrs); cbn; lia).
    assert (Hdp : 2 ^ d <= 2 ^ 53 * 2 ^ Z.pos pn).
    { rewrite <- Z.pow_add_r by lia. apply Z.pow_le_mono_r; lia. }
    split; [lia|]. nia. }
  clearbody q. clear Hinv Hq mrs.
  exists q. split; [lia|]. split; [exact Herr|]. split; [lia|].
  destruct (Z.eq_dec q 0) as [Hq0|Hq0].
  - left. split; [exact Hq0|]. rewrite Hq0 in Hr.
    rewrite shr_fexp_noshift in Hr
      by (cbn [Zdigits2 Z.add]; unfold fexp, emin, prec, emax; lia).
    exact Hr.
  - right. destruct (Z.eq_dec q (2 ^ 53)) as [Htop|Htop].
    + (* the rounding carried into a 54th bit *)
      rewrite Htop in Hr. unfold shr_fexp in Hr.
      change (Zdigits2 (2 ^ 53)) with 54 in Hr.
      assert (Hn2 : fexp prec emax (54 + (E + Z.pos pn)) - (E + Z.pos pn) = 1)
        by (unfold fexp, emin, prec, emax; lia).
      rewrite Hn2 in Hr. cbn [shr SpecFloat.iter_pos shr_record_of_loc] in Hr.
      rewrite shr_1_nonneg in Hr by lia. cbn [shr_m] in Hr.
      change (Z.div2 (2 ^ 53)) with (Z.pos (2 ^ 52)%positive) in Hr. cbv iota in Hr.
      unfold prec, emax in Hr.
      destruct (Z.leb_spec (E + Z.pos pn + 1) (1024 - 53)).
      * left. exists (2 ^ 52)%positive, (E + Z.pos pn + 1).
        split; [exact Hr|]. split; [lia|].
        replace (E + Z.pos pn + 1 - (E + Z.pos pn)) with 1 by lia.
        rewrite Htop. reflexivity.
      * right. split; [exact Hr|]. lia.
    + assert (Hdq : Zdigits2 q <= 53) by (apply Zdigits2_small; lia).
      rewrite shr_fexp_noshift in Hr by (unfold fexp, emin, prec, emax; lia).
      cbn [shr_record_of_loc shr_m] in Hr.
      destruct q as [|pq|pq]; try lia. unfold prec, emax in Hr.
      destruct (Z.leb_spec (E + Z.pos pn) (1024 - 53)).
      * left. exists pq, (E + Z.pos pn). split; [exact Hr|]. split; [lia|].
        rewrite Z.sub_diag. cbn; lia.
      * right. split; [exact Hr|lia].
Qed.

Lemma div_bounds (a b k : Z) : 0 < b -> k * b <= a < (k + 1) * b -> a / b = k.
Proof.
  intros Hb H. symmetry. apply (Z.div_unique a b k (a - b * k)); lia.
Qed.

(** [int(n * 0.95)] is the integer part of 95 n / 100. *)
Lemma p95_index_nearest_rank (n : nat) :
  0 < Z.of_nat n < 2 ^ 49 ->
  Receiver.p95_index n = Ok (95 * Z.of_nat n / 100).
Proof.
  set (N := Z.of_nat n). intros HN. unfold Receiver.p95_index. fold N.
  destruct (float_of_int_exact N ltac:(lia)) as (m1 & s & -> & Hm1 & Hs & Hm1b & HNb).
  (* the list is short: at least four bits of the mantissa are padding *)
  assert (Hs4 : 4 <= s).
  { destruct (Z.le_gt_cases 4 s) as [H|H]; [exact H|].
    assert (2 ^ 49 <= 2 ^ (52 - s)) by (apply Z.pow_le_mono_r; lia). lia. }
  set (X := 2 ^ (s - 4)).
  assert (HX : 1 <= X) by (subst X; pose proof (Z.pow_pos_nonneg 2 (s - 4)); lia).
  assert (H2s : 2 ^ s = 16 * X).
  { subst X. replace s with (4 + (s - 4)) at 1 by lia. now rewrite Z.pow_add_r by lia. }
  set (k := 95 * N / 100).
  assert (Hk : 100 * k <= 95 * N <= 100 * k + 95).
  { pose proof (Z.div_mod (95 * N) 100 ltac:(lia)) as Hdm.
    pose proof (Z.mod_pos_bound (95 * N) 100 ltac:(lia)) as Hmod. fold k in Hdm. lia. }
  set (A := N * X). set (B := k * X).
  assert (HA : Z.pos m1 = 16 * A) by (subst A; rewrite Hm1, H2s; lia).
  assert (HB : 100 * B <= 95 * A <= 100 * B + 95 * X) by (subst A B; nia).
  unfold Receiver.f0_95.
  set (M := 8556839292003942%positive).
  set (P := Z.pos m1 * Z.pos M).
  assert (HP : P = 16 * A * 8556839292003942) by (subst P M; rewrite HA; reflexivity).
  assert (Hfinish : forall m e,
             fmul (S754_finite false m1 (- s)) (S754_finite false M (-53))
             = S754_finite false m e ->
             forall c, 0 < c -> 2 ^ (- e) = c * X -> e < 0 ->
             k * (c * X) <= Z.pos m < (k + 1) * (c * X) ->
             int_of_float (fmul (S754_finite false m1 (- s)) (S754_finite false M (-53)))
             = Ok k).
  { intros m e -> c Hc He Hneg Hb. destruct e as [|pe|pe]; try lia.
    cbn [int_of_float cond_Zopp]. f_equal. change (- Z.neg pe) with (Z.pos pe) in He.
    rewrite He. apply div_bounds; lia. }
  destruct (Z.lt_ge_cases P (2 ^ 105)) as [Hlow|Hhigh].
  - destruct (fmul_round m1 M (- s) (-53) 52) as (m & e & q & E & Hcase & Herr);
      [fold P; change (52 + 52) with 104; change (52 + 53) with 105; lia|lia|lia|lia|].
    fold P in Herr. change (2 ^ 52) with 4503599627370496 in Herr.
    change (2 ^ 105) with 40564819207303340847894502572032 in Hlow.
    destruct Hcase as [[-> Hq]|[-> Hq]].
    + apply (Hfinish m _ E 32); [lia| |lia|lia].
      replace (- (- s + -53 + 52)) with (1 + s) by lia.
      rewrite Z.pow_add_r, H2s by lia. lia.
    + apply (Hfinish m _ E 16); [lia| |lia|lia].
      replace (- (- s + -53 + 52 + 1)) with s by lia. rewrite H2s. lia.
  - assert (HPhi : P < 2 ^ 106).
    { subst P M. change (2 ^ 53) with 9007199254740992 in Hm1b.
      change (2 ^ 106) with 81129638414606681695789005144064. nia. }
    destruct (fmul_round m1 M (- s) (-53) 53) as (m & e & q & E & Hcase & Herr);
      [fold P; change (53 + 52) with 105; change (53 + 53) with 106; lia|lia|lia|lia|].
    fold P in Herr. change (2 ^ 53) with 9007199254740992 in Herr.
    destruct Hcase as [[-> Hq]|[-> Hq]].
    + apply (Hfinish m _ E 16); [lia| |lia|lia].
      replace (- (- s + -53 + 53)) with s by lia. rewrite H2s. lia.
    + assert (H2s1 : 2 ^ (s - 1) = 8 * X).
      { subst X. replace (s - 1) with (3 + (s - 4)) by lia. now rewrite Z.pow_add_r by lia. }
      apply (Hfinish m _ E 8); [lia| |lia|lia].
      replace (- (- s + -53 + 53 + 1)) with (s - 1) by lia. exact H2s1.
Qed.
End FloatFacts.


(** ** float64 and the real numbers *)

Module FloatReals.
Import VisualizerSpec FloatFacts.
Local Open Scope R_scope.

Lemma Rabs_le_inv (a b : R) : Rabs a <= b -> - b <= a <= b.
Proof. unfold Rabs. destruct (Rcase_abs a); lra. Qed.

Lemma pow2_pos (e : Z) : 0 < powerRZ 2 e.
Proof. apply powerRZ_lt. lra. Qed.

Lemma pow2_add (a b : Z) : powerRZ 2 (a + b) = powerRZ 2 a * powerRZ 2 b.
Proof. apply powerRZ_add. lra. Qed.

Lemma pow2_ge_1 (n : Z) : (0 <= n)%Z -> 1 <= powerRZ 2 n.
Proof.
  intros Hn. destruct n as [|p|p]; [cbn; lra| |lia].
  cbn [powerRZ]. apply pow_R1_Rle. lra.
Qed.

Lemma pow2_le (a b : Z) : (a <= b)%Z -> powerRZ 2 a <= powerRZ 2 b.
Proof.
  intros H. replace b with (a + (b - a))%Z by lia. rewrite pow2_add.
  pose proof (pow2_pos a). pose proof (pow2_ge_1 (b - a) ltac:(lia)). nra.
Qed.

Lemma IZR_pow2 (n : Z) : (0 <= n)%Z -> IZR (2 ^ n) = powerRZ 2 n.
Proof.
  intros Hn. destruct n as [|p|p]; [reflexivity| |lia].
  change (2 ^ Z.pos p)%Z with (Z.pow_pos 2 p). apply Zpower_pos_powerRZ.
Qed.

Lemma SF2R_finite (s : bool) (m : positive) (e : Z) :
  SF2R (S754_finite s m e)
  = (if s then -1 else 1) * IZR (Z.pos m) * powerRZ 2 e.
Proof.
  unfold SF2R. destruct s; cbn [cond_Zopp].
  - change (- Z.pos m)%Z with (Z.opp (Z.pos m)). rewrite opp_IZR. ring.
  - ring.
Qed.

Lemma sign_xorb (a b : bool) :
  (if xorb a b then -1 else 1) = (if a then -1 else 1) * (if b then -1 else 1).
Proof. destruct a, b; cbn; ring. Qed.

Lemma sign_abs (s : bool) (x : R) : Rabs ((if s then -1 else 1) * x) = Rabs x.
Proof.
  destruct s.
  - replace (-1 * x) with (- x) by ring. apply Rabs_Ropp.
  - now rewrite Rmult_1_l.
Qed.

(** The product of two floats is the product of the numbers they stand
    for, to within half a unit in the last place. *)
Lemma fmul_error (a b : float) :
  is_finite a = true -> is_finite b = true ->
  Rabs (SF2R a * SF2R b) < powerRZ 2 971 ->
  is_finite (fmul a b) = true
  /\ Rabs (SF2R (fmul a b) - SF2R a * SF2R b)
     <= Rabs (SF2R a * SF2R b) * powerRZ 2 (-53) + powerRZ 2 (-1075).
Proof.
  assert (Hsmall : 0 <= 0 * powerRZ 2 (-53) + powerRZ 2 (-1075))
    by (pose proof (pow2_pos (-1075)); lra).
  destruct a as [sa|sa| |sa ma ea], b as [sb|sb| |sb mb eb]; try discriminate;
    intros _ _ Hlt; unfold fmul; cbn [SFmul];
    try (split; [reflexivity|]; cbn [SF2R];
         rewrite ?Rmult_0_l, ?Rmult_0_r, Rminus_0_r, Rabs_R0; exact Hsmall).
  rewrite !SF2R_finite in *.
  set (P := (ma * mb)%positive). set (E := (ea + eb)%Z).
  assert (Hprod : (if sa then -1 else 1) * IZR (Z.pos ma) * powerRZ 2 ea
                  * ((if sb then -1 else 1) * IZR (Z.pos mb) * powerRZ 2 eb)
                  = (if xorb sa sb then -1 else 1) * (IZR (Z.pos P) * powerRZ 2 E)).
  { subst P E. rewrite sign_xorb, pow2_add, Pos2Z.inj_mul, mult_IZR. ring. }
  rewrite Hprod in *. rewrite sign_abs in Hlt |- *.
  assert (HP0 : 0 < IZR (Z.pos P)) by (apply IZR_lt; lia).
  pose proof (pow2_pos E) as HE0.
  rewrite (Rabs_pos_eq (IZR (Z.pos P) * powerRZ 2 E)) in Hlt |- *
    by (apply Rmult_le_pos; lra).
  destruct (binary_round_aux_spec (xorb sa sb) P E) as (q & Hq0 & Herr & Hexact & Hcase).
  cbv zeta in Herr, Hexact, Hcase.
  set (d := Z.pos (digits2_pos P)) in *.
  set (p := Z.max 0 (Z.max (d - 53) (-1074 - E))) in *.
  pose proof (digits2_pos_bounds P) as Hd. fold d in Hd.
  assert (Hp0 : (0 <= p)%Z) by (subst p; lia).
  assert (Hpp : (0 < 2 ^ p)%Z) by (apply Z.pow_pos_nonneg; lia).
  (* the value of the result *)
  assert (Hval : is_finite (binary_round_aux prec emax (xorb sa sb) (Z.pos P) E loc_Exact)
                 = true
                 /\ SF2R (binary_round_aux prec emax (xorb sa sb) (Z.pos P) E loc_Exact)
                    = (if xorb sa sb then -1 else 1) * (IZR q * powerRZ 2 (E + p))).
  { destruct Hcase as [[Hq Hr]|[(m & e & Hr & He & Hm)|(Hr & He & Hq)]].
    - rewrite Hr, Hq. cbn [is_finite SF2R]. split; [reflexivity|ring].
    - rewrite Hr. split; [reflexivity|]. rewrite SF2R_finite, <- Hm, mult_IZR.
      rewrite IZR_pow2 by lia. rewrite Rmult_assoc. f_equal.
      rewrite Rmult_assoc. f_equal. rewrite <- pow2_add. f_equal. lia.
    - (* no overflow *)
      exfalso. apply (Rlt_irrefl (powerRZ 2 971)).
      apply Rle_lt_trans with (IZR (Z.pos P) * powerRZ 2 E); [|exact Hlt].
      destruct (Z.eq_dec p 0) as [Hz|Hz].
      + rewrite Hz, Z.add_0_r in He.
        apply Rle_trans with (1 * powerRZ 2 E).
        * rewrite Rmult_1_l. now apply pow2_le.
        * apply Rmult_le_compat_r; [lra|]. apply IZR_le. lia.
      + assert (Hpd : p = (d - 53)%Z) by (subst p; lia).
        apply Rle_trans with (powerRZ 2 (d - 1) * powerRZ 2 E).
        * rewrite <- pow2_add. apply pow2_le. lia.
        * apply Rmult_le_compat_r; [lra|]. rewrite <- IZR_pow2 by lia.
          apply IZR_le. lia. }
  destruct Hval as [Hfin Hval]. split; [exact Hfin|]. rewrite Hval.
  replace ((if xorb sa sb then -1 else 1) * (IZR q * powerRZ 2 (E + p))
           - (if xorb sa sb then -1 else 1) * (IZR (Z.pos P) * powerRZ 2 E))
    with ((if xorb sa sb then -1 else 1)
          * (IZR (q * 2 ^ p - Z.pos P) * powerRZ 2 E))
    by (rewrite minus_IZR, mult_IZR, IZR_pow2, pow2_add by lia; ring).
  rewrite sign_abs, Rabs_mult, (Rabs_pos_eq (powerRZ 2 E)) by lra.
  set (x := (q * 2 ^ p - Z.pos P)%Z) in *.
  rewrite <- abs_IZR.
  assert (Hx : (2 ^ 53 * Z.abs x <= Z.pos P)%Z
               \/ ((1 <= p)%Z /\ (E + p = -1074)%Z /\ (2 * Z.abs x <= 2 ^ p)%Z)).
  { destruct (Z.eq_dec p 0) as [Hz|Hz].
    - left. rewrite (Hexact Hz) in *. subst x. rewrite Hz. cbn [Z.pow]. lia.
    - destruct (Z.eq_dec p (d - 53)) as [Hpd|Hpd].
      + left. assert (H2 : (2 ^ 53 * 2 ^ p = 2 * 2 ^ (d - 1))%Z).
        { rewrite Hpd, <- Z.pow_add_r, <- Z.pow_succ_r by lia. f_equal. lia. }
        lia.
      + right. split; [lia|]. split; [subst p; lia|lia]. }
  destruct Hx as [Hx|(Hp1 & Hsub & Hx)].
  - apply Rle_trans with (IZR (Z.pos P) * powerRZ 2 E * powerRZ 2 (-53));
      [|pose proof (pow2_pos (-1075)); lra].
    replace (IZR (Z.pos P) * powerRZ 2 E * powerRZ 2 (-53))
      with (IZR (Z.pos P) * powerRZ 2 (-53) * powerRZ 2 E) by ring.
    apply Rmult_le_compat_r; [lra|].
    assert (H53 : powerRZ 2 (-53) * IZR (2 ^ 53) = 1).
    { rewrite (IZR_pow2 53) by lia. rewrite <- pow2_add. reflexivity. }
    apply IZR_le in Hx. rewrite mult_IZR in Hx.
    pose proof (pow2_pos (-53)) as H53p.
    assert (H0 : 0 <= IZR (Z.abs x)) by (apply IZR_le; lia).
    apply (Rmult_le_compat_l (powerRZ 2 (-53))) in Hx; [|lra].
    rewrite <- Rmult_assoc, H53 in Hx. lra.
  - apply Rle_trans with (powerRZ 2 (-1075));
      [|pose proof (pow2_pos (-53));
        assert (0 <= IZR (Z.pos P) * powerRZ 2 E * powerRZ 2 (-53))
          by (apply Rmult_le_pos; [apply Rmult_le_pos|]; lra); lra].
    replace (-1075)%Z with ((p - 1) + E)%Z by lia. rewrite pow2_add.
    apply Rmult_le_compat_r; [lra|].
    assert (H2p : powerRZ 2 p = 2 * powerRZ 2 (p - 1)).
    { replace p with (1 + (p - 1))%Z at 1 by lia. rewrite pow2_add.
      change (powerRZ 2 1) with (2 * 1). ring. }
    apply IZR_le in Hx. rewrite mult_IZR, (IZR_pow2 p), H2p in Hx by lia. lra.
Qed.

(** *** A quarter turn in float64 *)

Lemma pow2_inv (n : Z) : (0 <= n)%Z -> powerRZ 2 (- n) * IZR (2 ^ n) = 1.
Proof.
  intros Hn. rewrite (IZR_pow2 n Hn), <- pow2_add.
  replace (- n + n)%Z with 0%Z by lia. reflexivity.
Qed.

(** A float with the mantissa [k * 2^n] and the exponent [- n] stands
    for the integer [k]. *)
Lemma SF2R_integer (k m : positive) (n : Z) :
  (0 <= n)%Z -> (Z.pos m = Z.pos k * 2 ^ n)%Z ->
  SF2R (S754_finite false m (- n)) = IZR (Z.pos k).
Proof.
  intros Hn Hm. rewrite SF2R_finite, Hm, mult_IZR, Rmult_1_l, Rmult_assoc.
  rewrite (Rmult_comm (IZR (2 ^ n))), pow2_inv by exact Hn. ring.
Qed.

Lemma SF2R_f100 : SF2R Spec.f100 = 100.
Proof. apply (SF2R_integer 100 _ 46); [lia|reflexivity]. Qed.

Lemma SF2R_f50 : SF2R Spec.f50 = 50.
Proof. apply (SF2R_integer 50 _ 47); [lia|reflexivity]. Qed.

(** [np.radians] of 0 and of 90. *)
Lemma radians_0 : fmul f0 deg2rad = f0.
Proof. vm_compute. reflexivity. Qed.

Lemma radians_90 : fmul f90 deg2rad = S754_finite false 7074237752028440 (-52).
Proof. vm_compute. reflexivity. Qed.

Lemma PI_bounds : 3.14159265 < PI < 3.14159266.
Proof.
  pose proof (PI_2_3_7_ineq 4) as H.
  unfold sum_f_R0, tg_alt, PI_2_3_7_tg, Ratan_seq in H.
  cbn [Nat.mul Nat.add INR pow] in H. lra.
Qed.

(** The float64 next to a quarter turn is within 3.3e-9 of it. *)
Lemma quarter_turn :
  Rabs (PI / 2 - SF2R (fmul f90 deg2rad)) <= 33 / 10000000000.
Proof.
  rewrite radians_90, SF2R_finite, Rmult_1_l.
  pose proof (pow2_inv 52 ltac:(lia)) as H52.
  change (Z.opp 52) with (-52)%Z in H52.
  change (2 ^ 52)%Z with 4503599627370496%Z in H52.
  set (u := powerRZ 2 (-52)) in *.
  pose proof PI_bounds as HPI.
  apply Rabs_le. split; lra.
Qed.

Lemma sin_abs_le (y : R) : Rabs y <= 1 -> Rabs (sin y) <= Rabs y.
Proof.
  intros Hy. pose proof PI_bounds as HPI.
  destruct (Rle_lt_dec 0 y) as [H0|H0].
  - rewrite (Rabs_pos_eq y) in * by exact H0.
    destruct (Req_dec y 0) as [->|Hne]; [rewrite sin_0, Rabs_R0; lra|].
    pose proof (sin_lt_x y ltac:(lra)).
    pose proof (sin_ge_0 y H0 ltac:(lra)).
    rewrite Rabs_pos_eq by assumption. lra.
  - rewrite (Rabs_left y) in * by exact H0.
    pose proof (sin_gt_x y H0).
    pose proof (sin_ge_0 (- y) ltac:(lra) ltac:(lra)) as Hs. rewrite sin_neg in Hs.
    destruct (Req_dec (sin y) 0) as [->|Hne]; [rewrite Rabs_R0; lra|].
    rewrite Rabs_left by lra. lra.
Qed.

Lemma cos_quarter_turn :
  Rabs (cos (SF2R (fmul f90 deg2rad))) <= 33 / 10000000000.
Proof.
  pose proof quarter_turn as Hq.
  rewrite <- sin_shift.
  apply Rle_trans with (Rabs (PI / 2 - SF2R (fmul f90 deg2rad))); [|exact Hq].
  apply sin_abs_le. lra.
Qed.

Lemma sin_quarter_turn :
  1 - / 10000000000000000 <= sin (SF2R (fmul f90 deg2rad)) <= 1.
Proof.
  pose proof cos_quarter_turn as Hc. pose proof quarter_turn as Hq.
  pose proof PI_bounds as HPI.
  set (x := SF2R (fmul f90 deg2rad)) in *.
  pose proof (SIN_bound x) as [_ Hs1]. split; [|exact Hs1].
  pose proof (sin2_cos2 x) as H2. unfold Rsqr in H2.
  apply Rabs_le_inv in Hc. apply Rabs_le_inv in Hq.
  assert (Hpos : 0 <= sin x) by (apply sin_ge_0; lra).
  nra.
Qed.

Lemma pow2_53 : powerRZ 2 (-53) <= / 1000000000000000.
Proof.
  pose proof (pow2_inv 53 ltac:(lia)) as H. change (Z.opp 53) with (-53)%Z in H.
  change (2 ^ 53)%Z with 9007199254740992%Z in H.
  pose proof (pow2_pos (-53)). set (u := powerRZ 2 (-53)) in *. lra.
Qed.

Lemma pow2_1075 : powerRZ 2 (-1075) <= / 1000000000000000.
Proof.
  apply Rle_trans with (powerRZ 2 (-53)); [apply pow2_le; lia|apply pow2_53].
Qed.

Lemma pow2_971 : 1000 <= powerRZ 2 971.
Proof.
  apply Rle_trans with (powerRZ 2 10); [|apply pow2_le; lia].
  rewrite <- (IZR_pow2 10) by lia. change (2 ^ 10)%Z with 1024%Z. lra.
Qed.

(** A distance [d] of at most 100 times the value that an accurate C
    library returns for a function value [v] between -1 and 1: within
    1e-6 of [d v]. *)
Lemma scaled_near (d c : float) (dr v : R) :
  is_finite d = true -> SF2R d = dr -> 0 <= dr <= 100 ->
  is_finite c = true -> Rabs (SF2R c - v) <= 8 / 1000000000 -> Rabs v <= 1 ->
  near (fmul d c) (dr * v).
Proof.
  intros Hd Hdr Hrange Hc Hcv Hv.
  apply Rabs_le_inv in Hcv. apply Rabs_le_inv in Hv.
  pose proof pow2_53 as H53. pose proof pow2_1075 as H1075. pose proof pow2_971 as H971.
  pose proof (pow2_pos (-53)) as P53. pose proof (pow2_pos (-1075)) as P1075.
  assert (Hprod : Rabs (SF2R d * SF2R c) <= 101).
  { rewrite Hdr. apply Rabs_le. split; nra. }
  destruct (fmul_error d c Hd Hc ltac:(lra)) as [Hfin Herr].
  split; [exact Hfin|].
  assert (Hbound : Rabs (SF2R (fmul d c) - SF2R d * SF2R c) <= 2 / 10000000000000).
  { eapply Rle_trans; [exact Herr|].
    assert (Rabs (SF2R d * SF2R c) * powerRZ 2 (-53) <= 101 * powerRZ 2 (-53))
      by (apply Rmult_le_compat_r; lra).
    lra. }
  apply Rabs_le_inv in Hbound. rewrite Hdr in Hbound.
  apply Rabs_le. split; nra.
Qed.

End FloatReals.


(** ** [sorted] *)

Module SortedFacts.
Import Spec.

Lemma SFcompare_antisym (a b : float) :
  SFcompare b a = option_map CompOpp (SFcompare a b).
Proof.
  destruct a as [sa|sa| |sa ma ea], b as [sb|sb| |sb mb eb]; cbn;
    try reflexivity;
    try (destruct sa; reflexivity); try (destruct sb; reflexivity);
    try (destruct sa, sb; reflexivity).
  assert (Hm : Pos.compare_cont Eq mb ma = CompOpp (Pos.compare_cont Eq ma mb))
    by (symmetry; apply (Pos.compare_cont_antisym ma mb Eq)).
  assert (He : (eb ?= ea) = CompOpp (ea ?= eb)) by apply Z.compare_antisym.
  change PosDef.Pos.compare_cont with Pos.compare_cont. rewrite He, Hm.
  destruct sa, sb; cbn; try reflexivity;
    destruct (ea ?= eb); cbn; try reflexivity;
    destruct (Pos.compare_cont Eq ma mb); reflexivity.
Qed.

Lemma flt_asym (a b : float) : flt a b = true -> flt b a = false.
Proof.
  unfold flt, SFltb. rewrite (SFcompare_antisym a b).
  destruct (SFcompare a b) as [[]|]; cbn; congruence.
Qed.

Lemma insert_perm (x : float) (l : list float) : Permutation (insert x l) (x :: l).
Proof.
  induction l as [|y l IH]; cbn [insert]; [reflexivity|].
  destruct (flt y x); [|reflexivity].
  rewrite IH. apply perm_swap.
Qed.

Lemma sorted_perm (l : list float) : Permutation (sort_ordered l) l.
Proof.
  induction l as [|x l IH]; cbn [sort_ordered]; [reflexivity|].
  rewrite insert_perm. now constructor.
Qed.

Lemma sorted_length (l : list float) : List.length (sort_ordered l) = List.length l.
Proof. apply Permutation_length, sorted_perm. Qed.

Lemma insert_hd (x y : float) (l : list float) :
  fle y x -> HdRel fle y l -> HdRel fle y (insert x l).
Proof.
  intros Hyx Hl. destruct l as [|z l]; cbn [insert]; [now constructor|].
  destruct (flt z x); constructor; [now inversion Hl|exact Hyx].
Qed.

Lemma insert_sorted (x : float) (l : list float) :
  Sorted fle l -> Sorted fle (insert x l).
Proof.
  induction l as [|y l IH]; intros Hl; cbn [insert].
  - repeat constructor.
  - destruct (flt y x) eqn:Hyx.
    + inversion Hl as [|? ? Hs Hh]; subst. constructor; [now apply IH|].
      apply insert_hd; [|exact Hh]. now apply flt_asym.
    + constructor; [exact Hl|]. constructor. exact Hyx.
Qed.

(** No element of [sort_ordered l] is smaller than its predecessor. *)
Lemma sorted_sorted (l : list float) : Sorted fle (sort_ordered l).
Proof.
  induction l as [|x l IH]; cbn [sort_ordered]; [constructor|]. now apply insert_sorted.
Qed.

(** Without a NaN, [<=] is the order that [<] sorts by. *)
Lemma fle_leq (a b : float) :
  is_nan a = false -> is_nan b = false -> fle a b -> leq a b.
Proof.
  unfold fle, leq, flt, SFltb, SFleb. rewrite (SFcompare_antisym a b).
  destruct a, b; try discriminate; intros _ _;
    destruct (SFcompare _ _) as [[]|] eqn:E; cbn; try discriminate; try reflexivity;
    cbn in E; try discriminate;
    repeat match type of E with context [if ?s then _ else _] => destruct s end;
    discriminate.
Qed.

Lemma leq_trans (a b c : float) : leq a b -> leq b c -> leq a c.
Proof.
  unfold leq, SFleb.
  destruct a as [sa|sa| |sa ma ea], b as [sb|sb| |sb mb eb], c as [sc|sc| |sc mc ec];
    cbn; try discriminate; try reflexivity;
    try (destruct sa; discriminate || reflexivity);
    try (destruct sb; discriminate || reflexivity);
    try (destruct sc; discriminate || reflexivity);
    try (destruct sa, sb; discriminate || reflexivity);
    try (destruct sb, sc; discriminate || reflexivity);
    try (destruct sa, sc; discriminate || reflexivity);
    try (destruct sa, sb, sc; discriminate || reflexivity).
  change PosDef.Pos.compare_cont with Pos.compare_cont.
  change (Pos.compare_cont Eq) with Pos.compare.
  destruct sa, sb, sc; try discriminate; try reflexivity;
    destruct (Z.compare_spec ea eb), (Z.compare_spec eb ec), (Z.compare_spec ea ec);
    try lia; cbn; try discriminate; try reflexivity;
    destruct (Pos.compare_spec ma mb), (Pos.compare_spec mb mc), (Pos.compare_spec ma mc);
    cbn; try discriminate; try reflexivity; intros; lia.
Qed.

Lemma has_nan_in (l : list float) :
  has_nan l = false -> forall x, In x l -> is_nan x = false.
Proof.
  unfold has_nan. intros H x Hx. destruct (is_nan x) eqn:E; [|reflexivity].
  assert (existsb is_nan l = true) by (apply existsb_exists; now exists x). congruence.
Qed.

Lemma Sorted_in {A} (R S : A -> A -> Prop) (l : list A) :
  (forall a b, In a l -> In b l -> R a b -> S a b) -> Sorted R l -> Sorted S l.
Proof.
  induction l as [|x l IH]; intros Himp Hs; [constructor|].
  inversion Hs as [|? ? Hl Hh]; subst. constructor.
  - apply IH; [|exact Hl]. intros a b Ha Hb. apply Himp; now right.
  - destruct l as [|y l]; constructor. inversion Hh; subst.
    apply Himp; [now left|right; now left|assumption].
Qed.

(** Without a NaN, the sorted list is in ascending order: every element
    is at most each of those that follow it. *)
Lemma sorted_ascending (l : list float) :
  has_nan l = false -> StronglySorted leq (sort_ordered l).
Proof.
  intros Hl. apply Sorted_StronglySorted; [exact leq_trans|].
  apply (Sorted_in fle leq); [|apply sorted_sorted].
  intros a b Ha Hb. apply fle_leq.
  - apply (has_nan_in l Hl). now apply (Permutation_in _ (sorted_perm l)).
  - apply (has_nan_in l Hl). now apply (Permutation_in _ (sorted_perm l)).
Qed.

Lemma sorted_ordered (sort_unordered : list float -> list float) (l : list float) :
  has_nan l = false -> Receiver.sorted sort_unordered l = sort_ordered l.
Proof. unfold Receiver.sorted. now intros ->. Qed.

(** The index of the 95th percentile is within the list. *)
Lemma p95_of_nearest_rank (sort_unordered : list float -> list float) (l : list float) :
  l <> [] -> Z.of_nat (List.length l) < 2 ^ 49 -> has_nan l = false ->
  exists p, Receiver.p95_of sort_unordered l = Ok p
            /\ nth_error (sort_ordered l)
                 (Z.to_nat (95 * Z.of_nat (List.length l) / 100)) = Some p.
Proof.
  intros Hl Hlen Hnan. unfold Receiver.p95_of. rewrite (sorted_ordered _ l Hnan).
  assert (Hpos : 0 < Z.of_nat (List.length l)) by (destruct l; [congruence|cbn; lia]).
  rewrite FloatFacts.p95_index_nearest_rank by lia.
  set (i := 95 * Z.of_nat (List.length l) / 100).
  assert (Hi : 0 <= i < Z.of_nat (List.length l)).
  { subst i. split; [apply Z.div_pos; lia|]. apply Z.div_lt_upper_bound; lia. }
  unfold list_getitem. destruct (Z.ltb_spec i 0); [lia|].
  destruct (Z.ltb_spec i 0); [lia|].
  destruct (nth_error (sort_ordered l) (Z.to_nat i)) as [p|] eqn:E.
  - now exists p.
  - apply nth_error_None in E. rewrite sorted_length in E. lia.
Qed.

End SortedFacts.


(** ** The connection *)

Module SqliteFacts.
Import Spec.

Lemma execute_insert_ok (c : connection) (r : row) :
  closed c = false -> insertable r = true ->
  execute_insert c r = (Ok tt, add_rows c [bound_row r]).
Proof.
  unfold execute_insert, insertable, add_rows. intros -> Hr.
  destruct (bind_params (params r)) as [[]|]; [|discriminate].
  now rewrite Hr.
Qed.

Lemma execute_insert_fail (c : connection) (r : row) :
  insertable r = false ->
  exists e, execute_insert c r = (Raise e, c).
Proof.
  unfold execute_insert, insertable. intros Hr.
  destruct (closed c); [now exists Sqlite3Error|].
  destruct (bind_params (params r)) as [[]|e]; [|now exists e].
  rewrite Hr. now exists Sqlite3Error.
Qed.

Lemma add_rows_nil (c : connection) : add_rows c [] = c.
Proof. destruct c; unfold add_rows; cbn. now rewrite app_nil_r. Qed.

Lemma add_rows_app (c : connection) (rs rs' : list row) :
  add_rows (add_rows c rs) rs' = add_rows c (rs ++ rs').
Proof. unfold add_rows; cbn. now rewrite app_assoc. Qed.

(** [executemany] writes a prefix of its rows. *)
Lemma insert_each_prefix (rs : list row) (c : connection) :
  closed c = false ->
  exists res done, insert_each c rs = (res, add_rows c (map bound_row done))
                   /\ (exists rest, rs = done ++ rest)
                   /\ (forallb insertable rs = true -> res = Ok tt /\ done = rs).
Proof.
  revert c. induction rs as [|r rs IH]; intros c Hc.
  - exists (Ok tt), []. cbn [map]. rewrite add_rows_nil. repeat split; now exists [].
  - cbn [insert_each forallb]. destruct (insertable r) eqn:Hr.
    + rewrite (execute_insert_ok c r Hc Hr).
      destruct (IH (add_rows c [bound_row r]) Hc) as (res & done & E & [rest Hrest] & Hall).
      exists res, (r :: done). rewrite E, add_rows_app. cbn [app map].
      split; [reflexivity|]. split; [exists rest; now rewrite Hrest|].
      cbn [andb]. intros Hrs. destruct (Hall Hrs) as [-> ->]. now split.
    + destruct (execute_insert_fail c r Hr) as [e ->].
      exists (Raise e), []. cbn [map]. rewrite add_rows_nil.
      split; [reflexivity|]. split; [now exists (r :: rs)|]. discriminate.
Qed.

Lemma commit_open (c : connection) :
  closed c = false -> commit c = (Ok tt, committed c).
Proof. unfold commit. now intros ->. Qed.

Lemma scans_app (a b : list row) : scans (a ++ b) = scans a ++ scans b.
Proof. apply filter_app. Qed.

Lemma snapshots_app (a b : list row) : snapshots (a ++ b) = snapshots a ++ snapshots b.
Proof. apply filter_app. Qed.

Lemma rows_add_rows (c : connection) (rs : list row) :
  rows (add_rows c rs) = rows c ++ rs.
Proof. unfold rows, add_rows; cbn. now rewrite app_assoc. Qed.

Lemma rows_committed (c : connection) : rows (committed c) = rows c.
Proof. unfold rows, committed; cbn. now rewrite app_nil_r. Qed.

Lemma scans_reading_rows (data_id : Z) (items : list (string * value)) :
  scans (reading_rows data_id items) = [].
Proof.
  unfold reading_rows, reading_params.
  destruct (dict_get items "readings") as [[]|]; try reflexivity.
  induction items0 as [|[a v] l IH]; [reflexivity|exact IH].
Qed.

Lemma snapshots_reading_rows (data_id : Z) (items : list (string * value)) :
  snapshots (reading_rows data_id items) = [].
Proof.
  unfold reading_rows, reading_params.
  destruct (dict_get items "readings") as [[]|]; try reflexivity.
  induction items0 as [|[a v] l IH]; [reflexivity|exact IH].
Qed.

Lemma is_sensor_data_bound (r : row) : is_sensor_data (bound_row r) = is_sensor_data r.
Proof. now destruct r. Qed.

Lemma is_performance_stats_bound (r : row) :
  is_performance_stats (bound_row r) = is_performance_stats r.
Proof. now destruct r. Qed.

(** A float that is a number is bound as it is. *)
Lemma bound_number (f : float) : is_nan f = false -> bound (PyFloat f) = PyFloat f.
Proof. now destruct f. Qed.

Lemma filter_prefix_nil {A} (f : A -> bool) (l done rest : list A) :
  filter f l = [] -> l = done ++ rest -> filter f done = [].
Proof.
  intros Hl ->. rewrite filter_app in Hl. now apply app_eq_nil in Hl.
Qed.

Lemma readings_ok_any_id (items : list (string * value)) (i : Z) :
  readings_ok items = true -> forallb insertable (reading_params i items) = true.
Proof.
  unfold readings_ok, reading_params.
  destruct (dict_get items "readings") as [[]|]; try reflexivity.
  induction items0 as [|[a v] l IH]; [reflexivity|].
  cbn [map forallb]. intros Hl. apply andb_true_iff in Hl as [Hv Hl].
  apply andb_true_iff. split; [exact Hv|now apply IH].
Qed.

End SqliteFacts.


(** ** The recorder *)

Module ReceiverFacts.
Import Spec Receiver SqliteFacts.
Local Open Scope py_scope.

Arguments fsub : simpl never.
Arguments fmul : simpl never.
Arguments fdiv : simpl never.
Arguments flt : simpl never.
Arguments Z.modulo : simpl never.
Arguments Z.mul : simpl never.
Arguments Z.add : simpl never.
Arguments bound_row : simpl never.
Arguments scan_params : simpl never.
Arguments stats_params : simpl never.


Lemma field_ok_default (required : bool) (items : list (string * value)) (k : string)
    (d : value) :
  field_ok required items k = true -> bindable d = true -> not_null (bound d) = true ->
  bindable (dict_get_default items k d) = true
  /\ (required = true -> not_null (bound (dict_get_default items k d)) = true).
Proof.
  unfold field_ok, dict_get_default. destruct (dict_get items k) as [v|].
  - intros Hv _ _. apply andb_true_iff in Hv as [Hb Hn]. split; [exact Hb|].
    intros ->. exact Hn.
  - intros _ Hb Hn. now split.
Qed.

Lemma scan_row_insertable (items : list (string * value)) (rt now : float)
    (lat : option float) :
  is_nan rt = false -> is_nan now = false ->
  scan_fields_ok items = true -> insertable (scan_params items rt now lat) = true.
Proof.
  unfold scan_fields_ok. intros Hrt Hnow Hf.
  apply andb_true_iff in Hf as [Hf Hdev]. apply andb_true_iff in Hf as [Hts Hmid].
  destruct (field_ok_default true items "timestamp" (PyFloat now) Hts eq_refl
              ltac:(now rewrite bound_number)) as [Bts Nts].
  destruct (field_ok_default false items "message_id" (PyInt (-1)) Hmid eq_refl eq_refl)
    as [Bmid _].
  destruct (field_ok_default true items "device_id" (PyStr "unknown") Hdev eq_refl eq_refl)
    as [Bdev Ndev].
  unfold insertable, scan_params, bound_row, bindable in *.
  cbn [params bind_params constraints_ok].
  destruct (bind_param (dict_get_default items "timestamp" (PyFloat now))); [|discriminate].
  cbn [bind_param].
  destruct (bind_param (dict_get_default items "message_id" (PyInt (-1)))); [|discriminate].
  destruct (bind_param (dict_get_default items "device_id" (PyStr "unknown"))); [|discriminate].
  rewrite (bound_number rt Hrt), (Nts eq_refl), (Ndev eq_refl).
  now destruct lat.
Qed.



Lemma float_of_int_ordinary (z : Z) : ordinary (float_of_int z).
Proof. unfold float_of_int. now destruct (binary_normalize prec emax z 0 false). Qed.

Lemma int_truediv_float_ordinary (n : Z) (r : float) : ordinary (int_truediv_float n r).
Proof.
  unfold int_truediv_float. pose proof (float_of_int_ordinary n) as H.
  destruct (float_of_int n); [|exact H]. now destruct r.
Qed.

Lemma int_of_float_ordinary (f : float) : ordinary (int_of_float f).
Proof. now destruct f. Qed.

Lemma p95_of_ordinary (sort_unordered : list float -> list float) (l : list float) :
  ordinary (p95_of sort_unordered l).
Proof.
  unfold p95_of, p95_index. pose proof (float_of_int_ordinary (Z.of_nat (List.length l))) as H.
  destruct (float_of_int (Z.of_nat (List.length l))) as [len|]; [|exact H].
  pose proof (int_of_float_ordinary (fmul len f0_95)) as H'.
  destruct (int_of_float (fmul len f0_95)) as [i|]; [|exact H'].
  unfold list_getitem.
  destruct (_ <? 0); [reflexivity|]. now destruct (nth_error (sorted sort_unordered l) _).
Qed.

Lemma bind_params_ordinary (vs : list value) : ordinary (bind_params vs).
Proof.
  induction vs as [|v vs IH]; [exact I|]. cbn [bind_params].
  destruct v; cbn [bind_param]; try exact IH; try reflexivity.
  destruct ((- 2 ^ 63 <=? z) && (z <? 2 ^ 63)); [exact IH|reflexivity].
Qed.

Lemma execute_insert_ordinary (c : connection) (r : row) :
  ordinary (fst (execute_insert c r)).
Proof.
  unfold execute_insert. destruct (closed c); [reflexivity|].
  pose proof (bind_params_ordinary (params r)) as H.
  destruct (bind_params (params r)); [|exact H]. now destruct (constraints_ok (bound_row r)).
Qed.

Lemma insert_each_ordinary (rs : list row) (c : connection) :
  ordinary (fst (insert_each c rs)).
Proof.
  revert c. induction rs as [|r rs IH]; intros c; [exact I|]. cbn [insert_each].
  pose proof (execute_insert_ordinary c r) as H.
  destruct (execute_insert c r) as [[[]|e] c']; [apply IH|exact H].
Qed.

Lemma reading_rows_prefix (i : Z) (items : list (string * value)) (done rest : list row) :
  reading_params i items = done ++ rest ->
  reading_rows i items = map bound_row done ++ map bound_row rest.
Proof. unfold reading_rows. intros ->. apply map_app. Qed.

Section WithEnvironment.
Variable clock : nat -> float.
Variable statistics_mean : list float -> float.
Variable sort_unordered : list float -> list float.

(** [time.time()] returns a number. *)
Hypothesis clock_number : forall n, is_nan (clock n) = false.

Local Abbreviation store_message := (store_message clock).
Local Abbreviation report_statistics :=
  (report_statistics clock statistics_mean sort_unordered).
Local Abbreviation on_message := (on_message clock statistics_mean sort_unordered).
Local Abbreviation p95_of := (p95_of sort_unordered).

(** [store_message] on a payload whose Scan row can be stored: the row
    is written, then a prefix of the readings; the transaction is
    committed at the 100th message or when a reading fails. *)
Lemma store_message_spec (items : list (string * value)) (rt : float)
    (lat : option float) (s : state) (c : connection) :
  db_connection s = Some c -> closed c = false ->
  is_nan rt = false -> scan_fields_ok items = true ->
  let row := scan_row items rt (clock (ticks s)) lat in
  let all := reading_rows (lastrowid (add_rows c [row])) items in
  exists res done c' lg',
    store_message (PyDict items) rt lat s = (res, upd s c' (S (ticks s)) lg')
    /\ (exists rest, all = done ++ rest)
    /\ (c' = add_rows c (row :: done) \/ c' = committed (add_rows c (row :: done)))
    /\ (readings_ok items = true ->
        res = Ok tt /\ lg' = log s
        /\ c' = if message_counts s mod 100 =? 0
                then committed (add_rows c (row :: all))
                else add_rows c (row :: all))
    /\ ordinary res.
Proof.
  destruct s as [lats n st lrt dbc tk lg]. cbn [db_connection ticks message_counts log].
  intros -> Hc Hrt Hf. cbv zeta.
  set (row := scan_row items rt (clock tk) lat).
  set (all := reading_rows (lastrowid (add_rows c [row])) items).
  pose proof (scan_row_insertable items rt (clock tk) lat Hrt (clock_number tk) Hf)
    as Hrow.
  unfold store_message, try_except, bind, time_time, db, gets, upd. cbn.
  change (SensorData (dict_get_default items "timestamp" _) _ _ _ _)
    with (scan_params items rt (clock tk) lat).
  rewrite (execute_insert_ok c _ Hc Hrow). cbn.
  change (bound_row (scan_params items rt (clock tk) lat)) with row.
  fold all.
  assert (Hexec : exists res done,
             (match dict_get items "readings" with
              | Some (PyDict readings) =>
                  fun s : state =>
                  match db_connection s with
                  | Some c0 =>
                      let (r1, c') :=
                        executemany_insert c0
                          (map (fun '(angle, v) =>
                                  SensorReading (lastrowid (add_rows c [row])) (PyStr angle) v)
                               readings) in
                      (r1, set_db_connection (Some c') s)
                  | None => (Raise AttributeError, s)
                  end
              | _ => ret tt
              end) (State lats n st lrt (Some (add_rows c [row])) (S tk) lg)
             = (res, State lats n st lrt (Some (add_rows c (row :: done))) (S tk) lg)
             /\ (exists rest, all = done ++ rest)
             /\ (readings_ok items = true -> res = Ok tt /\ done = all)
             /\ ordinary res).
  { pose proof (readings_ok_any_id items (lastrowid (add_rows c [row]))) as Hok.
    subst all. unfold reading_rows, reading_params in *.
    destruct (dict_get items "readings") as [[| | | | | |readings]|];
      try (exists (Ok tt), []; cbn; repeat split; now exists []).
    set (raw := map (fun '(angle, v) =>
                       SensorReading (lastrowid (add_rows c [row])) (PyStr angle) v)
                    readings) in *.
    pose proof (insert_each_ordinary raw (add_rows c [row])) as Hord.
    unfold executemany_insert. cbn. rewrite Hc.
    destruct (insert_each_prefix raw (add_rows c [row]) Hc)
      as (res & done & E & [rest Hpre] & Hall).
    exists res, (map bound_row done). rewrite E in Hord |- *. rewrite add_rows_app. cbn.
    split; [reflexivity|].
    split; [exists (map bound_row rest); rewrite Hpre; apply map_app|].
    split; [|exact Hord].
    intros Hr. destruct (Hall (Hok Hr)) as [-> ->]. now split. }
  destruct Hexec as (res & done & E & Hpre & Hall & Hord).
  unfold set_db_connection, set_ticks in *. cbn in E |- *. rewrite E. clear E.
  destruct res as [[]|e].
  - cbn. destruct (n mod 100 =? 0) eqn:Hn.
    + cbn. rewrite (commit_open (add_rows c (row :: done)) Hc).
      exists (Ok tt), done. do 2 eexists. split; [reflexivity|]. split; [exact Hpre|].
      split; [now right|]. split; [|exact I].
      intros Hr. destruct (Hall Hr) as [_ ->]. now repeat split.
    + cbn. exists (Ok tt), done. do 2 eexists. split; [reflexivity|]. split; [exact Hpre|].
      split; [now left|]. split; [|exact I].
      intros Hr. destruct (Hall Hr) as [_ ->]. now repeat split.
  - destruct (is_sqlite3_Error e) eqn:He.
    + cbn. rewrite (commit_open (add_rows c (row :: done)) Hc).
      exists (Ok tt), done. do 2 eexists. split; [reflexivity|]. split; [exact Hpre|].
      split; [now right|]. split; [|exact I]. intros Hr. now destruct (Hall Hr).
    + exists (Raise e), done. do 2 eexists. split; [reflexivity|]. split; [exact Hpre|].
      split; [now left|]. split; [|exact Hord]. intros Hr. now destruct (Hall Hr).
Qed.

Lemma save_statistics_snapshot_spec (avg mn mx p95 thr : float) (s : state)
    (c : connection) :
  db_connection s = Some c -> closed c = false ->
  let row := stats_row (clock (ticks s)) (message_counts s) avg mn mx p95 thr in
  exists res c' lg',
    save_statistics_snapshot clock avg mn mx p95 thr s = (res, upd s c' (S (ticks s)) lg')
    /\ (c' = c \/ c' = committed (add_rows c [row]))
    /\ (insertable (stats_params (clock (ticks s)) (message_counts s) avg mn mx p95 thr)
        = true ->
        res = Ok tt /\ c' = committed (add_rows c [row]))
    /\ ordinary res
    /\ (exists extra, lg' = log s ++ extra).
Proof.
  destruct s as [lats n st lrt dbc tk lg]. cbn [db_connection ticks message_counts log].
  intros -> Hc. cbv zeta.
  set (row := stats_row (clock tk) n avg mn mx p95 thr).
  unfold save_statistics_snapshot, try_except, bind, time_time, db, gets,
    execute_create_if_not_exists, upd.
  cbn. rewrite Hc. cbn.
  change (PerformanceStats _ _ _ _ _ _ _) with (stats_params (clock tk) n avg mn mx p95 thr).
  destruct (insertable (stats_params (clock tk) n avg mn mx p95 thr)) eqn:Hrow.
  - rewrite (execute_insert_ok c _ Hc Hrow). cbn.
    change (bound_row (stats_params (clock tk) n avg mn mx p95 thr)) with row.
    rewrite (commit_open (add_rows c [row]) Hc). cbn.
    exists (Ok tt). do 2 eexists. split; [reflexivity|].
    split; [now right|]. split; [now split|]. split; [exact I|]. eexists; reflexivity.
  - pose proof (execute_insert_ordinary c (stats_params (clock tk) n avg mn mx p95 thr))
      as Hord.
    destruct (execute_insert_fail c _ Hrow) as [e E]. rewrite E in Hord |- *. cbn.
    destruct (is_sqlite3_Error e); cbn.
    + exists (Ok tt). do 2 eexists. split; [reflexivity|].
      split; [now left|]. split; [discriminate|]. split; [exact I|].
      eexists; reflexivity.
    + exists (Raise e). do 2 eexists. split; [reflexivity|].
      split; [now left|]. split; [discriminate|]. split; [exact Hord|].
      exists []. now rewrite app_nil_r.
Qed.

(** [report_statistics] leaves the connection as it is, or writes and
    commits one snapshot row; the latter only at a multiple of 500
    messages. *)
Lemma report_statistics_frame (s : state) (c : connection) :
  db_connection s = Some c -> closed c = false ->
  exists res c' tk' lg',
    report_statistics s = (res, upd s c' tk' lg')
    /\ (c' = c
        \/ (message_counts s mod 500 = 0 /\ latencies s <> []
            /\ exists row, is_performance_stats row = true
                           /\ c' = committed (add_rows c [row])))
    /\ ordinary res.
Proof.
  destruct s as [lats n st lrt dbc tk lg]. cbn [db_connection ticks message_counts log].
  intros -> Hc.
  unfold report_statistics, bind, gets, lift, upd. cbn.
  destruct lats as [|x l].
  { exists (Ok tt). do 3 eexists. split; [reflexivity|]. split; [now left|exact I]. }
  unfold time_time, logger, modify. cbn.
  destruct st as [t0|];
    [|exists (Raise TypeError); do 3 eexists; split; [reflexivity|];
      split; [now left|reflexivity]].
  pose proof (int_truediv_float_ordinary n (fsub (clock tk) t0)) as Hthr.
  destruct (int_truediv_float n (fsub (clock tk) t0)) as [thr|e]; cbn;
    [|exists (Raise e); do 3 eexists; split; [reflexivity|];
      split; [now left|exact Hthr]].
  pose proof (p95_of_ordinary sort_unordered (x :: l)) as Hp.
  destruct (p95_of (x :: l)) as [p|e]; cbn;
    [|exists (Raise e); do 3 eexists; split; [reflexivity|];
      split; [now left|exact Hp]].
  change (100 * reporting_interval) with 500.
  destruct (n mod 500 =? 0) eqn:Hn.
  - match goal with
    | |- context [save_statistics_snapshot clock ?a ?b ?m ?q ?t ?s0] =>
        destruct (save_statistics_snapshot_spec a b m q t s0 c eq_refl Hc)
          as (res & c' & lg' & E & Hcon & _ & Hord & _)
    end.
    cbn in E. rewrite E. exists res, c'. do 2 eexists. split; [reflexivity|].
    split; [|exact Hord]. destruct Hcon as [H|H]; [now left|right].
    apply Z.eqb_eq in Hn. split; [exact Hn|]. split; [discriminate|].
    eexists. split; [|exact H]. reflexivity.
  - exists (Ok tt). do 3 eexists. split; [reflexivity|].
    split; [now left|exact I].
Qed.


Lemma stats_row_insertable (now : float) (n : Z) (avg mn mx p95 thr : float) :
  is_nan now = false ->
  - 2 ^ 63 <= n < 2 ^ 63 -> insertable (stats_params now n avg mn mx p95 thr) = true.
Proof.
  intros Hnow Hn. unfold insertable, stats_params, bound_row.
  cbn [params bind_params bind_param constraints_ok].
  destruct (Z.leb_spec (- 2 ^ 63) n); [|lia]. destruct (Z.ltb_spec n (2 ^ 63)); [|lia].
  now rewrite (bound_number now Hnow).
Qed.

(** Whatever the connection, [save_statistics_snapshot] only adds to
    the log. *)
Lemma save_statistics_snapshot_log (avg mn mx p95 thr : float) (s : state) :
  exists extra,
    log (snd (save_statistics_snapshot clock avg mn mx p95 thr s)) = log s ++ extra.
Proof.
  destruct s as [lats n st lrt dbc tk lg].
  destruct dbc as [c|].
  - destruct (closed c) eqn:Hc.
    + unfold save_statistics_snapshot, try_except, bind, time_time, db, gets, logger,
        modify, execute_create_if_not_exists.
      cbn. rewrite Hc. cbn. eexists; reflexivity.
    + destruct (save_statistics_snapshot_spec avg mn mx p95 thr
                  (State lats n st lrt (Some c) tk lg) c eq_refl Hc)
        as (res & c' & lg' & E & _ & _ & _ & extra & ->).
      rewrite E. now exists extra.
  - unfold save_statistics_snapshot, try_except, bind, time_time, db, gets, logger,
      modify, execute_create_if_not_exists.
    cbn. exists []. now rewrite app_nil_r.
Qed.

(** A report whose statistics compute logs the record with the
    latency statistics. *)
Lemma report_statistics_logs (s : state) (x : float) (l : list float)
    (t0 thr p : float) :
  latencies s = x :: l -> start_time s = Some t0 ->
  int_truediv_float (message_counts s) (fsub (clock (ticks s)) t0) = Ok thr ->
  p95_of (x :: l) = Ok p ->
  exists mn mx,
    py_min (x :: l) = Ok mn /\ py_max (x :: l) = Ok mx
    /\ In (LogRecord INFO "Latency (ms)"
             [PyFloat (statistics_mean (x :: l)); PyFloat mn; PyFloat mx; PyFloat p])
          (log (snd (report_statistics s))).
Proof.
  destruct s as [lats n st lrt dbc tk lg].
  cbn [db_connection ticks message_counts log latencies start_time].
  intros -> -> Hthr Hp.
  do 2 eexists. split; [reflexivity|]. split; [reflexivity|].
  unfold report_statistics, bind, gets, lift, time_time, logger, modify. cbn.
  rewrite Hthr. cbn. rewrite Hp. cbn.
  change (100 * reporting_interval) with 500.
  destruct (Z.eqb_spec (n mod 500) 0) as [Hn|Hn].
  - match goal with
    | |- context [save_statistics_snapshot clock ?a ?b ?m ?q ?t ?s0] =>
        destruct (save_statistics_snapshot_log a b m q t s0) as [extra ->]
    end.
    cbn [log]. apply in_or_app. left. apply in_or_app. left.
    apply in_or_app. right. now left.
  - cbn [snd log]. apply in_or_app. left. apply in_or_app. right. now left.
Qed.

(** A report whose statistics compute: the record with the latency
    statistics is logged, and at a multiple of 500 messages the
    snapshot row is written and committed. *)
Lemma report_statistics_runs (s : state) (x : float) (l : list float)
    (t0 thr p : float) :
  latencies s = x :: l -> start_time s = Some t0 ->
  int_truediv_float (message_counts s) (fsub (clock (ticks s)) t0) = Ok thr ->
  p95_of (x :: l) = Ok p ->
  exists mn mx res s',
    py_min (x :: l) = Ok mn /\ py_max (x :: l) = Ok mx
    /\ report_statistics s = (res, s')
    /\ In (LogRecord INFO "Latency (ms)"
             [PyFloat (statistics_mean (x :: l)); PyFloat mn; PyFloat mx; PyFloat p])
          (log s')
    /\ (forall c, db_connection s = Some c -> closed c = false ->
        message_counts s mod 500 = 0 -> - 2 ^ 63 <= message_counts s < 2 ^ 63 ->
        res = Ok tt
        /\ db_connection s'
           = Some (committed (add_rows c
               [stats_row (clock (S (ticks s))) (message_counts s)
                  (statistics_mean (x :: l)) mn mx p thr])))
    /\ (message_counts s mod 500 <> 0 ->
        res = Ok tt /\ db_connection s' = db_connection s).
Proof.
  destruct s as [lats n st lrt dbc tk lg].
  cbn [db_connection ticks message_counts log latencies start_time].
  intros -> -> Hthr Hp.
  do 2 eexists. exists (fst (report_statistics (State (x :: l) n (Some t0) lrt dbc tk lg))).
  exists (snd (report_statistics (State (x :: l) n (Some t0) lrt dbc tk lg))).
  split; [reflexivity|]. split; [reflexivity|]. split; [now destruct (report_statistics _)|].
  unfold report_statistics, bind, gets, lift, time_time, logger, modify. cbn.
  rewrite Hthr. cbn. rewrite Hp. cbn.
  change (100 * reporting_interval) with 500.
  destruct (Z.eqb_spec (n mod 500) 0) as [Hn|Hn].
  - split; [|split; [|intros; contradiction]].
    + match goal with
      | |- context [save_statistics_snapshot clock ?a ?b ?m ?q ?t ?s0] =>
          destruct (save_statistics_snapshot_log a b m q t s0) as [extra ->]
      end.
      cbn [log]. apply in_or_app. left. apply in_or_app. left.
      apply in_or_app. right. now left.
    + intros c -> Hc _ Hr.
      match goal with
      | |- context [save_statistics_snapshot clock ?a ?b ?m ?q ?t ?s0] =>
          destruct (save_statistics_snapshot_spec a b m q t s0 c eq_refl Hc)
            as (res & c' & lg' & E & _ & Hins & _ & _)
      end.
      cbn [ticks message_counts] in E, Hins. rewrite E.
      destruct (Hins (stats_row_insertable _ _ _ _ _ _ _ (clock_number _) Hr))
        as [-> ->]. now split.
  - split; [|split; [intros c _ _ H; contradiction|intros _; now split]].
    cbn [snd log]. apply in_or_app. left. apply in_or_app. right. now left.
Qed.

(** [close_database] on an open connection commits and closes. *)
Lemma close_database_open (s : state) (c : connection) :
  db_connection s = Some c -> closed c = false ->
  exists lg', close_database s = (Ok tt, upd s (close (committed c)) (ticks s) lg').
Proof.
  destruct s as [lats n st lrt dbc tk lg]. cbn [db_connection ticks]. intros -> Hc.
  unfold close_database, bind, gets, db, logger, modify, upd. cbn.
  rewrite (commit_open c Hc). cbn. eexists; reflexivity.
Qed.

(** On a closed connection it raises and changes nothing. *)
Lemma close_database_closed (s : state) (c : connection) :
  db_connection s = Some c -> closed c = true ->
  close_database s = (Raise Sqlite3Error, s).
Proof.
  destruct s as [lats n st lrt dbc tk lg]. cbn [db_connection]. intros -> Hc.
  unfold close_database, bind, gets, db, commit. cbn. now rewrite Hc.
Qed.

(** The shutdown: after the last report, the open transaction is
    committed once and the connection is closed. *)
Lemma main_interrupted_spec (s : state) (c : connection) :
  db_connection s = Some c -> closed c = false ->
  exists res c' tk' lg',
    main_interrupted clock statistics_mean sort_unordered s = (res, upd s (close (committed c')) tk' lg')
    /\ (c' = c
        \/ (message_counts s mod 500 = 0 /\ latencies s <> []
            /\ exists row, is_performance_stats row = true
                           /\ c' = committed (add_rows c [row]))).
Proof.
  intros Hdb Hc.
  destruct s as [lats n st lrt dbc tk lg]. cbn [db_connection] in Hdb. subst dbc.
  unfold main_interrupted, try_finally, try_except, handle_exit.
  unfold bind at 1, logger at 1, modify at 1, set_log.
  cbn [latencies message_counts start_time last_report_time db_connection ticks log].
  unfold bind at 1.
  match goal with
  | |- context [Receiver.report_statistics clock statistics_mean sort_unordered ?s0] =>
      destruct (report_statistics_frame s0 c eq_refl Hc)
        as (res1 & c1 & tk1 & lg1 & E1 & Hc1 & Hord1)
  end.
  rewrite E1. unfold upd in *.
  cbn [latencies message_counts start_time last_report_time db_connection ticks log] in *.
  assert (Hopen1 : closed c1 = false).
  { destruct Hc1 as [->|(_ & _ & row & _ & ->)]; [exact Hc|reflexivity]. }
  destruct res1 as [[]|e].
  - unfold bind at 1.
    destruct (close_database_open (State lats n st lrt (Some c1) tk1 lg1) c1 eq_refl Hopen1)
      as [lg2 E2].
    rewrite E2. unfold upd, raise.
    cbn [latencies message_counts start_time last_report_time db_connection ticks log
           is_Exception].
    match goal with
    | |- context [close_database ?s0] =>
        rewrite (close_database_closed s0 (close (committed c1)) eq_refl eq_refl)
    end.
    exists (Raise Sqlite3Error), c1. do 2 eexists. split; [reflexivity|exact Hc1].
  - cbn in Hord1. rewrite Hord1. unfold logger, modify, set_log.
    cbn [latencies message_counts start_time last_report_time db_connection ticks log].
    match goal with
    | |- context [close_database ?s0] =>
        destruct (close_database_open s0 c1 eq_refl Hopen1) as [lg2 E2]
    end.
    rewrite E2. unfold upd.
    cbn [latencies message_counts start_time last_report_time db_connection ticks log].
    exists (Ok tt), c1. do 2 eexists. split; [reflexivity|exact Hc1].
Qed.

Arguments Receiver.store_message : simpl never.
Arguments Receiver.report_statistics : simpl never.

(** [on_message] on a payload whose Scan row can be stored. *)
Lemma on_message_spec (items : list (string * value)) (s : state) (c : connection) :
  db_connection s = Some c -> closed c = false ->
  scan_fields_ok items = true -> send_time_ok items = true ->
  let rt := clock (ticks s) in
  let lat := latency_of items rt in
  let n := message_counts s + 1 in
  let row := scan_row items rt (clock (S (ticks s))) lat in
  let all := reading_rows (lastrowid (add_rows c [row])) items in
  let trigger :=
    flt f_reporting_interval (fsub (clock (S (S (ticks s)))) (last_report_time s)) in
  exists done c1 c' lrt' tk' lg',
    on_message (Ok (PyDict items)) s
    = (Ok tt, State (latencies s ++ latency_list lat) n (start_time s) lrt' (Some c') tk' lg')
    /\ (exists rest, all = done ++ rest)
    /\ (c1 = add_rows c (row :: done) \/ c1 = committed (add_rows c (row :: done)))
    /\ (readings_ok items = true ->
        c1 = if n mod 100 =? 0
             then committed (add_rows c (row :: all))
             else add_rows c (row :: all))
    /\ (c' = c1
        \/ (trigger = true /\ n mod 500 = 0 /\ latencies s ++ latency_list lat <> []
            /\ exists stats, is_performance_stats stats = true
                             /\ c' = committed (add_rows c1 [stats])))
    /\ (readings_ok items = true -> trigger = true ->
        forall x l t0 thr p,
          latencies s ++ latency_list lat = x :: l -> start_time s = Some t0 ->
          int_truediv_float n (fsub (clock (S (S (S (ticks s))))) t0) = Ok thr ->
          p95_of (x :: l) = Ok p ->
          n mod 500 = 0 -> - 2 ^ 63 <= n < 2 ^ 63 ->
          exists mn mx,
            c' = committed (add_rows c1
                   [stats_row (clock (S (S (S (S (ticks s)))))) n
                      (statistics_mean (x :: l)) mn mx p thr])).
Proof.
  destruct s as [lats n0 st lrt dbc tk lg].
  cbn [db_connection ticks message_counts log latencies start_time last_report_time].
  intros -> Hc Hf Hs. cbv zeta.
  set (rt := clock tk). set (lat := latency_of items rt).
  set (row := scan_row items rt (clock (S tk)) lat).
  set (all := reading_rows (lastrowid (add_rows c [row])) items).
  (* the body of the [try] *)
  unfold on_message, bind at 1, time_time at 1, try_except, set_ticks.
  cbn [latencies message_counts start_time last_report_time db_connection ticks log].
  fold rt.
  match goal with |- context [match ?X with pair _ _ => _ end] => set (run := X) end.
  assert (Hbody : exists res done c1 c' lrt' tk' lg',
    run
    = (res, State (lats ++ latency_list lat) (n0 + 1) st lrt' (Some c') tk' lg')
    /\ (exists rest, all = done ++ rest)
    /\ (c1 = add_rows c (row :: done) \/ c1 = committed (add_rows c (row :: done)))
    /\ (readings_ok items = true ->
        c1 = if (n0 + 1) mod 100 =? 0
             then committed (add_rows c (row :: all))
             else add_rows c (row :: all))
    /\ (c' = c1
        \/ (flt f_reporting_interval (fsub (clock (S (S tk))) lrt) = true
            /\ (n0 + 1) mod 500 = 0 /\ lats ++ latency_list lat <> []
            /\ exists stats, is_performance_stats stats = true
                             /\ c' = committed (add_rows c1 [stats])))
    /\ (readings_ok items = true ->
        flt f_reporting_interval (fsub (clock (S (S tk))) lrt) = true ->
        forall x l t0 thr p,
          lats ++ latency_list lat = x :: l -> st = Some t0 ->
          int_truediv_float (n0 + 1) (fsub (clock (S (S (S tk)))) t0) = Ok thr ->
          p95_of (x :: l) = Ok p ->
          (n0 + 1) mod 500 = 0 -> - 2 ^ 63 <= n0 + 1 < 2 ^ 63 ->
          exists mn mx,
            c' = committed (add_rows c1
                   [stats_row (clock (S (S (S (S tk))))) (n0 + 1)
                      (statistics_mean (x :: l)) mn mx p thr]))
    /\ ordinary res).
  { subst run. unfold bind at 1, lift at 1. unfold bind at 1, lift at 1, contains.
    assert (Hlat : exists s2,
      (if match dict_get items "send_time" with Some _ => true | None => false end
       then
         sent <- lift (getitem (PyDict items) "send_time") ;;
         d <- lift (float_sub_value rt sent) ;;
         modify (fun s => set_latencies (latencies s ++ [fmul d f1000]) s) ;;
         ret (Some (fmul d f1000))
       else ret None) (State lats n0 st lrt (Some c) (S tk) lg)
      = (Ok lat, State (lats ++ latency_list lat) n0 st lrt (Some c) (S tk) lg)
        /\ s2 = tt).
    { exists tt. split; [|reflexivity]. subst lat. unfold latency_of, send_time_ok in *.
      unfold getitem, float_sub_value, bind, lift, modify, ret. cbn.
      destruct (dict_get items "send_time") as [v|]; cbn.
      - destruct (as_float v) as [sent|]; [reflexivity|discriminate].
      - now rewrite app_nil_r. }
    destruct Hlat as (_ & Hlat & _).
    unfold bind at 1. rewrite Hlat. clear Hlat.
    unfold bind at 1, modify at 1, set_message_counts.
    cbn [latencies message_counts start_time last_report_time db_connection ticks log].
    destruct (store_message_spec items rt lat
                (State (lats ++ latency_list lat) (n0 + 1) st lrt (Some c) (S tk) lg)
                c eq_refl Hc (clock_number tk) Hf)
      as (res & done & c1 & lg1 & E & Hpre & Hc1 & Hwf & Hord).
    cbn [ticks message_counts log] in E, Hc1, Hwf, Hpre.
    fold row in E, Hc1, Hwf, Hpre. fold all in Hwf, Hpre.
    assert (Hc1open : closed c1 = false) by (destruct Hc1 as [-> | ->]; [exact Hc|reflexivity]).
    unfold bind at 1. rewrite E. clear E. unfold upd.
    cbn [latencies message_counts start_time last_report_time db_connection ticks log].
    destruct res as [[]|e].
    2:{ exists (Raise e), done, c1, c1. do 3 eexists. split; [reflexivity|].
        split; [exact Hpre|]. split; [exact Hc1|].
        split; [intros Hr; now destruct (Hwf Hr) as (_ & _ & ->)|].
        split; [now left|]. split; [|exact Hord].
        intros Hr. now destruct (Hwf Hr) as (? & _). }
    unfold bind at 1, gets at 1. cbn [message_counts].
    assert (Hlog : exists lg2 u,
      (if (n0 + 1) mod 100 =? 0
       then logger INFO "Received message"
              [PyInt (n0 + 1); dict_get_default items "message_id" PyNone]
       else ret tt)
        (State (lats ++ latency_list lat) (n0 + 1) st lrt (Some c1) (S (S tk)) lg1)
      = (Ok u, State (lats ++ latency_list lat) (n0 + 1) st lrt (Some c1) (S (S tk)) lg2)).
    { destruct ((n0 + 1) mod 100 =? 0); do 2 eexists; reflexivity. }
    destruct Hlog as (lg2 & u & Hlog). unfold bind at 1. rewrite Hlog. clear Hlog.
    unfold bind at 1, time_time at 1, set_ticks.
    cbn [latencies message_counts start_time last_report_time db_connection ticks log].
    unfold bind at 1, gets at 1. cbn [last_report_time].
    destruct (flt f_reporting_interval (fsub (clock (S (S tk))) lrt)) eqn:Htrig.
    2:{ exists (Ok tt), done, c1, c1. do 3 eexists. split; [reflexivity|].
        split; [exact Hpre|]. split; [exact Hc1|].
        split; [intros Hr; now destruct (Hwf Hr) as (_ & _ & ->)|].
        split; [now left|]. split; [discriminate|exact I]. }
    destruct (report_statistics_frame
                (State (lats ++ latency_list lat) (n0 + 1) st lrt (Some c1) (S (S (S tk))) lg2)
                c1 eq_refl Hc1open)
      as (res & c' & tk' & lg' & E & Hc' & Hord').
    assert (Hsnap : readings_ok items = true -> true = true ->
        forall x l t0 thr p,
          lats ++ latency_list lat = x :: l -> st = Some t0 ->
          int_truediv_float (n0 + 1) (fsub (clock (S (S (S tk)))) t0) = Ok thr ->
          p95_of (x :: l) = Ok p ->
          (n0 + 1) mod 500 = 0 -> - 2 ^ 63 <= n0 + 1 < 2 ^ 63 ->
          exists mn mx,
            c' = committed (add_rows c1
                   [stats_row (clock (S (S (S (S tk))))) (n0 + 1)
                      (statistics_mean (x :: l)) mn mx p thr])).
    { intros _ _ x l t0 thr p Hl Ht0 Hthr Hp Hmod Hrange.
      destruct (report_statistics_runs
                  (State (lats ++ latency_list lat) (n0 + 1) st lrt (Some c1)
                     (S (S (S tk))) lg2) x l t0 thr p Hl Ht0 Hthr Hp)
        as (mn & mx & res' & s'' & _ & _ & E' & _ & Hdb & _).
      rewrite E in E'. injection E' as _ <-.
      destruct (Hdb c1 eq_refl Hc1open Hmod Hrange) as [_ Hdb'].
      unfold upd in Hdb'. cbn [db_connection ticks message_counts] in Hdb'.
      injection Hdb' as ->.
      now exists mn, mx. }
    unfold bind at 1. rewrite E. clear E. unfold upd.
    cbn [latencies message_counts start_time last_report_time db_connection ticks log] in *.
    assert (Hfin : c' = c1 \/
              (true = true /\ (n0 + 1) mod 500 = 0 /\ lats ++ latency_list lat <> []
               /\ exists stats, is_performance_stats stats = true
                                /\ c' = committed (add_rows c1 [stats]))).
    { destruct Hc' as [->|(H1 & H2 & H3)]; [now left|right; now repeat split]. }
    destruct res as [[]|e].
    - exists (Ok tt), done, c1, c'. do 3 eexists. split; [reflexivity|].
      split; [exact Hpre|]. split; [exact Hc1|].
      split; [intros Hr; now destruct (Hwf Hr) as (_ & _ & ->)|].
      split; [exact Hfin|]. split; [exact Hsnap|exact I].
    - exists (Raise e), done, c1, c'. do 3 eexists. split; [reflexivity|].
      split; [exact Hpre|]. split; [exact Hc1|].
      split; [intros Hr; now destruct (Hwf Hr) as (_ & _ & ->)|].
      split; [exact Hfin|]. split; [exact Hsnap|exact Hord']. }
  destruct Hbody
    as (res & done & c1 & c' & lrt' & tk' & lg' & E & Hpre & Hc1 & Hwf & Hc' & Hsnap & Hord).
  rewrite E. exists done, c1, c'.
  destruct res as [[]|e].
  - do 3 eexists. split; [reflexivity|]. now repeat split.
  - cbn in Hord. destruct e; try discriminate; cbn;
      (do 3 eexists; split; [reflexivity|]; now repeat split).
Qed.


Lemma stats_not_scan (r : row) : is_performance_stats r = true -> is_sensor_data r = false.
Proof. now destruct r. Qed.

Lemma scans_done (items : list (string * value)) (i : Z) (done rest : list row) :
  reading_rows i items = done ++ rest -> scans done = [].
Proof.
  intros H. apply (filter_prefix_nil _ (reading_rows i items) done rest); [|exact H].
  apply scans_reading_rows.
Qed.

Lemma snapshots_done (items : list (string * value)) (i : Z) (done rest : list row) :
  reading_rows i items = done ++ rest -> snapshots done = [].
Proof.
  intros H. apply (filter_prefix_nil _ (reading_rows i items) done rest); [|exact H].
  apply snapshots_reading_rows.
Qed.

(** Handling a payload whose Scan row can be stored writes that row
    and no other Scan row, whatever happens to its readings. *)
Lemma on_message_scans (items : list (string * value)) (s : state) :
  is_open s -> scan_fields_ok items = true -> send_time_ok items = true ->
  let rt := clock (ticks s) in
  exists s',
    on_message (Ok (PyDict items)) s = (Ok tt, s')
    /\ is_open s'
    /\ all_scans s'
       = all_scans s ++ [scan_row items rt (clock (S (ticks s))) (latency_of items rt)].
Proof.
  intros (c & Hdb & Hc) Hf Hs rt.
  destruct (on_message_spec items s c Hdb Hc Hf Hs)
    as (done & c1 & c' & lrt' & tk' & lg' & E & [rest Hpre] & Hc1 & _ & Hc' & _).
  fold rt in E, Hpre, Hc1.
  set (row := scan_row items rt (clock (S (ticks s))) (latency_of items rt)) in *.
  eexists. split; [exact E|].
  assert (H1 : scans (rows c1) = scans (rows c) ++ [row] /\ closed c1 = false).
  { pose proof (scans_done _ _ _ _ Hpre) as Hd.
    destruct Hc1 as [-> | ->]; rewrite ?rows_committed, rows_add_rows, scans_app;
      cbn [scans filter is_sensor_data row scan_row]; fold (scans done);
      rewrite Hd; split; try reflexivity; exact Hc. }
  destruct H1 as [H1 Hopen1].
  assert (H2 : scans (rows c') = scans (rows c) ++ [row] /\ closed c' = false).
  { destruct Hc' as [-> | (_ & _ & _ & stats & Hst & ->)]; [now split|].
    rewrite rows_committed, rows_add_rows, scans_app, H1.
    cbn [scans filter]. rewrite (stats_not_scan stats Hst), app_nil_r. now split. }
  destruct H2 as [H2 Hopen'].
  split; [exists c'; now split|].
  unfold all_scans. cbn [db_connection]. now rewrite Hdb.
Qed.

(** What is bound of a field of the payload that has a default. *)
Lemma bound_default (items : list (string * value)) (k : string) (d : value) :
  bound d = d ->
  bound (dict_get_default items k d)
  = match dict_get items k with Some v => bound v | None => d end.
Proof. unfold dict_get_default. now destruct (dict_get items k). Qed.

(** C6: for a handled message, the latency recorded in its Scan row is
    [(receive_time - send_time) * 1000] when the payload has a
    [send_time], and null when it has none.  The product is recorded
    as it is when it is a number, which it is for a finite
    [send_time] at a finite [receive_time]; a product that is NaN is
    recorded as null. *)
Theorem latency_recorded (items : list (string * value)) (s : state) :
  is_open s -> scan_fields_ok items = true -> send_time_ok items = true ->
  let receive_time := clock (ticks s) in
  exists ts mid dev latency_ms,
    all_scans (snd (on_message (Ok (PyDict items)) s))
    = all_scans s ++ [SensorData ts (PyFloat receive_time) mid dev latency_ms]
    /\ (dict_get items "send_time" = None -> latency_ms = PyNone)
    /\ (forall v send_time,
           dict_get items "send_time" = Some v -> as_float v = Ok send_time ->
           let latency := fmul (fsub receive_time send_time) f1000 in
           latency_ms = (if is_nan latency then PyNone else PyFloat latency)
           /\ (is_finite receive_time = true -> is_finite send_time = true ->
               latency_ms = PyFloat latency)).
Proof.
  intros Ho Hf Hs receive_time.
  destruct (on_message_scans items s Ho Hf Hs) as (s' & E & _ & Hscans).
  rewrite E. cbn [snd]. unfold scan_row, scan_params, bound_row in Hscans.
  rewrite (bound_number _ (clock_number (ticks s))) in Hscans. do 4 eexists.
  split; [exact Hscans|]. unfold latency_of. split.
  - now intros ->.
  - intros v send_time -> ->. cbv zeta. cbn [value_of_latency].
    assert (Hb : forall f, bound (PyFloat f) = if is_nan f then PyNone else PyFloat f)
      by (intros f; now destruct f).
    split; [apply Hb|]. intros Hrt Hst. apply bound_number.
    now apply FloatFacts.latency_number.
Qed.

(** C10: a decodable payload is stored although [timestamp],
    [message_id] or [device_id] is missing; the row then holds the
    receiver's clock reading, -1 and "unknown" in their place, and
    what is bound of the fields that are given. *)
Theorem missing_fields_default (items : list (string * value)) (s : state) :
  is_open s -> scan_fields_ok items = true -> send_time_ok items = true ->
  let receive_time := clock (ticks s) in
  let now := clock (S (ticks s)) in
  exists ts mid dev,
    on_message (Ok (PyDict items)) s = (Ok tt, snd (on_message (Ok (PyDict items)) s))
    /\ all_scans (snd (on_message (Ok (PyDict items)) s))
       = all_scans s ++ [SensorData ts (PyFloat receive_time) mid dev
                           (bound (value_of_latency (latency_of items receive_time)))]
    /\ ts = match dict_get items "timestamp" with
            | Some v => bound v
            | None => PyFloat now
            end
    /\ mid = match dict_get items "message_id" with
             | Some v => bound v
             | None => PyInt (-1)
             end
    /\ dev = match dict_get items "device_id" with
             | Some v => bound v
             | None => PyStr "unknown"
             end.
Proof.
  intros Ho Hf Hs receive_time now.
  destruct (on_message_scans items s Ho Hf Hs) as (s' & E & _ & Hscans).
  rewrite E. cbn [snd]. unfold scan_row, scan_params, bound_row in Hscans.
  rewrite (bound_number _ (clock_number (ticks s))) in Hscans.
  rewrite !bound_default in Hscans
    by (reflexivity || apply bound_number, clock_number).
  do 3 eexists.
  split; [reflexivity|]. split; [exact Hscans|]. now repeat split.
Qed.

(** C7: for samples that are numbers, the p95 that
    [report_statistics] logs is the element at index floor(0.95 N)
    of the samples sorted in ascending order. *)
Theorem p95_nearest_rank (s : state) (t0 throughput : float) :
  latencies s <> [] ->
  has_nan (latencies s) = false ->
  Z.of_nat (List.length (latencies s)) < 2 ^ 49 ->
  start_time s = Some t0 ->
  int_truediv_float (message_counts s) (fsub (clock (ticks s)) t0) = Ok throughput ->
  let samples := latencies s in
  let N := Z.of_nat (List.length samples) in
  exists avg mn mx p95,
    In (LogRecord INFO "Latency (ms)" [avg; mn; mx; PyFloat p95])
       (log (snd (report_statistics s)))
    /\ nth_error (sorted sort_unordered samples) (Z.to_nat (95 * N / 100)) = Some p95
    /\ Permutation (sorted sort_unordered samples) samples
    /\ StronglySorted leq (sorted sort_unordered samples).
Proof.
  intros Hne Hnan Hlen Hst Hthr samples N.
  destruct (SortedFacts.p95_of_nearest_rank sort_unordered samples Hne Hlen Hnan)
    as (p & Hp & Hnth).
  subst samples N. rewrite (SortedFacts.sorted_ordered sort_unordered _ Hnan).
  destruct (latencies s) as [|x l] eqn:Hl; [congruence|].
  destruct (report_statistics_logs s x l t0 throughput p Hl Hst Hthr Hp)
    as (mn & mx & _ & _ & Hin).
  do 3 eexists. exists p.
  split; [exact Hin|]. split; [exact Hnth|].
  split; [apply SortedFacts.sorted_perm|now apply SortedFacts.sorted_ascending].
Qed.

Lemma well_formed_parts (items : list (string * value)) :
  well_formed items = true ->
  scan_fields_ok items = true /\ send_time_ok items = true /\ readings_ok items = true.
Proof.
  unfold well_formed. intros H. apply andb_true_iff in H as [H Hr].
  apply andb_true_iff in H as [Hf Hs]. now repeat split.
Qed.

Lemma seq_mul_snoc (q : nat) :
  map (Nat.mul 100) (seq 1 (S q)) = map (Nat.mul 100) (seq 1 q) ++ [(100 * S q)%nat].
Proof. now rewrite seq_S, map_app. Qed.

(** One well-formed message keeps the transaction on the cadence. *)
Lemma on_message_cadence (items : list (string * value)) (s : state) (c : connection)
    (k : nat) :
  db_connection s = Some c -> closed c = false -> well_formed items = true ->
  Z.of_nat k = message_counts s -> cadence c k ->
  exists s' c',
    on_message (Ok (PyDict items)) s = (Ok tt, s')
    /\ db_connection s' = Some c' /\ closed c' = false
    /\ Z.of_nat (S k) = message_counts s'
    /\ start_time s' = start_time s
    /\ cadence c' (S k).
Proof.
  intros Hdb Hc Hwf Hk (Hrows & Hpend & Hlog & Hexact).
  destruct (well_formed_parts items Hwf) as (Hf & Hs & Hr).
  destruct (on_message_spec items s c Hdb Hc Hf Hs)
    as (done & c1 & c' & lrt' & tk' & lg' & E & _ & _ & Hc1 & Hc' & _).
  specialize (Hc1 Hr).
  set (row := scan_row items (clock (ticks s)) (clock (S (ticks s)))
                (latency_of items (clock (ticks s)))) in *.
  set (all := reading_rows (lastrowid (add_rows c [row])) items) in *.
  assert (Hall : scans (row :: all) = [row]).
  { cbn [scans filter is_sensor_data row scan_row]. fold (scans all).
    subst all. now rewrite scans_reading_rows. }
  assert (Hmod : (message_counts s + 1) mod 100 = 0 <-> (S k mod 100 = 0)%nat).
  { rewrite <- Hk. split; intros H.
    - apply Nat2Z.inj. rewrite Nat2Z.inj_mod. replace (Z.of_nat (S k)) with (Z.of_nat k + 1) by lia.
      exact H.
    - replace (Z.of_nat k + 1) with (Z.of_nat (S k)) by lia.
      change 100 with (Z.of_nat 100). rewrite <- Nat2Z.inj_mod, H. reflexivity. }
  eexists. exists c'. split; [exact E|]. split; [reflexivity|].
  cbn [message_counts start_time].
  destruct (Z.eqb_spec ((message_counts s + 1) mod 100) 0) as [H100|H100].
  - (* the 100th message of a batch: committed *)
    apply Hmod in H100 as Hk100.
    assert (Hcount : List.length (scans (durable c ++ pending (add_rows c (row :: all))))
                     = S k).
    { cbn [add_rows pending]. rewrite app_assoc. fold (rows c).
      rewrite scans_app, Hall, length_app, Hrows. cbn. lia. }
    assert (Hc1f : scans (rows c1) = scans (rows c) ++ [row]
                   /\ scans (pending c1) = [] /\ closed c1 = false
                   /\ commit_log c1 = commit_log c ++ [S k]).
    { subst c1. rewrite rows_committed, rows_add_rows, scans_app, Hall.
      cbn [committed pending closed commit_log add_rows durable]. 
      cbn [add_rows pending] in Hcount. rewrite Hcount. now repeat split. }
    destruct Hc1f as (Hs1 & Hp1 & Ho1 & Hl1).
    assert (Hc'f : scans (rows c') = scans (rows c) ++ [row]
                   /\ scans (pending c') = [] /\ closed c' = false
                   /\ (commit_log c' = commit_log c ++ [S k]
                       \/ ((message_counts s + 1) mod 500 = 0
                           /\ commit_log c' = commit_log c ++ [S k; S k]))).
    { destruct Hc' as [-> | (_ & H500 & _ & stats & Hst & ->)];
        [repeat split; try assumption; now left|].
      rewrite rows_committed, rows_add_rows, scans_app, Hs1.
      cbn [scans filter]. rewrite (stats_not_scan stats Hst), app_nil_r.
      repeat split. right. split; [exact H500|].
      cbn [committed commit_log add_rows durable pending].
      rewrite Hl1, <- app_assoc. cbn [app]. do 3 f_equal.
      rewrite app_assoc. fold (rows c1). rewrite scans_app, Hs1.
      cbn [scans filter]. rewrite (stats_not_scan stats Hst), app_nil_r.
      rewrite length_app, Hrows. cbn. lia. }
    destruct Hc'f as (Hs' & Hp' & Ho' & Hl').
    split; [exact Ho'|]. split; [lia|]. split; [reflexivity|].
    split; [rewrite Hs', length_app, Hrows; cbn; lia|].
    split; [rewrite Hp', Hk100; reflexivity|].
    split.
    + intros j. assert (Hin : In j (commit_log c') <-> In j (commit_log c) \/ j = S k).
      { destruct Hl' as [-> | [_ ->]]; rewrite in_app_iff; cbn [In]; intuition. }
      rewrite Hin, Hlog. split.
      * intros [[H1 H2] | ->]; split; try lia; assumption.
      * intros [H1 H2]. destruct (Nat.eq_dec j (S k)) as [->|Hne]; [now right|left].
        split; [lia|exact H2].
    + intros Hlt. destruct Hl' as [-> | [H500 _]].
      * rewrite Hexact by lia.
        assert (Hq : (S k / 100 = S (k / 100))%nat).
        { pose proof (Nat.div_mod_eq (S k) 100). pose proof (Nat.div_mod_eq k 100).
          pose proof (Nat.mod_upper_bound k 100). lia. }
        rewrite Hq, seq_mul_snoc. f_equal. f_equal.
        pose proof (Nat.div_mod_eq (S k) 100). lia.
      * exfalso. pose proof (Z.div_mod (message_counts s + 1) 500). 
        pose proof (Z.mod_pos_bound (message_counts s + 1) 500). lia.
  - (* otherwise: pending *)
    assert (Hk100 : (S k mod 100 <> 0)%nat) by (intros H; apply H100, Hmod, H).
    assert (Hsame : c' = c1).
    { destruct Hc' as [-> | (_ & H500 & _)]; [reflexivity|]. exfalso. apply H100.
      pose proof (Z.div_mod (message_counts s + 1) 500).
      pose proof (Z.div_mod (message_counts s + 1) 100).
      pose proof (Z.mod_pos_bound (message_counts s + 1) 100). lia. }
    subst c' c1. split; [exact Hc|]. split; [lia|]. split; [reflexivity|].
    assert (Hq : (S k / 100 = k / 100 /\ S k mod 100 = S (k mod 100))%nat).
    { pose proof (Nat.div_mod_eq (S k) 100). pose proof (Nat.div_mod_eq k 100).
      pose proof (Nat.mod_upper_bound k 100). pose proof (Nat.mod_upper_bound (S k) 100).
      lia. }
    destruct Hq as [Hq Hm].
    split; [rewrite rows_add_rows, scans_app, Hall, length_app, Hrows; cbn; lia|].
    split; [cbn [add_rows pending]; rewrite scans_app, Hall, length_app, Hpend, Hm;
            cbn; lia|].
    cbn [add_rows commit_log]. split.
    + intros j. rewrite Hlog. split; intros [H1 H2]; split; try lia; try assumption.
      destruct (Nat.eq_dec j (S k)) as [->|Hne]; [contradiction|lia].
    + intros Hlt. rewrite Hq. apply Hexact. lia.
Qed.

Lemma deliver_cadence (payloads : list (result value)) :
  forall (s : state) (c : connection) (k : nat),
    db_connection s = Some c -> closed c = false ->
    Z.of_nat k = message_counts s -> cadence c k ->
    forallb payload_ok payloads = true ->
    exists s' c',
      deliver clock statistics_mean sort_unordered payloads s = (Ok tt, s')
      /\ db_connection s' = Some c' /\ closed c' = false
      /\ Z.of_nat (k + List.length payloads) = message_counts s'
      /\ start_time s' = start_time s
      /\ cadence c' (k + List.length payloads).
Proof.
  induction payloads as [|p rest IH]; intros s c k Hdb Hc Hk Hcad Hall.
  - exists s, c. cbn [deliver List.length]. rewrite Nat.add_0_r.
    split; [reflexivity|]. split; [exact Hdb|]. split; [exact Hc|].
    split; [exact Hk|]. split; [reflexivity|exact Hcad].
  - cbn [forallb] in Hall. apply andb_true_iff in Hall as [Hp Hrest].
    destruct p as [[| | | | | |items]|]; try discriminate. cbn [payload_ok] in Hp.
    destruct (on_message_cadence items s c k Hdb Hc Hp Hk Hcad)
      as (s1 & c1 & E & Hdb1 & Hc1 & Hk1 & Hst1 & Hcad1).
    destruct (IH s1 c1 (S k) Hdb1 Hc1 Hk1 Hcad1 Hrest)
      as (s' & c' & E' & Hdb' & Hc' & Hk' & Hst' & Hcad').
    exists s', c'. cbn [deliver List.length]. unfold bind. rewrite E.
    replace (k + S (List.length rest))%nat with (S k + List.length rest)%nat by lia.
    split; [exact E'|]. split; [exact Hdb'|]. split; [exact Hc'|].
    split; [exact Hk'|]. split; [congruence|exact Hcad'].
Qed.

Lemma listening_cadence :
  exists c, db_connection (listening clock) = Some c /\ closed c = false
            /\ message_counts (listening clock) = 0 /\ cadence c 0.
Proof.
  exists connect. split; [reflexivity|]. split; [reflexivity|]. split; [reflexivity|].
  split; [reflexivity|]. split; [reflexivity|]. split.
  - intros j. cbn [connect commit_log In]. split; [intros []|intros [H _]; lia].
  - intros _. reflexivity.
Qed.

(** C5: the transaction is committed after every 100th handled message
    and at no other message, and the shutdown commits what is left. *)
Theorem commit_every_100 (payloads : list (result value)) :
  forallb payload_ok payloads = true ->
  let n := List.length payloads in
  exists s c s_end c_end extra,
    deliver clock statistics_mean sort_unordered payloads (listening clock) = (Ok tt, s)
    /\ db_connection s = Some c
    /\ List.length (scans (durable c)) = (100 * (n / 100))%nat
    /\ List.length (scans (pending c)) = (n mod 100)%nat
    /\ (forall j, In j (commit_log c) <-> (0 < j <= n /\ j mod 100 = 0)%nat)
    /\ snd (main_interrupted clock statistics_mean sort_unordered s) = s_end
    /\ db_connection s_end = Some c_end
    /\ closed c_end = true /\ pending c_end = []
    /\ List.length (scans (durable c_end)) = n
    /\ commit_log c_end = commit_log c ++ extra ++ [n]
    /\ (extra = [] \/ (extra = [n] /\ (n mod 500 = 0)%nat))
    /\ (n = 250%nat -> commit_log c = [100; 200]%nat
                       /\ commit_log c_end = [100; 200; 250]%nat).
Proof.
  intros Hall n.
  destruct listening_cadence as (c0 & Hdb0 & Hc0 & Hm0 & Hcad0).
  destruct (deliver_cadence payloads (listening clock) c0 0 Hdb0 Hc0
              ltac:(now rewrite Hm0) Hcad0 Hall)
    as (s & c & E & Hdb & Hc & Hk & _ & Hrows & Hpend & Hlog & Hexact).
  cbn [Nat.add] in *. fold n in Hk, Hrows, Hpend, Hlog, Hexact.
  destruct (main_interrupted_spec s c Hdb Hc) as (res & c' & tk' & lg' & Eend & Hc').
  assert (Hend : scans (rows c') = scans (rows c)
                 /\ exists extra, commit_log c' = commit_log c ++ extra
                      /\ (extra = [] \/ (extra = [n] /\ (n mod 500 = 0)%nat))).
  { destruct Hc' as [-> | (H500 & _ & row & Hrow & ->)].
    - split; [reflexivity|]. exists []. rewrite app_nil_r. split; [reflexivity|now left].
    - rewrite rows_committed, rows_add_rows, scans_app. cbn [scans filter].
      rewrite (stats_not_scan row Hrow), app_nil_r. split; [reflexivity|].
      exists [n]. cbn [committed commit_log add_rows durable pending].
      split.
      + do 2 f_equal. rewrite app_assoc. fold (rows c). rewrite scans_app.
        cbn [scans filter]. rewrite (stats_not_scan row Hrow), app_nil_r. exact Hrows.
      + right. split; [reflexivity|]. apply Nat2Z.inj. rewrite Nat2Z.inj_mod, Hk.
        exact H500. }
  destruct Hend as (Hscans & extra & Hlog' & Hextra).
  exists s, c. eexists. exists (close (committed c')), extra.
  split; [exact E|]. split; [exact Hdb|].
  split.
  { unfold rows in Hrows. rewrite scans_app, length_app, Hpend in Hrows.
    pose proof (Nat.div_mod_eq n 100). lia. }
  split; [exact Hpend|]. split; [exact Hlog|].
  split; [rewrite Eend; reflexivity|].
  split; [reflexivity|]. split; [reflexivity|]. split; [reflexivity|].
  cbn [close committed durable commit_log]. fold (rows c').
  split; [now rewrite Hscans|].
  split; [rewrite Hscans, Hrows, Hlog', <- app_assoc; reflexivity|].
  split; [exact Hextra|].
  intros H250. rewrite Hscans, Hrows, Hlog'. rewrite H250 in *.
  rewrite (Hexact ltac:(lia)). 
  destruct Hextra as [-> | [_ H]]; [now split|discriminate].
Qed.

Lemma scan_not_stats (r : row) : is_sensor_data r = true -> is_performance_stats r = false.
Proof. now destruct r. Qed.

(** While messages are handled, a snapshot row is persisted only by a
    report, which the wall clock triggers, and only when the message
    count is then a multiple of 500; a report at such a count persists
    and commits exactly one row. *)
Lemma snapshot_only_with_report (items : list (string * value)) (s : state)
    (c : connection) :
  db_connection s = Some c -> closed c = false -> well_formed items = true ->
  let n := message_counts s + 1 in
  let samples := latencies s ++ latency_list (latency_of items (clock (ticks s))) in
  let trigger :=
    flt f_reporting_interval (fsub (clock (S (S (ticks s)))) (last_report_time s)) in
  let s' := snd (on_message (Ok (PyDict items)) s) in
  (exists new,
      all_snapshots s' = all_snapshots s ++ new
      /\ (new = []
          \/ (trigger = true /\ n mod (100 * reporting_interval) = 0 /\ samples <> []
              /\ exists row, new = [row])))
  /\ (trigger = true -> n mod (100 * reporting_interval) = 0 -> samples <> [] ->
      forall t0 throughput,
        start_time s = Some t0 ->
        int_truediv_float n (fsub (clock (S (S (S (ticks s))))) t0) = Ok throughput ->
        Z.of_nat (List.length samples) < 2 ^ 49 -> has_nan samples = false ->
        - 2 ^ 63 <= n < 2 ^ 63 ->
        exists row c',
          is_performance_stats row = true
          /\ all_snapshots s' = all_snapshots s ++ [row]
          /\ db_connection s' = Some c' /\ pending c' = [] /\ In row (durable c')).
Proof.
  intros Hdb Hc Hwf n samples trigger s'.
  destruct (well_formed_parts items Hwf) as (Hf & Hs & Hr).
  destruct (on_message_spec items s c Hdb Hc Hf Hs)
    as (done & c1 & c' & lrt' & tk' & lg' & E & _ & _ & Hc1 & Hc' & Hsnap).
  specialize (Hc1 Hr). specialize (Hsnap Hr).
  fold n samples trigger in E, Hc1, Hc', Hsnap.
  set (row := scan_row items (clock (ticks s)) (clock (S (ticks s)))
                (latency_of items (clock (ticks s)))) in *.
  set (all := reading_rows (lastrowid (add_rows c [row])) items) in *.
  assert (Hs1 : snapshots (rows c1) = snapshots (rows c)).
  { assert (Hall : snapshots (row :: all) = []).
    { cbn [snapshots filter is_performance_stats row scan_row]. fold (snapshots all).
      subst all. apply snapshots_reading_rows. }
    subst c1. destruct (n mod 100 =? 0);
      rewrite ?rows_committed, rows_add_rows, snapshots_app, Hall, app_nil_r;
      reflexivity. }
  subst s'. rewrite E. cbn [snd]. unfold all_snapshots. cbn [db_connection]. rewrite Hdb.
  change (100 * reporting_interval) with 500. split.
  - destruct Hc' as [-> | (Ht & H500 & Hne & stats & Hst & ->)].
    + exists []. rewrite app_nil_r. split; [exact Hs1|now left].
    + exists [stats]. rewrite rows_committed, rows_add_rows, snapshots_app, Hs1.
      cbn [snapshots filter]. rewrite Hst. split; [reflexivity|]. right.
      repeat split; try assumption. now exists stats.
  - intros Ht H500 Hne t0 thr Hst Hthr Hlen Hnan Hrange.
    destruct (SortedFacts.p95_of_nearest_rank sort_unordered samples Hne Hlen Hnan)
      as (p & Hp & _).
    destruct samples as [|x l] eqn:Hsam; [congruence|].
    destruct (Hsnap Ht x l t0 thr p eq_refl Hst Hthr Hp H500 Hrange) as (mn & mx & Ec').
    exists (stats_row (clock (S (S (S (S (ticks s)))))) n (statistics_mean (x :: l))
              mn mx p thr), c'.
    rewrite Ec'. split; [apply is_performance_stats_bound|].
    split; [|split; [reflexivity|split; [reflexivity|]]].
    + rewrite rows_committed, rows_add_rows, snapshots_app, Hs1. reflexivity.
    + cbn [committed durable add_rows pending]. apply in_or_app. right.
      apply in_or_app. right. now left.
Qed.

(** C2: the code does not persist a snapshot at every milestone.  A
    message that brings the count to a multiple of 100 x interval
    while no report is due, that is, no more than [interval] seconds
    after the last report, is handled and counted, and no
    PerformanceSnapshot row is written: the wall clock gates the
    persistence that the claim ties to the message count alone. *)
Theorem milestone_without_report (items : list (string * value)) (s : state)
    (c : connection) :
  db_connection s = Some c -> closed c = false -> well_formed items = true ->
  (message_counts s + 1) mod (100 * reporting_interval) = 0 ->
  flt f_reporting_interval (fsub (clock (S (S (ticks s)))) (last_report_time s)) = false ->
  let s' := snd (on_message (Ok (PyDict items)) s) in
  fst (on_message (Ok (PyDict items)) s) = Ok tt
  /\ message_counts s' = message_counts s + 1
  /\ all_snapshots s' = all_snapshots s.
Proof.
  intros Hdb Hc Hwf Hmile Hquiet s'.
  destruct (well_formed_parts items Hwf) as (Hf & Hs & _).
  destruct (on_message_spec items s c Hdb Hc Hf Hs)
    as (done & c1 & c' & lrt' & tk' & lg' & E & _).
  destruct (snapshot_only_with_report items s c Hdb Hc Hwf) as [(new & Hnew & Hcase) _].
  fold s' in Hnew. subst s'. rewrite E in *. cbn [fst snd message_counts].
  split; [reflexivity|]. split; [reflexivity|].
  destruct Hcase as [->|(Ht & _)]; [now rewrite app_nil_r in Hnew|congruence].
Qed.
End WithEnvironment.
End ReceiverFacts.

(** ** Sample runs of the recorder *)

Module ReceiverRuns.
Import Spec Receiver ReceiverFacts.

Lemma listening_open : is_open (listening brisk_clock).
Proof. exists connect. split; reflexivity. Defined.

Lemma brisk_clock_number (n : nat) : is_nan (brisk_clock n) = false.
Proof. apply FloatFacts.binary_normalize_number. Qed.

Lemma slow_clock_number (n : nat) : is_nan (slow_clock n) = false.
Proof. apply FloatFacts.binary_normalize_number. Qed.

Lemma latency_recorded_witness :
  exists ts mid dev latency_ms,
    all_scans (snd (on_message brisk_clock naive_mean sort_ordered sample_payload
                      (listening brisk_clock)))
    = all_scans (listening brisk_clock)
      ++ [SensorData ts (PyFloat (brisk_clock 2)) mid dev latency_ms]
    /\ (dict_get sample_items "send_time" = None -> latency_ms = PyNone)
    /\ (forall v send_time,
           dict_get sample_items "send_time" = Some v -> as_float v = Ok send_time ->
           let latency := fmul (fsub (brisk_clock 2) send_time) f1000 in
           latency_ms = (if is_nan latency then PyNone else PyFloat latency)
           /\ (is_finite (brisk_clock 2) = true -> is_finite send_time = true ->
               latency_ms = PyFloat latency)).
Proof.
  exact (latency_recorded brisk_clock naive_mean sort_ordered brisk_clock_number
           sample_items (listening brisk_clock) listening_open eq_refl eq_refl).
Defined.

Lemma missing_fields_default_witness :
  exists ts mid dev,
    on_message brisk_clock naive_mean sort_ordered (Ok (PyDict [])) (listening brisk_clock)
    = (Ok tt, snd (on_message brisk_clock naive_mean sort_ordered (Ok (PyDict []))
                     (listening brisk_clock)))
    /\ all_scans (snd (on_message brisk_clock naive_mean sort_ordered (Ok (PyDict []))
                         (listening brisk_clock)))
       = all_scans (listening brisk_clock)
         ++ [SensorData ts (PyFloat (brisk_clock 2)) mid dev PyNone]
    /\ ts = PyFloat (brisk_clock 3) /\ mid = PyInt (-1) /\ dev = PyStr "unknown".
Proof.
  exact (missing_fields_default brisk_clock naive_mean sort_ordered brisk_clock_number []
           (listening brisk_clock) listening_open eq_refl eq_refl).
Defined.

Lemma p95_nearest_rank_witness :
  exists avg mn mx p95,
    In (LogRecord INFO "Latency (ms)" [avg; mn; mx; PyFloat p95])
       (log (snd (report_statistics brisk_clock naive_mean sort_ordered after_three)))
    /\ nth_error (sorted sort_ordered (latencies after_three))
         (Z.to_nat (95 * Z.of_nat (List.length (latencies after_three)) / 100)) = Some p95
    /\ Permutation (sorted sort_ordered (latencies after_three)) (latencies after_three)
    /\ StronglySorted leq (sorted sort_ordered (latencies after_three)).
Proof.
  eapply (p95_nearest_rank brisk_clock naive_mean sort_ordered after_three).
  - vm_compute. discriminate.
  - vm_compute. reflexivity.
  - vm_compute. reflexivity.
  - vm_compute. reflexivity.
  - vm_compute. reflexivity.
Defined.

Lemma commit_every_100_witness :
  exists s c s_end c_end extra,
    deliver brisk_clock naive_mean sort_ordered (repeat sample_payload 250)
      (listening brisk_clock)
    = (Ok tt, s)
    /\ db_connection s = Some c
    /\ List.length (scans (durable c)) = 200%nat
    /\ List.length (scans (pending c)) = 50%nat
    /\ (forall j, In j (commit_log c) <-> (0 < j <= 250 /\ j mod 100 = 0)%nat)
    /\ snd (main_interrupted brisk_clock naive_mean sort_ordered s) = s_end
    /\ db_connection s_end = Some c_end
    /\ closed c_end = true /\ pending c_end = []
    /\ List.length (scans (durable c_end)) = 250%nat
    /\ commit_log c_end = commit_log c ++ extra ++ [250%nat]
    /\ (extra = [] \/ (extra = [250%nat] /\ (250 mod 500 = 0)%nat))
    /\ (250%nat = 250%nat -> commit_log c = [100; 200]%nat
                             /\ commit_log c_end = [100; 200; 250]%nat).
Proof.
  exact (commit_every_100 brisk_clock naive_mean sort_ordered brisk_clock_number
           (repeat sample_payload 250) eq_refl).
Defined.

(** A report at a milestone: the 500th message, twelve seconds after
    the last report, persists and commits a snapshot row. *)
Lemma snapshot_with_report_at_500 :
  exists row c',
    is_performance_stats row = true
    /\ all_snapshots (snd (on_message slow_clock naive_mean sort_ordered
                             (Ok (PyDict sample_items)) at_499))
       = all_snapshots at_499 ++ [row]
    /\ db_connection (snd (on_message slow_clock naive_mean sort_ordered
                             (Ok (PyDict sample_items)) at_499))
       = Some c'
    /\ pending c' = [] /\ In row (durable c').
Proof.
  destruct (snapshot_only_with_report slow_clock naive_mean sort_ordered slow_clock_number
              sample_items at_499 connect eq_refl eq_refl eq_refl) as [_ H].
  eapply H.
  - vm_compute. reflexivity.
  - reflexivity.
  - vm_compute. discriminate.
  - reflexivity.
  - vm_compute. reflexivity.
  - vm_compute. reflexivity.
  - vm_compute. reflexivity.
  - split; vm_compute; [discriminate|reflexivity].
Qed.

Lemma milestone_without_report_witness :
  fst (on_message brisk_clock naive_mean sort_ordered (Ok (PyDict sample_items)) at_499)
  = Ok tt
  /\ message_counts (snd (on_message brisk_clock naive_mean sort_ordered
                            (Ok (PyDict sample_items)) at_499)) = 499 + 1
  /\ all_snapshots (snd (on_message brisk_clock naive_mean sort_ordered
                           (Ok (PyDict sample_items)) at_499))
     = all_snapshots at_499.
Proof.
  exact (milestone_without_report brisk_clock naive_mean sort_ordered brisk_clock_number
           sample_items at_499 connect eq_refl eq_refl eq_refl eq_refl eq_refl).
Defined.

(** A run with the defect: 500 messages handled within a second and a
    half reach the milestone without a report, and no snapshot row is
    persisted. *)
Lemma snapshot_missed_at_500 :
  message_counts (snd (deliver brisk_clock naive_mean sort_ordered
                         (repeat sample_payload 500) (listening brisk_clock))) = 500
  /\ latencies (snd (deliver brisk_clock naive_mean sort_ordered
                       (repeat sample_payload 500) (listening brisk_clock))) <> []
  /\ all_snapshots (snd (deliver brisk_clock naive_mean sort_ordered
                           (repeat sample_payload 500) (listening brisk_clock))) = [].
Proof.
  split; [vm_compute; reflexivity|]. split; [vm_compute; discriminate|].
  vm_compute. reflexivity.
Qed.

End ReceiverRuns.


(** ** The point-cloud stages *)

Module VisualizerFacts.
Import Visualizer AdvancedVisualizer VisualizerSpec.
Local Open Scope R_scope.

Section WithNumpy.
Context {num : Type} `{Float64 num}.

Lemma convert_reading_points (m : num) (rs : list (string * num)) :
  forall acc,
    fst (fst (fold_left (convert_reading m) rs acc))
    = fst (fst acc) ++ map cartesian (parsed rs)
    /\ List.length (snd (fst (fold_left (convert_reading m) rs acc)))
       = (List.length (snd (fst acc)) + List.length (parsed rs))%nat.
Proof.
  induction rs as [|[angle_key distance] rs IH]; intros [[points colors] logs].
  - cbn. rewrite app_nil_r. split; [reflexivity|lia].
  - cbn [fold_left parsed flat_map]. fold (parsed rs).
    remember (convert_reading m (points, colors, logs) (angle_key, distance)) as acc'
      eqn:Hacc.
    unfold convert_reading in Hacc.
    destruct (parse_angle angle_key) as [angle_deg|e].
    + destruct (colormap (if gt m zero then div distance m else zero)) as [[[r g] b] a].
      destruct (IH acc') as [IHp IHc]. rewrite IHp, IHc, Hacc.
      cbn [fst snd app map cartesian List.length].
      rewrite <- app_assoc, length_app. cbn. split; [reflexivity|lia].
    + destruct (IH acc') as [IHp IHc]. rewrite IHp, IHc, Hacc. split; reflexivity.
Qed.

(** The points of a scan with at least one reading. *)
Lemma convert_readings_to_points_spec (ts : option num) (dev : option string)
    (rs : list (string * num)) :
  rs <> [] ->
  exists colors logs,
    convert_readings_to_points (Some (ScanDict ts dev (Some rs)))
    = (Ok (Some (map cartesian (parsed rs)), Some colors), logs)
    /\ List.length colors = List.length (parsed rs).
Proof.
  intros Hrs. unfold convert_readings_to_points.
  assert (Hne : is_empty (ScanDict ts dev (Some rs)) = false)
    by (unfold is_empty; cbn; now destruct ts, dev).
  rewrite Hne. cbn [readings].
  destruct rs as [|[k d] rs]; [congruence|]. cbn [map snd max_values].
  destruct (convert_reading_points
              (fold_left (fun cur item => if gt item cur then item else cur)
                 (map snd rs) d) ((k, d) :: rs) ([], [], [])) as [Hp Hc].
  destruct (fold_left _ ((k, d) :: rs) ([], [], [])) as [[points colors] logs].
  cbn [fst snd app List.length] in Hp, Hc. subst points.
  exists colors, logs. split; [reflexivity|exact Hc].
Qed.

(** C3, at the failing input: a scan whose readings are empty makes
    [max] raise. *)
Theorem empty_readings_raise (ts : option num) (dev : option string) :
  convert_readings_to_points (Some (ScanDict ts dev (Some [])))
  = (Raise ValueError, []).
Proof.
  unfold convert_readings_to_points.
  assert (Hne : is_empty (ScanDict ts dev (Some [])) = false)
    by (unfold is_empty; cbn; now destruct ts, dev).
  now rewrite Hne.
Qed.

End WithNumpy.

(** C8: each reading whose label gives an angle becomes the point
    [(d cos a, d sin a, 0)] for the angle in radians, in the order of
    the readings.  In float64, with a C library whose [cos] and [sin]
    are within 2^-28 of the two functions at the angles concerned,
    angle 0 at distance 100 is within 1e-6 of (100, 0, 0) and angle 90
    at distance 50 is within 1e-6 of (0, 50, 0). *)
Theorem polar_to_cartesian :
  (forall (libm_cos libm_sin : float -> float) (parse : string -> option float)
          (cmap : float -> float * float * float * float)
          (ts : option float) (dev : option string) (rs : list (string * float)),
      rs <> [] ->
      exists points colors logs,
        @convert_readings_to_points float (binary64 libm_cos libm_sin parse cmap)
          (Some (ScanDict ts dev (Some rs)))
        = (Ok (Some points, Some colors), logs)
        /\ List.length colors = List.length points
        /\ (forall label distance angle_deg,
               In (label, distance) rs ->
               @parse_angle float (binary64 libm_cos libm_sin parse cmap) label
               = Ok angle_deg ->
               In (fmul distance (libm_cos (fmul angle_deg deg2rad)),
                   fmul distance (libm_sin (fmul angle_deg deg2rad)),
                   S754_zero false) points))
  /\ (forall (libm_cos libm_sin : float -> float) (parse : string -> option float)
             (cmap : float -> float * float * float * float)
             (ts : option float) (dev : option string),
         parse "0"%string = Some f0 -> parse "90"%string = Some f90 ->
         accurate libm_cos cos (fmul f0 deg2rad) ->
         accurate libm_sin sin (fmul f0 deg2rad) ->
         accurate libm_cos cos (fmul f90 deg2rad) ->
         accurate libm_sin sin (fmul f90 deg2rad) ->
         exists x0 y0 x90 y90 colors logs,
           @convert_readings_to_points float (binary64 libm_cos libm_sin parse cmap)
             (Some (ScanDict ts dev (Some [("angle_0"%string, Spec.f100);
                                           ("angle_90"%string, Spec.f50)])))
           = (Ok (Some [(x0, y0, S754_zero false); (x90, y90, S754_zero false)],
                  Some colors), logs)
           /\ near x0 100 /\ near y0 0 /\ near x90 0 /\ near y90 50).
Proof.
  split.
  - intros libm_cos libm_sin parse cmap ts dev rs Hrs.
    destruct (@convert_readings_to_points_spec float (binary64 libm_cos libm_sin parse cmap)
                ts dev rs Hrs) as (colors & logs & E & Hc).
    do 3 eexists. split; [exact E|]. split; [now rewrite length_map|].
    intros label distance angle_deg Hin Hparse.
    apply (in_map (@cartesian float (binary64 libm_cos libm_sin parse cmap))
             _ (angle_deg, distance)).
    unfold parsed. apply in_flat_map. exists (label, distance). split; [exact Hin|].
    rewrite Hparse. now left.
  - intros libm_cos libm_sin parse cmap ts dev H0 H90 [Fc0 Ac0] [Fs0 As0] [Fc90 Ac90]
      [Fs90 As90].
    destruct (@convert_readings_to_points_spec float (binary64 libm_cos libm_sin parse cmap)
                ts dev [("angle_0"%string, Spec.f100); ("angle_90"%string, Spec.f50)]
                ltac:(discriminate))
      as (colors & logs & E & _).
    do 4 eexists. exists colors, logs. split.
    + rewrite E. do 3 f_equal.
      unfold parsed, parse_angle, split. cbn [split_from Ascii.eqb Bool.eqb flat_map
        nth_error String.append app map].
      change (@float_of_string float (binary64 libm_cos libm_sin parse cmap)) with parse.
      rewrite H0, H90. cbn [app map cartesian]. reflexivity.
    + cbn [np_radians np_cos np_sin mul binary64].
      assert (Heps : / 2 ^ 28 <= 37253 / 10000000000000) by lra.
      rewrite FloatReals.radians_0 in *. cbn [SF2R f0] in Ac0, As0.
      rewrite cos_0 in Ac0. rewrite sin_0 in As0.
      pose proof FloatReals.cos_quarter_turn as Hcq.
      pose proof FloatReals.sin_quarter_turn as Hsq.
      apply FloatReals.Rabs_le_inv in Ac0, As0, Ac90, As90, Hcq.
      split; [|split; [|split]].
      * replace 100 with (100 * 1) by ring.
        apply (FloatReals.scaled_near Spec.f100 _ 100 1);
          [reflexivity|apply FloatReals.SF2R_f100|lra|exact Fc0| |rewrite Rabs_R1; lra].
        apply Rabs_le; lra.
      * replace 0 with (100 * 0) by ring.
        apply (FloatReals.scaled_near Spec.f100 _ 100 0);
          [reflexivity|apply FloatReals.SF2R_f100|lra|exact Fs0| |rewrite Rabs_R0; lra].
        apply Rabs_le; lra.
      * replace 0 with (50 * 0) by ring.
        apply (FloatReals.scaled_near Spec.f50 _ 50 0);
          [reflexivity|apply FloatReals.SF2R_f50|lra|exact Fc90| |rewrite Rabs_R0; lra].
        apply Rabs_le; lra.
      * replace 50 with (50 * 1) by ring.
        apply (FloatReals.scaled_near Spec.f50 _ 50 1);
          [reflexivity|apply FloatReals.SF2R_f50|lra|exact Fs90| |rewrite Rabs_R1; lra].
        apply Rabs_le; lra.
Qed.

(** The sample C library is accurate at the two angles. *)
Lemma table_accurate :
  accurate table_cos cos (fmul f0 deg2rad) /\ accurate table_sin sin (fmul f0 deg2rad)
  /\ accurate table_cos cos (fmul f90 deg2rad)
  /\ accurate table_sin sin (fmul f90 deg2rad).
Proof.
  assert (Heps : 37252 / 10000000000000 <= / 2 ^ 28) by lra.
  pose proof FloatReals.cos_quarter_turn as Hcq.
  pose proof FloatReals.sin_quarter_turn as Hsq.
  apply FloatReals.Rabs_le_inv in Hcq.
  assert (Hc0 : table_cos (fmul f0 deg2rad) = f1) by (vm_compute; reflexivity).
  assert (Hs0 : table_sin (fmul f0 deg2rad) = f0) by (vm_compute; reflexivity).
  assert (Hc90 : table_cos (fmul f90 deg2rad) = S754_finite false 4967757600021511 (-106))
    by (vm_compute; reflexivity).
  assert (Hs90 : table_sin (fmul f90 deg2rad) = f1) by (vm_compute; reflexivity).
  assert (H1 : SF2R f1 = 1) by (apply (FloatReals.SF2R_integer 1 _ 52); [lia|reflexivity]).
  assert (Hsmall : 0 <= SF2R (S754_finite false 4967757600021511 (-106))
                   <= / 1000000000000000).
  { rewrite FloatReals.SF2R_finite, Rmult_1_l.
    pose proof (FloatReals.pow2_pos (-106)) as Hp.
    pose proof FloatReals.pow2_53 as H53.
    assert (H : IZR (2 ^ 53) * powerRZ 2 (-106) = powerRZ 2 (-53)).
    { rewrite (FloatReals.IZR_pow2 53) by lia. rewrite <- FloatReals.pow2_add.
      reflexivity. }
    change (2 ^ 53)%Z with 9007199254740992%Z in H. nra. }
  set (c90 := S754_finite false 4967757600021511 (-106)) in *.
  assert (H0 : SF2R f0 = 0) by reflexivity.
  unfold accurate. rewrite Hc0, Hs0, Hc90, Hs90, FloatReals.radians_0, H1, H0.
  rewrite cos_0, sin_0.
  repeat split; try reflexivity; apply Rabs_le; lra.
Qed.

Lemma polar_to_cartesian_witness :
  exists x0 y0 x90 y90 colors logs,
    @convert_readings_to_points float numpy
      (Some (ScanDict None None (Some [("angle_0"%string, Spec.f100);
                                       ("angle_90"%string, Spec.f50)])))
    = (Ok (Some [(x0, y0, S754_zero false); (x90, y90, S754_zero false)], Some colors),
       logs)
    /\ near x0 100 /\ near y0 0 /\ near x90 0 /\ near y90 50.
Proof.
  destruct table_accurate as (Hc0 & Hs0 & Hc90 & Hs90).
  exact (proj2 polar_to_cartesian table_cos table_sin integer_literal gray None None
           eq_refl eq_refl Hc0 Hs0 Hc90 Hs90).
Defined.

Section WithOpen3d.
Context {num : Type} `{Float64 num}.
Variable remove_statistical_outlier :
  list (point num) -> Z -> num -> result (list (point num) * list nat).
Variable segment_plane :
  list (point num) -> num -> Z -> Z -> result (@plane_model num * list nat).
Variable select_by_index : list (point num) -> list nat -> bool -> list (point num).

(** C9: with fewer than [nb_neighbors + 1] points the filter returns
    its input and all the indices, and logs a warning. *)
Theorem filter_outliers_identity (self : @visualizer num) (points : list (point num))
    (nb_neighbors : Z) (std_ratio : num) :
  (len points < nb_neighbors + 1)%Z ->
  filter_outliers remove_statistical_outlier self points nb_neighbors std_ratio
  = ((points, seq 0 (List.length points)),
     {| ground_plane := ground_plane self;
        logs := logs self
                ++ [LogRecord WARNING "Not enough points for outlier removal"
                      [PyInt (nb_neighbors + 1); PyInt (len points)]] |}).
Proof.
  intros Hlen. unfold filter_outliers.
  destruct (Z.ltb_spec (len points) (nb_neighbors + 1)); [reflexivity|lia].
Qed.

(** C4 as the code has it: with fewer than [ransac_n] points the whole
    input is returned in the place of the ground (inlier) points, with
    no non-ground points and no inlier index. *)
Theorem segment_ground_plane_too_few (self : @visualizer num) (points : list (point num))
    (distance_threshold : num) (ransac_n num_iterations : Z) :
  (len points < ransac_n)%Z ->
  exists self',
    segment_ground_plane segment_plane select_by_index self points distance_threshold
      ransac_n num_iterations
    = ((points, [], []), self')
    /\ ground_plane self' = ground_plane self
    /\ logs self' = logs self
                    ++ [LogRecord WARNING "Not enough points for ground plane segmentation"
                          [PyInt ransac_n; PyInt (len points)]].
Proof.
  intros Hlen. unfold segment_ground_plane.
  destruct (Z.ltb_spec (len points) ransac_n); [|lia].
  eexists. split; [reflexivity|]. split; reflexivity.
Qed.

(** C1 as the code has it: with fewer than 3 points no dimensions are
    returned, only [None], and a warning is logged. *)
Theorem calculate_object_dimensions_too_few (self : @visualizer num)
    (points : list (point num)) :
  (len points < 3)%Z ->
  calculate_object_dimensions self points
  = (None,
     {| ground_plane := ground_plane self;
        logs := logs self
                ++ [LogRecord WARNING "Not enough points to calculate dimensions"
                      [PyInt (len points)]] |}).
Proof.
  intros Hlen. unfold calculate_object_dimensions.
  destruct (Z.ltb_spec (len points) 3); [reflexivity|lia].
Qed.

End WithOpen3d.

Lemma filter_outliers_identity_witness :
  filter_outliers no_outlier_removal fresh two_points 20 f2
  = ((two_points, [0; 1]%nat),
     {| ground_plane := None;
        logs := [LogRecord WARNING "Not enough points for outlier removal"
                   [PyInt 21; PyInt 2]] |}).
Proof.
  exact (filter_outliers_identity no_outlier_removal fresh two_points 20 f2 eq_refl).
Defined.

Lemma segment_ground_plane_too_few_witness :
  exists self',
    segment_ground_plane no_segment_plane select_none fresh two_points f10 3 100
    = ((two_points, [], []), self')
    /\ ground_plane self' = None
    /\ logs self' = [LogRecord WARNING "Not enough points for ground plane segmentation"
                       [PyInt 3; PyInt 2]].
Proof.
  exact (segment_ground_plane_too_few no_segment_plane select_none fresh two_points f10 3 100
           eq_refl).
Defined.

Lemma calculate_object_dimensions_too_few_witness :
  @calculate_object_dimensions float numpy fresh two_points
  = (None,
     {| ground_plane := None;
        logs := [LogRecord WARNING "Not enough points to calculate dimensions"
                   [PyInt 2]] |}).
Proof.
  exact (@calculate_object_dimensions_too_few float numpy fresh two_points eq_refl).
Defined.

(** C4, as stated, fails: two points with [ransac_n = 3] come back as
    the ground points, and the non-ground points are empty. *)
Lemma segment_ground_plane_returns_input_as_ground :
  fst (fst (fst (segment_ground_plane no_segment_plane select_none fresh two_points f10 3 100)))
  = two_points
  /\ snd (fst (fst (segment_ground_plane no_segment_plane select_none fresh two_points
                      f10 3 100))) <> two_points.
Proof. split; [reflexivity|discriminate]. Qed.

(** C1, as stated, fails: for two points the caller receives [None],
    an empty result, and nothing records a failure but a warning in the
    log. *)
Lemma calculate_object_dimensions_returns_none :
  fst (@calculate_object_dimensions float numpy fresh two_points)
  = None.
Proof. reflexivity. Qed.

End VisualizerFacts.


(** ** The recorder under arbitrary payloads *)

Module ReceiverRobust.
Import Spec Receiver SqliteFacts ReceiverFacts Invariants.
Local Open Scope py_scope.

Lemma prefix_of_refl {A : Type} (l : list A) : prefix_of l l.
Proof. exists []. now rewrite app_nil_r. Qed.

Lemma prefix_of_trans {A : Type} (a b c : list A) :
  prefix_of a b -> prefix_of b c -> prefix_of a c.
Proof. intros [r ->] [r' ->]. exists (r ++ r'). now rewrite app_assoc. Qed.

Lemma prefix_of_app {A : Type} (l r : list A) : prefix_of l (l ++ r).
Proof. now exists r. Qed.

Lemma conn_extends_refl (c : connection) : conn_extends c c.
Proof. repeat split; apply prefix_of_refl. Qed.

Lemma conn_extends_trans (a b c : connection) :
  conn_extends a b -> conn_extends b c -> conn_extends a c.
Proof.
  intros (H1 & H2 & H3 & H4) (K1 & K2 & K3 & K4). repeat split.
  - exact (prefix_of_trans _ _ _ H1 K1).
  - exact (prefix_of_trans _ _ _ H2 K2).
  - exact (prefix_of_trans _ _ _ H3 K3).
  - congruence.
Qed.

Lemma db_extends_refl (d : option connection) : db_extends d d.
Proof. destruct d; [apply conn_extends_refl|exact I]. Qed.

Lemma db_extends_trans (a b c : option connection) :
  db_extends a b -> db_extends b c -> db_extends a c.
Proof.
  destruct a, b, c; cbn; try tauto. apply conn_extends_trans.
Qed.

Lemma extends_refl (s : state) : extends s s.
Proof.
  repeat split; try apply prefix_of_refl; try lia. apply db_extends_refl.
Qed.

Lemma extends_trans (a b c : state) : extends a b -> extends b c -> extends a c.
Proof.
  intros (H1 & H2 & H3 & H4 & H5 & H6) (K1 & K2 & K3 & K4 & K5 & K6). repeat split.
  - exact (prefix_of_trans _ _ _ H1 K1).
  - lia.
  - congruence.
  - exact (db_extends_trans _ _ _ H4 K4).
  - lia.
  - exact (prefix_of_trans _ _ _ H6 K6).
Qed.

Lemma advance_refl (s : state) : advance 0 0 s s.
Proof. split; [apply extends_refl|lia]. Qed.

Lemma advance_trans (j u j' u' : Z) (a b c : state) :
  advance j u a b -> advance j' u' b c -> advance (j + j') (u + u') a c.
Proof.
  intros (H1 & H2 & H3) (K1 & K2 & K3). split; [exact (extends_trans _ _ _ H1 K1)|lia].
Qed.

Lemma advance_weaken (j u j' u' : Z) (a b : state) :
  j <= j' -> u <= u' -> advance j u a b -> advance j' u' a b.
Proof. intros Hj Hu (H1 & H2 & H3). split; [exact H1|lia]. Qed.

Ltac extends_fields :=
  unfold extends; cbn;
  split; [try apply prefix_of_refl; try apply prefix_of_app
  |split; [try lia
  |split; [try reflexivity
  |split; [try apply db_extends_refl
  |split; [try lia|try apply prefix_of_refl; try apply prefix_of_app]]]]].

(** *** The statements of the monad *)

Lemma runs_weaken {A : Type} (j u j' u' : Z) (m : M A) :
  j <= j' -> u <= u' -> runs j u m -> runs j' u' m.
Proof.
  intros Hj Hu Hm s. destruct (Hm s) as [Ho Ha]. split; [exact Ho|].
  exact (advance_weaken _ _ _ _ _ _ Hj Hu Ha).
Qed.

Lemma runs_ret {A : Type} (a : A) : runs 0 0 (ret a).
Proof. intros s. split; [exact I|apply advance_refl]. Qed.

Lemma runs_lift {A : Type} (r : result A) : ordinary r -> runs 0 0 (lift r).
Proof. intros Hr s. split; [exact Hr|apply advance_refl]. Qed.

Lemma runs_raise {A : Type} (e : exn) : is_Exception e = true -> runs 0 0 (@raise A e).
Proof. intros He s. split; [exact He|apply advance_refl]. Qed.

Lemma runs_gets {A : Type} (f : state -> A) : runs 0 0 (gets f).
Proof. intros s. split; [exact I|apply advance_refl]. Qed.

Lemma runs_modify (j u : Z) (f : state -> state) :
  (forall s, advance j u s (f s)) -> runs j u (modify f).
Proof. intros Hf s. split; [exact I|apply Hf]. Qed.

Lemma runs_logger (lvl : level) (m : string) (a : list value) : runs 0 0 (logger lvl m a).
Proof.
  apply runs_modify. intros s. split; [|cbn; unfold scan_count, all_scans; cbn; lia].
  extends_fields.
Qed.

Lemma runs_bind {A B : Type} (j u j' u' : Z) (m : M A) (k : A -> M B) :
  runs j u m -> (forall a, runs j' u' (k a)) -> 0 <= j' -> 0 <= u' ->
  runs (j + j') (u + u') (bind m k).
Proof.
  intros Hm Hk Hj Hu s. unfold bind. destruct (Hm s) as [Ho Ha].
  destruct (m s) as [[a|e] s1]; cbn [fst snd] in *.
  - destruct (Hk a s1) as [Ho' Ha']. split; [exact Ho'|].
    exact (advance_trans _ _ _ _ _ _ _ Ha Ha').
  - split; [exact Ho|]. apply (advance_weaken j u); [lia|lia|exact Ha].
Qed.

(** A first statement that cannot raise. *)
Lemma runs_bind_ok {A B : Type} (j u j' u' : Z) (m : M A) (k : A -> M B) :
  (forall s, exists a, fst (m s) = Ok a) ->
  runs j u m -> (forall a, runs j' u' (k a)) ->
  runs (j + j') (u + u') (bind m k).
Proof.
  intros Hok Hm Hk s. unfold bind. destruct (Hm s) as [Ho Ha]. destruct (Hok s) as [a0 E].
  destruct (m s) as [[a|e] s1]; cbn [fst snd] in *; [|discriminate].
  destruct (Hk a s1) as [Ho' Ha']. split; [exact Ho'|].
  exact (advance_trans _ _ _ _ _ _ _ Ha Ha').
Qed.

Lemma runs_seq {A B : Type} (m : M A) (k : A -> M B) :
  runs 0 0 m -> (forall a, runs 0 0 (k a)) -> runs 0 0 (bind m k).
Proof. intros Hm Hk. apply (runs_bind 0 0 0 0); [exact Hm|exact Hk|lia|lia]. Qed.

Lemma runs_try_except {A : Type} (j u j' u' : Z) (m : M A) (handler : exn -> option (M A)) :
  runs j u m -> (forall e h, handler e = Some h -> runs j' u' h) -> 0 <= j' -> 0 <= u' ->
  runs (j + j') (u + u') (try_except m handler).
Proof.
  intros Hm Hh Hj Hu s. unfold try_except. destruct (Hm s) as [Ho Ha].
  destruct (m s) as [[a|e] s1]; cbn [fst snd] in *.
  - split; [exact I|]. apply (advance_weaken j u); [lia|lia|exact Ha].
  - destruct (handler e) as [h|] eqn:E.
    + destruct (Hh e h E s1) as [Ho' Ha']. split; [exact Ho'|].
      exact (advance_trans _ _ _ _ _ _ _ Ha Ha').
    + split; [exact Ho|]. apply (advance_weaken j u); [lia|lia|exact Ha].
Qed.

Lemma runs_db {A : Type} (j : Z) (f : connection -> result A * connection) :
  conn_runs j f -> 0 <= j -> runs j 0 (db f).
Proof.
  intros Hf Hj [lats n st lrt [c|] tk lg]; unfold db; cbn [db_connection].
  - destruct (Hf c) as (Ho & He & Hs). destruct (f c) as [r c']. cbn [fst snd] in *.
    split; [exact Ho|]. split.
    + extends_fields. exact He.
    + unfold scan_count, all_scans. cbn. lia.
  - split; [reflexivity|]. apply (advance_weaken 0 0); [lia|lia|apply advance_refl].
Qed.

(** *** The methods of the connection *)

Lemma conn_runs_execute_insert (r : row) :
  conn_runs (if is_sensor_data r then 1 else 0) (fun c => execute_insert c r).
Proof.
  intros c. pose proof (execute_insert_ordinary c r) as Ho. split; [exact Ho|].
  unfold execute_insert. destruct (closed c) eqn:Hc.
  { cbn. split; [apply conn_extends_refl|destruct (is_sensor_data r); lia]. }
  destruct (bind_params (params r)).
  2:{ cbn. split; [apply conn_extends_refl|destruct (is_sensor_data r); lia]. }
  destruct (constraints_ok (bound_row r)).
  2:{ cbn. split; [apply conn_extends_refl|destruct (is_sensor_data r); lia]. }
  cbn [snd]. split.
  - repeat split; cbn; try apply prefix_of_refl; try congruence.
    unfold rows. cbn. rewrite app_assoc. apply prefix_of_app.
  - unfold rows. cbn. rewrite app_assoc, scans_app, length_app. cbn.
    rewrite is_sensor_data_bound. destruct (is_sensor_data r); cbn; lia.
Qed.

Lemma conn_runs_insert_each (rs : list row) :
  forallb (fun r => negb (is_sensor_data r)) rs = true ->
  conn_runs 0 (fun c => insert_each c rs).
Proof.
  induction rs as [|r rs IH]; intros Hrs c.
  - cbn. split; [exact I|]. split; [apply conn_extends_refl|lia].
  - cbn in Hrs. apply andb_true_iff in Hrs as [Hr Hrs]. cbn [insert_each].
    destruct (conn_runs_execute_insert r c) as (Ho & He & Hs).
    destruct (is_sensor_data r); [discriminate|].
    destruct (execute_insert c r) as [[[]|e] c1]; cbn [fst snd] in *.
    + destruct (IH Hrs c1) as (Ho' & He' & Hs'). split; [exact Ho'|].
      split; [exact (conn_extends_trans _ _ _ He He')|lia].
    + split; [exact Ho|]. split; [exact He|lia].
Qed.

Lemma conn_runs_executemany_insert (rs : list row) :
  forallb (fun r => negb (is_sensor_data r)) rs = true ->
  conn_runs 0 (fun c => executemany_insert c rs).
Proof.
  intros Hrs c. unfold executemany_insert. destruct (closed c).
  - cbn. split; [reflexivity|]. split; [apply conn_extends_refl|lia].
  - apply (conn_runs_insert_each rs Hrs).
Qed.

Lemma conn_runs_commit : conn_runs 0 commit.
Proof.
  intros c. unfold commit. destruct (closed c) eqn:Hc; cbn [fst snd].
  - split; [reflexivity|]. split; [apply conn_extends_refl|lia].
  - split; [exact I|]. split.
    + repeat split; cbn; try apply prefix_of_app; congruence.
    + unfold rows. cbn [durable pending]. rewrite app_nil_r. lia.
Qed.

Lemma conn_runs_query {A : Type} (f : connection -> A) :
  conn_runs 0 (fun c => (Ok (f c), c)).
Proof. intros c. split; [exact I|]. split; [apply conn_extends_refl|cbn; lia]. Qed.

Lemma conn_runs_create : conn_runs 0 execute_create_if_not_exists.
Proof.
  intros c. unfold execute_create_if_not_exists.
  destruct (closed c); cbn; (split; [easy|]); (split; [apply conn_extends_refl|lia]).
Qed.

Section WithEnvironment.
Variable clock : nat -> float.
Variable statistics_mean : list float -> float.
Variable sort_unordered : list float -> list float.

Local Abbreviation store_message := (store_message clock).
Local Abbreviation report_statistics :=
  (report_statistics clock statistics_mean sort_unordered).
Local Abbreviation on_message := (on_message clock statistics_mean sort_unordered).
Local Abbreviation deliver := (deliver clock statistics_mean sort_unordered).
Local Abbreviation p95_of := (p95_of sort_unordered).

Lemma runs_time_time : runs 0 0 (time_time clock).
Proof.
  intros s. split; [exact I|]. split; [|cbn; unfold scan_count, all_scans; cbn; lia].
  extends_fields.
Qed.

Lemma runs_save_statistics_snapshot (avg mn mx p95 thr : float) :
  runs 0 0 (save_statistics_snapshot clock avg mn mx p95 thr).
Proof.
  unfold save_statistics_snapshot.
  apply (runs_try_except 0 0 0 0); [| |lia|lia].
  - apply runs_seq; [apply (runs_db 0); [apply conn_runs_create|lia]|intros _].
    apply runs_seq; [apply runs_time_time|intros now].
    apply runs_seq; [apply runs_gets|intros n].
    apply runs_seq;
      [apply (runs_db 0); [apply (conn_runs_execute_insert (PerformanceStats _ _ _ _ _ _ _))|lia]
      |intros _].
    apply runs_seq; [apply (runs_db 0); [apply conn_runs_commit|lia]|intros _].
    apply runs_logger.
  - intros e h. destruct (is_sqlite3_Error e); [|discriminate].
    intros [= <-]. apply runs_logger.
Qed.

Lemma runs_report_statistics : runs 0 0 report_statistics.
Proof.
  unfold Receiver.report_statistics.
  apply runs_seq; [apply runs_gets|intros l]. destruct l as [|x l]; [apply runs_ret|].
  apply runs_seq; [apply runs_time_time|intros now].
  apply runs_seq; [apply runs_gets|intros st].
  apply runs_seq; [apply runs_lift; now destruct st|intros runtime].
  apply runs_seq; [apply runs_gets|intros n].
  apply runs_seq; [apply runs_lift, int_truediv_float_ordinary|intros throughput].
  apply runs_seq; [apply runs_logger|intros _].
  apply runs_seq; [apply runs_logger|intros _].
  apply runs_seq; [apply runs_logger|intros _].
  cbv zeta.
  apply runs_seq; [apply runs_lift; reflexivity|intros mn].
  apply runs_seq; [apply runs_lift; reflexivity|intros mx].
  apply runs_seq; [apply runs_lift, p95_of_ordinary|intros p].
  apply runs_seq; [apply runs_logger|intros _].
  apply runs_seq; [apply runs_logger|intros _].
  destruct (_ =? 0); [apply runs_save_statistics_snapshot|apply runs_ret].
Qed.

Lemma runs_store_message (data : value) (receive_time : float) (latency : option float) :
  runs 1 0 (store_message data receive_time latency).
Proof.
  unfold Receiver.store_message. destruct data as [| | | | | |items];
    try (apply (runs_weaken 0 0); [lia|lia|now apply runs_raise]).
  apply (runs_bind 0 0 1 0); [apply runs_time_time| |lia|lia]. intros now. cbv zeta.
  apply (runs_try_except 1 0 0 0); [| |lia|lia].
  - apply (runs_bind 1 0 0 0);
      [apply (runs_db 1); [apply (conn_runs_execute_insert (SensorData _ _ _ _ _))|lia]
      | |lia|lia].
    intros _.
    apply runs_seq; [apply (runs_db 0); [apply conn_runs_query|lia]|intros data_id].
    apply runs_seq.
    + destruct (dict_get items "readings") as [[| | | | | |readings]|]; try apply runs_ret.
      apply (runs_db 0); [|lia]. apply conn_runs_executemany_insert.
      clear. induction readings as [|[angle v] rs IH]; [reflexivity|exact IH].
    + intros _. apply runs_seq; [apply runs_gets|intros n].
      destruct (_ =? 0); [apply (runs_db 0); [apply conn_runs_commit|lia]|apply runs_ret].
  - intros e h. destruct (is_sqlite3_Error e); [|discriminate].
    intros [= <-]. apply runs_seq; [apply runs_logger|intros _].
    apply (runs_db 0); [apply conn_runs_commit|lia].
Qed.

Lemma contains_ordinary (k : string) (x : value) : ordinary (contains k x).
Proof. now destruct x. Qed.

Lemma getitem_ordinary (x : value) (k : string) : ordinary (getitem x k).
Proof. destruct x; try reflexivity. cbn. now destruct (dict_get items k). Qed.

Lemma float_sub_value_ordinary (a : float) (v : value) : ordinary (float_sub_value a v).
Proof.
  unfold float_sub_value, as_float.
  destruct v; try reflexivity;
    match goal with
    | |- context [float_of_int ?z] =>
        pose proof (float_of_int_ordinary z) as H; now destruct (float_of_int z)
    end.
Qed.

Lemma try_except_ok {A : Type} (j u : Z) (m : M A) (handler : exn -> option (M A)) :
  runs j u m ->
  (forall e, is_Exception e = true ->
             exists h, handler e = Some h /\ forall s, exists a, fst (h s) = Ok a) ->
  forall s, exists a, fst (try_except m handler s) = Ok a.
Proof.
  intros Hm Hh s. unfold try_except. destruct (Hm s) as [Ho _].
  destruct (m s) as [[a|e] s1]; cbn [fst] in *; [now exists a|].
  destruct (Hh e Ho) as (h & -> & Hok). apply Hok.
Qed.

(** A callback that reads the clock and logs whatever its body
    raises. *)
Lemma callback_runs (body : float -> M unit) (handler : exn -> option (M unit)) :
  (forall rt, runs 0 1 (body rt)) ->
  (forall e, is_Exception e = true -> exists m, handler e = Some (logger ERROR m [])) ->
  (forall e h, handler e = Some h -> exists m, h = logger ERROR m []) ->
  (forall s, fst (bind (time_time clock) (fun rt => try_except (body rt) handler) s) = Ok tt)
  /\ runs 0 1 (bind (time_time clock) (fun rt => try_except (body rt) handler)).
Proof.
  intros Hbody Hall Honly. split.
  - intros s. unfold bind at 1, time_time at 1.
    destruct (try_except_ok 0 1 (body (clock (ticks s))) handler (Hbody _)) with
      (s := set_ticks (S (ticks s)) s) as [[] E]; [|exact E].
    intros e He. destruct (Hall e He) as [m ->]. eexists. split; [reflexivity|].
    intros s0. now exists tt.
  - apply (runs_bind 0 0 0 1); [apply runs_time_time| |lia|lia]. intros receive_time.
    apply (runs_try_except 0 1 0 0); [apply Hbody| |lia|lia].
    intros e h E. destruct (Honly e h E) as [m ->]. apply runs_logger.
Qed.

(** [on_message] as a whole: it returns normally and advances the
    state, the message count by at most one. *)
Lemma on_message_runs (payload : result value) :
  ordinary payload ->
  (forall s, fst (on_message payload s) = Ok tt) /\ runs 0 1 (on_message payload).
Proof.
  intros Hp. unfold Receiver.on_message. apply callback_runs.
  - intros receive_time.
    apply (runs_bind 0 0 0 1); [now apply runs_lift| |lia|lia]. intros data.
    apply (runs_bind 0 0 0 1); [apply runs_lift, contains_ordinary| |lia|lia].
    intros has_send_time.
    apply (runs_bind 0 0 0 1); [| |lia|lia].
    { destruct has_send_time; [|apply runs_ret].
      apply runs_seq; [apply runs_lift, getitem_ordinary|intros sent].
      apply runs_seq; [apply runs_lift, float_sub_value_ordinary|intros d]. cbv zeta.
      apply runs_seq; [|intros _; apply runs_ret].
      apply runs_modify. intros s. split; [|cbn; unfold scan_count, all_scans; cbn; lia].
      extends_fields. }
    intros latency.
    apply (runs_bind_ok (-1) 1 1 0).
    { intros s. now exists tt. }
    { apply runs_modify. intros s. split; [|cbn; unfold scan_count, all_scans; cbn; lia].
      extends_fields. }
    intros _.
    apply (runs_bind 1 0 0 0); [apply runs_store_message| |lia|lia]. intros _.
    apply runs_seq; [apply runs_gets|intros n].
    apply runs_seq.
    { destruct (_ =? 0); [|apply runs_ret].
      destruct data; try (now apply runs_raise). apply runs_logger. }
    intros _.
    apply runs_seq; [apply runs_time_time|intros now].
    apply runs_seq; [apply runs_gets|intros last].
    destruct (flt _ _); [|apply runs_ret].
    apply runs_seq; [apply runs_report_statistics|intros _].
    apply runs_seq; [apply runs_time_time|intros t].
    apply runs_modify. intros s. split; [|cbn; unfold scan_count, all_scans; cbn; lia].
    extends_fields.
  - intros e He. destruct e; try discriminate; eexists; reflexivity.
  - intros e h. destruct e; cbn; intros [= <-]; eexists; reflexivity.
Qed.

(** X1: whatever the payload decodes to, and whatever has become of
    the database connection, [on_message] returns normally: every
    error is logged inside the callback. *)
Theorem on_message_never_raises (payload : result value) (s : state) :
  ordinary payload -> fst (on_message payload s) = Ok tt.
Proof. intros Hp. now apply on_message_runs. Qed.

(** X2: over a run of arbitrary payloads the recorder's state only
    grows: nothing written or committed is lost or altered, every
    payload counts for at most one message, and no more Scan rows are
    added than messages are counted. *)
Theorem deliver_only_grows (payloads : list (result value)) (s : state) :
  Forall ordinary payloads ->
  let s' := snd (deliver payloads s) in
  fst (deliver payloads s) = Ok tt
  /\ extends s s'
  /\ message_counts s' <= message_counts s + Z.of_nat (List.length payloads)
  /\ scan_count s' - scan_count s <= message_counts s' - message_counts s.
Proof.
  intros Hps. revert s. induction Hps as [|p ps Hp Hps IH]; intros s.
  - cbn. split; [reflexivity|]. split; [apply extends_refl|lia].
  - cbn [Receiver.deliver]. unfold bind.
    destruct (on_message_runs p Hp) as [Hok Hrun].
    specialize (Hok s). destruct (Hrun s) as [_ (He & Hu & Hj)].
    destruct (on_message p s) as [r s1]. cbn [fst snd] in *. subst r.
    destruct (IH s1) as (E & He' & Hu' & Hj'). cbv zeta.
    split; [exact E|]. split; [exact (extends_trans _ _ _ He He')|].
    cbn [List.length]. lia.
Qed.

(** X3: payloads that do not decode are logged and dropped: each one
    costs a reading of the clock and an error record, and the counters,
    the latencies, the database and the time of the last report stay
    as they were. *)
Theorem undecodable_payloads_dropped (n : nat) (s : state) :
  deliver (repeat (Raise JSONDecodeError) n) s
  = (Ok tt,
     set_log (log s ++ repeat (LogRecord ERROR "Error decoding message" []) n)
       (set_ticks (n + ticks s) s)).
Proof.
  revert s. induction n as [|n IH]; intros [lats k st lrt dbc tk lg].
  - cbn. unfold ret, set_log, set_ticks. cbn. now rewrite app_nil_r.
  - cbn [repeat Receiver.deliver]. unfold bind at 1.
    unfold Receiver.on_message, bind, time_time, try_except, lift, logger, modify.
    cbn [fst snd]. rewrite IH. unfold set_log, set_ticks. cbn.
    rewrite <- app_assoc. cbn [app]. do 3 f_equal. lia.
Qed.

(** X4: a payload that decodes to something other than an object is
    never stored; it is counted as a message exactly when the test
    ["send_time" in data] answers [False] (an array or a string
    without that text), and the error is logged either way. *)
Theorem non_dict_payload_not_stored (v : value) (s : state) :
  is_dict v = false ->
  on_message (Ok v) s
  = (Ok tt,
     logged_error "Error processing message"
       (set_message_counts
          (message_counts s
           + match contains "send_time" v with Ok false => 1 | _ => 0 end)
          (set_ticks (S (ticks s)) s))).
Proof.
  destruct s as [lats k st lrt dbc tk lg]. intros Hv.
  unfold Receiver.on_message, bind at 1, time_time at 1, try_except, logged_error.
  unfold bind at 1, lift at 1. unfold bind at 1, lift at 1.
  destruct v as [|b|z|f|str|l|items]; try discriminate; cbn [contains];
    try (unfold logger, modify, set_log, set_message_counts, set_ticks; cbn;
         now rewrite Z.add_0_r).
  - destruct (str_contains "send_time" str);
      unfold bind, lift, getitem, modify, ret, raise, Receiver.store_message, logger,
        set_log, set_message_counts, set_ticks, set_latencies; cbn;
      [now rewrite Z.add_0_r|reflexivity].
  - destruct (existsb _ l);
      unfold bind, lift, getitem, modify, ret, raise, Receiver.store_message, logger,
        set_log, set_message_counts, set_ticks, set_latencies; cbn;
      [now rewrite Z.add_0_r|reflexivity].
Qed.

Lemma execute_insert_rejected (c : connection) (r : row) :
  closed c = false -> rejected r = true -> execute_insert c r = (Raise Sqlite3Error, c).
Proof.
  intros Hc. unfold rejected, execute_insert. rewrite Hc.
  destruct (bind_params (params r)) as [[]|e].
  - now destruct (constraints_ok (bound_row r)).
  - now destruct e.
Qed.

Lemma execute_insert_unbound (c : connection) (r : row) (e : exn) :
  closed c = false -> bind_params (params r) = Raise e -> execute_insert c r = (Raise e, c).
Proof. intros Hc Hr. unfold execute_insert. now rewrite Hc, Hr. Qed.

Lemma insert_each_stops (done : list row) (bad : row) (rest : list row) (e : exn) :
  forall c,
    closed c = false -> forallb insertable done = true ->
    (forall c', closed c' = false -> execute_insert c' bad = (Raise e, c')) ->
    insert_each c (done ++ bad :: rest) = (Raise e, add_rows c (map bound_row done)).
Proof.
  induction done as [|r done IH]; intros c Hc Hdone Hbad.
  - cbn. rewrite (Hbad c Hc). now rewrite add_rows_nil.
  - cbn in Hdone. apply andb_true_iff in Hdone as [Hr Hdone]. cbn [app insert_each].
    rewrite (execute_insert_ok c r Hc Hr).
    rewrite (IH (add_rows c [bound_row r]) Hc Hdone Hbad).
    now rewrite add_rows_app.
Qed.

(** [store_message] up to the row that cannot be written: [done] are
    the parameters of the rows written before it. *)
Lemma store_message_stops (items : list (string * value)) (rt : float)
    (lat : option float) (s : state) (c : connection) (done : list row) (bad : row)
    (rest : list row) (e : exn) :
  db_connection s = Some c -> closed c = false ->
  scan_params items rt (clock (ticks s)) lat
    :: reading_params (lastrowid (add_rows c [scan_row items rt (clock (ticks s)) lat]))
         items
  = done ++ bad :: rest ->
  forallb insertable done = true ->
  (forall c', closed c' = false -> execute_insert c' bad = (Raise e, c')) ->
  store_message (PyDict items) rt lat s
  = if is_sqlite3_Error e
    then (Ok tt, upd s (committed (add_rows c (map bound_row done))) (S (ticks s))
                   (log s ++ [LogRecord ERROR "Database error" []]))
    else (Raise e, upd s (add_rows c (map bound_row done)) (S (ticks s)) (log s)).
Proof.
  destruct s as [lats n st lrt dbc tk lg]. cbn [db_connection ticks log].
  intros -> Hc Hrows Hdone Hbad.
  set (row := scan_row items rt (clock tk) lat) in *.
  unfold Receiver.store_message, try_except, bind, time_time, db, gets, upd. cbn.
  change (SensorData (dict_get_default items "timestamp" _) _ _ _ _)
    with (scan_params items rt (clock tk) lat).
  destruct done as [|r done].
  - cbn [app] in Hrows. injection Hrows as <- _. rewrite (Hbad c Hc). cbn.
    rewrite add_rows_nil.
    destruct (is_sqlite3_Error e); [|reflexivity].
    unfold logger, modify, set_log. cbn. now rewrite (commit_open c Hc).
  - cbn [app] in Hrows. injection Hrows as <- Hrows.
    cbn in Hdone. apply andb_true_iff in Hdone as [Hr Hdone].
    rewrite (execute_insert_ok c _ Hc Hr). cbn.
    change (bound_row (scan_params items rt (clock tk) lat)) with row.
    unfold reading_params in Hrows.
    destruct (dict_get items "readings") as [[| | | | | |readings]|];
      try (now destruct done).
    rewrite Hrows. unfold executemany_insert. cbn. rewrite Hc.
    rewrite (insert_each_stops done bad rest e (add_rows c [row]) Hc Hdone Hbad).
    rewrite add_rows_app. cbn.
    destruct (is_sqlite3_Error e); [|reflexivity].
    unfold logger, modify, set_log. cbn.
    now rewrite (commit_open (add_rows c (row :: map bound_row done)) Hc).
Qed.

(** X5: when a row of a message is refused with a database error (a
    parameter of a type that is not supported, or a null or a NaN for
    a [NOT NULL] column), the error is logged and the open
    transaction is committed on the spot: the rows of the message
    written before the refused one, and all that was pending, become
    durable, and [store_message] returns normally.  [done], [bad] and
    [rest] are the parameters of the rows in the order in which the
    code writes them. *)
Theorem database_error_commits (items : list (string * value)) (rt : float)
    (lat : option float) (s : state) (c : connection) (done : list row) (bad : row)
    (rest : list row) :
  db_connection s = Some c -> closed c = false ->
  scan_params items rt (clock (ticks s)) lat
    :: reading_params (lastrowid (add_rows c [scan_row items rt (clock (ticks s)) lat]))
         items
  = done ++ bad :: rest ->
  forallb insertable done = true -> rejected bad = true ->
  store_message (PyDict items) rt lat s
  = (Ok tt,
     upd s (committed (add_rows c (map bound_row done))) (S (ticks s))
       (log s ++ [LogRecord ERROR "Database error" []])).
Proof.
  intros Hdb Hc Hrows Hdone Hbad.
  rewrite (store_message_stops items rt lat s c done bad rest Sqlite3Error
             Hdb Hc Hrows Hdone); [reflexivity|].
  intros c' Hc'. now apply execute_insert_rejected.
Qed.

(** The latency step of [on_message]. *)
Lemma latency_step (items : list (string * value)) (rt : float) (s : state) :
  send_time_ok items = true ->
  (if match dict_get items "send_time" with Some _ => true | None => false end
   then
     sent <- lift (getitem (PyDict items) "send_time") ;;
     d <- lift (float_sub_value rt sent) ;;
     modify (fun s => set_latencies (latencies s ++ [fmul d f1000]) s) ;;
     ret (Some (fmul d f1000))
   else ret None) s
  = (Ok (latency_of items rt),
     set_latencies (latencies s ++ latency_list (latency_of items rt)) s).
Proof.
  destruct s as [lats n st lrt dbc tk lg].
  unfold latency_of, send_time_ok, getitem, float_sub_value, bind, lift, modify, ret,
    set_latencies.
  cbn. destruct (dict_get items "send_time") as [v|]; cbn.
  - destruct (as_float v) as [sent|]; [reflexivity|discriminate].
  - intros _. now rewrite app_nil_r.
Qed.

(** X6: when a row of a message cannot be bound because an integer
    does not fit in 64 bits, while the rows before it are written,
    the error is not a database error: the message is counted and its
    latency kept, the rows written before it stay uncommitted in the
    open transaction, and the callback ends there, before the
    periodic report.  [done], [bad] and [rest] are the parameters of
    the rows in the order in which the code writes them. *)
Theorem unbindable_message_counted (items : list (string * value)) (s : state)
    (c : connection) (done : list row) (bad : row) (rest : list row) :
  db_connection s = Some c -> closed c = false -> send_time_ok items = true ->
  let rt := clock (ticks s) in
  let lat := latency_of items rt in
  let now := clock (S (ticks s)) in
  scan_params items rt now lat
    :: reading_params (lastrowid (add_rows c [scan_row items rt now lat])) items
  = done ++ bad :: rest ->
  forallb insertable done = true ->
  bind_params (params bad) = Raise OverflowError ->
  on_message (Ok (PyDict items)) s
  = (Ok tt,
     State (latencies s ++ latency_list lat) (message_counts s + 1) (start_time s)
       (last_report_time s) (Some (add_rows c (map bound_row done))) (S (S (ticks s)))
       (log s ++ [LogRecord ERROR "Error processing message" []])).
Proof.
  destruct s as [lats n st lrt dbc tk lg].
  cbn [db_connection ticks message_counts log latencies start_time last_report_time].
  intros -> Hc Hs. cbv zeta. intros Hrows Hdone Hbad.
  unfold Receiver.on_message, bind at 1, time_time at 1, try_except, set_ticks.
  cbn [latencies message_counts start_time last_report_time db_connection ticks log].
  unfold bind at 1, lift at 1. unfold bind at 1, lift at 1, contains.
  unfold bind at 1. rewrite (latency_step items (clock tk) _ Hs).
  unfold set_latencies.
  cbn [latencies message_counts start_time last_report_time db_connection ticks log].
  unfold bind at 1, modify at 1, set_message_counts.
  cbn [latencies message_counts start_time last_report_time db_connection ticks log].
  unfold bind at 1.
  rewrite (store_message_stops items (clock tk) (latency_of items (clock tk))
             (State (lats ++ latency_list (latency_of items (clock tk))) (n + 1) st lrt
                (Some c) (S tk) lg) c done bad rest OverflowError eq_refl Hc Hrows Hdone).
  - reflexivity.
  - intros c' Hc'. now apply execute_insert_unbound.
Qed.

Lemma close_database_flushes (s : state) (c : connection) :
  db_connection s = Some c -> closed c = false ->
  close_database s
  = (Ok tt, upd s (close (committed c)) (ticks s)
              (log s ++ [LogRecord INFO "Database connection closed" []])).
Proof.
  destruct s as [lats n st lrt dbc tk lg]. cbn [db_connection ticks]. intros -> Hc.
  unfold close_database, bind, gets, db, logger, modify, upd. cbn.
  now rewrite (commit_open c Hc).
Qed.

(** X7: a shutdown by signal flushes and closes the database, but it
    does not end with the handler's [SystemExit]: [main]'s [finally]
    clause closes the database a second time, the closed connection
    raises, and that database error is what leaves [main].  If the
    last report raised instead, [main] logs it and returns
    normally. *)
Theorem signal_shutdown (s : state) (c : connection) :
  db_connection s = Some c -> closed c = false ->
  let before_report := snd (logger INFO "Shutting down receiver..." [] s) in
  let s' := snd (main_interrupted clock statistics_mean sort_unordered s) in
  (exists c', db_connection s' = Some c' /\ closed c' = true /\ pending c' = []
              /\ prefix_of (rows c) (durable c'))
  /\ (fst (report_statistics before_report) = Ok tt ->
      fst (main_interrupted clock statistics_mean sort_unordered s) = Raise Sqlite3Error)
  /\ (forall e, fst (report_statistics before_report) = Raise e ->
                fst (main_interrupted clock statistics_mean sort_unordered s) = Ok tt
                /\ In (LogRecord ERROR "Error in main" []) (log s')).
Proof.
  intros Hdb Hc.
  destruct s as [lats n st lrt dbc tk lg]. cbn [db_connection] in Hdb. subst dbc.
  cbv zeta. unfold logger at 1 2, modify at 1 2, set_log.
  cbn [latencies message_counts start_time last_report_time db_connection ticks log
         fst snd].
  set (s1 := State lats n st lrt (Some c) tk
               (lg ++ [LogRecord INFO "Shutting down receiver..." []])).
  destruct (report_statistics_frame clock statistics_mean sort_unordered s1 c eq_refl Hc)
    as (res1 & c1 & tk1 & lg1 & E1 & Hc1 & Hord1).
  unfold upd in E1. subst s1.
  cbn [latencies message_counts start_time last_report_time db_connection ticks log] in *.
  assert (Hopen1 : closed c1 = false).
  { destruct Hc1 as [->|(_ & _ & row & _ & ->)]; [exact Hc|reflexivity]. }
  assert (Hrows : prefix_of (rows c) (rows c1)).
  { destruct Hc1 as [->|(_ & _ & row & _ & ->)]; [apply prefix_of_refl|].
    rewrite rows_committed, rows_add_rows. apply prefix_of_app. }
  assert (Hmain : exists lgf,
    main_interrupted clock statistics_mean sort_unordered (State lats n st lrt (Some c) tk lg)
    = (match res1 with Ok _ => Raise Sqlite3Error | Raise _ => Ok tt end,
       State lats n st lrt (Some (close (committed c1))) tk1 lgf)
    /\ (forall e, res1 = Raise e -> In (LogRecord ERROR "Error in main" []) lgf)).
  { unfold main_interrupted, try_finally, try_except, handle_exit.
    unfold bind at 1, logger at 1, modify at 1, set_log.
    cbn [latencies message_counts start_time last_report_time db_connection ticks log].
    unfold bind at 1. rewrite E1.
    destruct res1 as [[]|e].
    - unfold bind at 1.
      destruct (close_database_open (State lats n st lrt (Some c1) tk1 lg1) c1 eq_refl
                  Hopen1) as [lg2 E2].
      rewrite E2. unfold upd, raise.
      cbn [latencies message_counts start_time last_report_time db_connection ticks log
             is_Exception].
      match goal with
      | |- context [close_database ?s0] =>
          rewrite (close_database_closed s0 (close (committed c1)) eq_refl eq_refl)
      end.
      exists lg2. split; [reflexivity|discriminate].
    - cbn in Hord1. rewrite Hord1. unfold logger, modify, set_log.
      cbn [latencies message_counts start_time last_report_time db_connection ticks log].
      match goal with
      | |- context [close_database ?s0] =>
          rewrite (close_database_flushes s0 c1 eq_refl Hopen1)
      end.
      unfold upd.
      cbn [latencies message_counts start_time last_report_time db_connection ticks log].
      eexists. split; [reflexivity|]. intros _ _.
      apply in_or_app. left. apply in_or_app. right. now left. }
  destruct Hmain as (lgf & Emain & Hlog). rewrite Emain, E1. cbn [fst snd db_connection].
  split; [|split].
  - exists (close (committed c1)). repeat split. exact Hrows.
  - now intros ->.
  - intros e ->. split; [reflexivity|]. now apply (Hlog e).
Qed.

End WithEnvironment.

End ReceiverRobust.


(** ** The reported statistics *)

Module StatisticsFacts.
Import Spec Receiver SortedFacts ReceiverFacts.

Lemma flt_trans (a b c : float) : flt a b = true -> flt b c = true -> flt a c = true.
Proof.
  unfold flt, SFltb.
  destruct a as [sa|sa| |sa ma ea], b as [sb|sb| |sb mb eb], c as [sc|sc| |sc mc ec];
    cbn; try discriminate; try reflexivity;
    try (destruct sa; discriminate || reflexivity);
    try (destruct sb; discriminate || reflexivity);
    try (destruct sc; discriminate || reflexivity);
    try (destruct sa, sb; discriminate || reflexivity);
    try (destruct sb, sc; discriminate || reflexivity);
    try (destruct sa, sc; discriminate || reflexivity);
    try (destruct sa, sb, sc; discriminate || reflexivity).
  change PosDef.Pos.compare_cont with Pos.compare_cont.
  change (Pos.compare_cont Eq) with Pos.compare.
  destruct sa, sb, sc; try discriminate; try reflexivity;
    destruct (Z.compare_spec ea eb), (Z.compare_spec eb ec), (Z.compare_spec ea ec);
    try lia; cbn; try discriminate; try reflexivity;
    destruct (Pos.compare_spec ma mb), (Pos.compare_spec mb mc), (Pos.compare_spec ma mc);
    cbn; try discriminate; try reflexivity; intros; lia.
Qed.

Lemma flt_irrefl (a : float) : flt a a = false.
Proof.
  destruct (flt a a) eqn:E; [|reflexivity]. now rewrite (flt_asym a a E) in E.
Qed.

(** The loop of [min]: the result is one of the items, and none is
    smaller. *)
Lemma fold_min_spec (rest : list float) :
  forall (seen : list float) (cur : float),
    In cur seen -> (forall x, In x seen -> fle cur x) ->
    let m := fold_left (fun cur item => if flt item cur then item else cur) rest cur in
    In m (seen ++ rest) /\ (forall x, In x (seen ++ rest) -> fle m x).
Proof.
  induction rest as [|y rest IH]; intros seen cur Hin Hlow; cbn [fold_left].
  - rewrite app_nil_r. now split.
  - replace (seen ++ y :: rest) with ((seen ++ [y]) ++ rest)
      by now rewrite <- app_assoc.
    apply IH.
    + apply in_or_app. destruct (flt y cur); [right; now left|now left].
    + intros x Hx. apply in_app_or in Hx as [Hx|[<-|[]]]; unfold fle in *.
      * destruct (flt y cur) eqn:Hy; [|now apply Hlow].
        destruct (flt x y) eqn:Hxy; [|reflexivity].
        pose proof (Hlow x Hx) as H1. pose proof (flt_trans x y cur Hxy Hy). congruence.
      * destruct (flt y cur) eqn:Hy; [apply flt_irrefl|exact Hy].
Qed.

Lemma fold_max_spec (rest : list float) :
  forall (seen : list float) (cur : float),
    In cur seen -> (forall x, In x seen -> fle x cur) ->
    let m := fold_left (fun cur item => if flt cur item then item else cur) rest cur in
    In m (seen ++ rest) /\ (forall x, In x (seen ++ rest) -> fle x m).
Proof.
  induction rest as [|y rest IH]; intros seen cur Hin Hup; cbn [fold_left].
  - rewrite app_nil_r. now split.
  - replace (seen ++ y :: rest) with ((seen ++ [y]) ++ rest)
      by now rewrite <- app_assoc.
    apply IH.
    + apply in_or_app. destruct (flt cur y); [right; now left|now left].
    + intros x Hx. apply in_app_or in Hx as [Hx|[<-|[]]]; unfold fle in *.
      * destruct (flt cur y) eqn:Hy; [|now apply Hup].
        destruct (flt y x) eqn:Hyx; [|reflexivity].
        pose proof (Hup x Hx) as H1. pose proof (flt_trans cur y x Hy Hyx). congruence.
      * destruct (flt cur y) eqn:Hy; [apply flt_irrefl|exact Hy].
Qed.

Lemma py_min_spec (l : list float) (m : float) :
  py_min l = Ok m -> In m l /\ (forall x, In x l -> fle m x).
Proof.
  destruct l as [|x l]; [discriminate|]. cbn. intros [= <-].
  apply (fold_min_spec l [x] x); [now left|].
  intros y [<-|[]]. apply flt_irrefl.
Qed.

Lemma py_max_spec (l : list float) (m : float) :
  py_max l = Ok m -> In m l /\ (forall x, In x l -> fle x m).
Proof.
  destruct l as [|x l]; [discriminate|]. cbn. intros [= <-].
  apply (fold_max_spec l [x] x); [now left|].
  intros y [<-|[]]. apply flt_irrefl.
Qed.

Lemma leq_refl (a : float) : is_nan a = false -> leq a a.
Proof. intros Ha. apply fle_leq; [exact Ha|exact Ha|]. apply flt_irrefl. Qed.

Lemma StronglySorted_last {A} (R : A -> A -> Prop) (front : list A) (p : A) :
  StronglySorted R (front ++ [p]) -> forall x, In x front -> R x p.
Proof.
  induction front as [|y front IH]; intros Hs x Hx; [destruct Hx|].
  cbn [app] in Hs. inversion Hs as [|? ? Hrest Hall]; subst.
  destruct Hx as [<-|Hx]; [|now apply IH].
  rewrite Forall_forall in Hall. apply Hall, in_or_app. right. now left.
Qed.

Section WithEnvironment.
Variable clock : nat -> float.
Variable statistics_mean : list float -> float.
Variable sort_unordered : list float -> list float.

Local Abbreviation report_statistics :=
  (report_statistics clock statistics_mean sort_unordered).
Local Abbreviation sorted := (sorted sort_unordered).
Local Abbreviation p95_of := (p95_of sort_unordered).

(** X8: when the recorded latencies are numbers, the minimum, the
    maximum and the 95th percentile that a report logs are three of
    them, every latency lies between the minimum and the maximum
    (the 95th percentile too), and the mean is that of all of
    them. *)
Theorem reported_latencies_ordered (s : state) (t0 throughput : float) :
  latencies s <> [] ->
  has_nan (latencies s) = false ->
  Z.of_nat (List.length (latencies s)) < 2 ^ 49 ->
  start_time s = Some t0 ->
  int_truediv_float (message_counts s) (fsub (clock (ticks s)) t0) = Ok throughput ->
  exists mn mx p95,
    In (LogRecord INFO "Latency (ms)"
          [PyFloat (statistics_mean (latencies s)); PyFloat mn; PyFloat mx; PyFloat p95])
       (log (snd (report_statistics s)))
    /\ In mn (latencies s) /\ In mx (latencies s) /\ In p95 (latencies s)
    /\ (forall x, In x (latencies s) -> leq mn x /\ leq x mx).
Proof.
  intros Hl Hnan Hlen Hst Hthr.
  destruct (p95_of_nearest_rank sort_unordered (latencies s) Hl Hlen Hnan)
    as (p & Hp & Hnth).
  pose proof (has_nan_in _ Hnan) as Hnum.
  destruct (latencies s) as [|x l] eqn:El; [congruence|].
  destruct (report_statistics_logs clock statistics_mean sort_unordered s x l t0
              throughput p El Hst Hthr Hp)
    as (mn & mx & Hmn & Hmx & Hlog).
  destruct (py_min_spec _ _ Hmn) as [Imn Lmn].
  destruct (py_max_spec _ _ Hmx) as [Imx Lmx].
  exists mn, mx, p.
  split; [exact Hlog|]. split; [exact Imn|]. split; [exact Imx|]. split.
  - apply (Permutation_in p (sorted_perm (x :: l))). eapply nth_error_In, Hnth.
  - intros y Hy. split; apply fle_leq; auto.
Qed.

(** X9: with at most 20 latencies, all of them numbers, the index
    [int(N * 0.95)] is the last one: the 95th percentile of a report
    is the last element of the sorted latencies, which is their
    maximum. *)
Theorem p95_of_few_is_last (l : list float) :
  l <> [] -> has_nan l = false -> (List.length l <= 20)%nat ->
  exists front p,
    p95_of l = Ok p /\ sorted l = front ++ [p] /\ (forall x, In x l -> leq x p).
Proof.
  intros Hl Hnan Hlen.
  destruct (p95_of_nearest_rank sort_unordered l Hl) as (p & Hp & Hnth); [lia|exact Hnan|].
  assert (Hpos : (0 < List.length l)%nat) by (destruct l; [congruence|cbn; lia]).
  assert (Hi : 95 * Z.of_nat (List.length l) / 100 = Z.of_nat (List.length l) - 1).
  { symmetry. apply (Z.div_unique _ _ _ (100 - 5 * Z.of_nat (List.length l))); lia. }
  rewrite Hi in Hnth.
  destruct (nth_error_split _ _ Hnth) as (front & back & Hs & Hf).
  assert (Hb : List.length back = 0%nat).
  { pose proof (sorted_length l) as Hsl. rewrite Hs, length_app in Hsl. cbn in Hsl. lia. }
  destruct back; [|discriminate].
  exists front, p. split; [exact Hp|].
  rewrite (sorted_ordered sort_unordered l Hnan). split; [exact Hs|].
  intros x Hx. pose proof (sorted_ascending l Hnan) as Hasc. rewrite Hs in Hasc.
  apply (Permutation_in x (Permutation_sym (sorted_perm l))) in Hx.
  rewrite Hs in Hx. apply in_app_or in Hx as [Hx|[<-|[]]].
  - now apply (StronglySorted_last leq front p Hasc).
  - apply leq_refl, (has_nan_in l Hnan).
    apply (Permutation_in p (sorted_perm l)). rewrite Hs. apply in_or_app. right. now left.
Qed.

End WithEnvironment.

End StatisticsFacts.


(** ** Reading scans back and showing them *)

Module LidarVisualizerFacts.
Import Visualizer VisualizerSpec VisualizerFacts LidarVisualizer PointCloudServer.

Section WithDatabase.
Context {num : Type} `{Float64 num}.
Variable truth : num -> bool.
Variable sqlite3_connect : result unit.
Variable select_max_timestamp : result (option num).
Variable select_scan : num -> result (list (@joined_row num)).
Variable figure : Type.
Variable go_Figure : list (point num) -> list (color num) -> option num -> figure.
Variable write_point_cloud :
  string -> list (point num) * list (color num) -> result unit.
Variable strftime_localtime : option num -> result string.
Variable ply_path : num -> string.

Local Abbreviation get_historical_scan :=
  (get_historical_scan sqlite3_connect select_scan).
Local Abbreviation process_scan_by_timestamp :=
  (process_scan_by_timestamp sqlite3_connect select_scan figure go_Figure).
Local Abbreviation update_point_cloud :=
  (update_point_cloud truth sqlite3_connect select_max_timestamp select_scan figure
     go_Figure strftime_localtime).
Local Abbreviation download_point_cloud :=
  (download_point_cloud sqlite3_connect select_scan figure go_Figure write_point_cloud
     ply_path).

Lemma dict_lookup_setitem (d : list (string * num)) (k k' : string) (v : num) :
  dict_lookup (dict_setitem d k v) k'
  = if String.eqb k k' then Some v else dict_lookup d k'.
Proof.
  induction d as [|[k0 v0] d IH]; cbn.
  - reflexivity.
  - destruct (String.eqb_spec k0 k) as [->|Hk0]; cbn.
    + now destruct (String.eqb k k').
    + rewrite IH. destruct (String.eqb_spec k0 k') as [->|Hk0']; [|reflexivity].
      destruct (String.eqb_spec k k'); [congruence|reflexivity].
Qed.

Lemma dict_setitem_keys (d : list (string * num)) (k : string) (v : num) :
  map fst (dict_setitem d k v)
  = if existsb (String.eqb k) (map fst d) then map fst d else map fst d ++ [k].
Proof.
  induction d as [|[k0 v0] d IH]; cbn; [reflexivity|].
  rewrite (String.eqb_sym k k0).
  destruct (String.eqb k0 k); cbn; [reflexivity|].
  rewrite IH. now destruct (existsb (String.eqb k) (map fst d)).
Qed.

Lemma dict_setitem_nodup (d : list (string * num)) (k : string) (v : num) :
  NoDup (map fst d) -> NoDup (map fst (dict_setitem d k v)).
Proof.
  intros Hd. rewrite dict_setitem_keys.
  destruct (existsb (String.eqb k) (map fst d)) eqn:E; [exact Hd|].
  apply NoDup_app; [exact Hd|repeat constructor; easy|].
  intros x Hx [<-|[]]. assert (existsb (String.eqb k) (map fst d) = true); [|congruence].
  apply existsb_exists. exists k. split; [exact Hx|apply String.eqb_refl].
Qed.

Lemma dict_setitem_length (d : list (string * num)) (k : string) (v : num) :
  (List.length d <= List.length (dict_setitem d k v) <= S (List.length d))%nat.
Proof.
  induction d as [|[k0 v0] d IH]; cbn; [lia|]. destruct (String.eqb k0 k); cbn; lia.
Qed.

(** The dict that the loop over the rows builds, from any dict. *)
Lemma readings_loop (rows : list (@joined_row num)) :
  forall acc : list (string * num),
    NoDup (map fst acc) ->
    let d := fold_left (fun readings '(_, _, _, angle_key, distance) =>
                          dict_setitem readings angle_key distance) rows acc in
    NoDup (map fst d)
    /\ (forall k,
          dict_lookup d k
          = fold_left (fun cur '(_, _, _, angle_key, distance) =>
                         if String.eqb angle_key k then Some distance else cur)
              rows (dict_lookup acc k))
    /\ (List.length acc <= List.length d <= List.length acc + List.length rows)%nat.
Proof.
  induction rows as [|[[[[id ts] dev] a] v] rows IH]; intros acc Hacc; cbn [fold_left].
  - split; [exact Hacc|]. split; [reflexivity|cbn; lia].
  - destruct (IH (dict_setitem acc a v) (dict_setitem_nodup acc a v Hacc))
      as (Hn & Hl & Hlen).
    split; [exact Hn|]. split.
    + intros k. rewrite Hl, dict_lookup_setitem. reflexivity.
    + pose proof (dict_setitem_length acc a v). cbn [List.length]. lia.
Qed.

Lemma readings_of_nonempty (rows : list (@joined_row num)) :
  rows <> [] -> readings_of rows <> [].
Proof.
  intros Hrows. destruct rows as [|[[[[id ts] dev] a] v] rows]; [congruence|].
  unfold readings_of. cbn [fold_left dict_setitem].
  destruct (readings_loop rows [(a, v)]) as (_ & _ & Hlen);
    [repeat constructor; easy|].
  intros E. rewrite E in Hlen. cbn in Hlen. lia.
Qed.

(** X10: the scan read back for a timestamp has one reading per
    label; when several rows carry the same label the distance of
    the last one is kept.  Its timestamp is the one asked for and
    its device that of the first row. *)
Theorem historical_scan_last_reading_wins (t : num) (self : @lidar num)
    (rows : list (@joined_row num)) :
  local_conn self = true -> select_scan t = Ok rows -> rows <> [] ->
  exists dev items,
    get_historical_scan t self
    = (Ok (Some (ScanDict (Some t) (Some dev) (Some items))), self)
    /\ (exists id ts a v, hd_error rows = Some (id, ts, dev, a, v))
    /\ NoDup (map fst items)
    /\ (forall k, dict_lookup items k = last_value rows k)
    /\ (0 < List.length items <= List.length rows)%nat.
Proof.
  intros Hconn Hsel Hrows. unfold LidarVisualizer.get_historical_scan, get_connection.
  rewrite Hconn, Hsel.
  pose proof (readings_of_nonempty rows Hrows) as Hne.
  destruct rows as [|[[[[id ts] dev] a] v] rows]; [congruence|].
  exists dev, (readings_of ((id, ts, dev, a, v) :: rows)).
  split; [reflexivity|]. split; [now exists id, ts, a, v|].
  destruct (readings_loop ((id, ts, dev, a, v) :: rows) [] (NoDup_nil _))
    as (Hn & Hl & Hlen).
  split; [exact Hn|]. split; [exact Hl|].
  split; [|exact (proj2 Hlen)].
  destruct (readings_of ((id, ts, dev, a, v) :: rows)) as [|item items] eqn:E.
  - elim (Hne E).
  - cbn; lia.
Qed.

(** [get_historical_scan] writes no attribute but the connection; a
    scan it returns has readings. *)
Lemma get_historical_scan_frame (t : num) (self : @lidar num) :
  let self' := snd (get_historical_scan t self) in
  latest_timestamp self' = latest_timestamp self
  /\ point_cloud self' = point_cloud self
  /\ (forall sd, fst (get_historical_scan t self) = Ok (Some sd) ->
        exists dev rows, select_scan t = Ok rows /\ rows <> []
                         /\ sd = ScanDict (Some t) (Some dev) (Some (readings_of rows)))
  /\ (forall e, fst (get_historical_scan t self) = Raise e ->
        is_sqlite3_Error e = false
        /\ (sqlite3_connect = Raise e \/ select_scan t = Raise e)).
Proof.
  unfold LidarVisualizer.get_historical_scan, get_connection.
  destruct (local_conn self).
  - destruct (select_scan t) as [[|[[[[id ts] dev] a] v] rows]|e] eqn:Hsel; cbn.
    + repeat split; discriminate.
    + repeat split; try discriminate. intros sd [= <-].
      exists dev, ((id, ts, dev, a, v) :: rows). now repeat split.
    + destruct (is_sqlite3_Error e) eqn:He; cbn; repeat split; try discriminate;
        try congruence; right; congruence.
  - destruct sqlite3_connect as [[]|e] eqn:Hcon; cbn.
    + destruct (select_scan t) as [[|[[[[id ts] dev] a] v] rows]|e] eqn:Hsel; cbn.
      * repeat split; discriminate.
      * repeat split; try discriminate. intros sd [= <-].
        exists dev, ((id, ts, dev, a, v) :: rows). now repeat split.
      * destruct (is_sqlite3_Error e) eqn:He; cbn; repeat split; try discriminate;
          try congruence; right; congruence.
    + destruct (is_sqlite3_Error e) eqn:He; cbn; repeat split; try discriminate;
        try congruence; left; congruence.
Qed.

(** From the scan to the figure. *)
Lemma process_scan (sd : scan_dict num) (rs : list (string * num)) (self : @lidar num) :
  readings sd = Some rs -> rs <> [] ->
  exists colors logs,
    process figure go_Figure (Ok (Some sd), self)
    = match map cartesian (parsed rs) with
      | [] =>
          (Ok None,
           {| local_conn := local_conn self; latest_timestamp := latest_timestamp self;
              point_cloud := point_cloud self; records := records self ++ logs |})
      | points =>
          (Ok (Some (go_Figure points colors (latest_timestamp self))),
           {| local_conn := local_conn self; latest_timestamp := latest_timestamp self;
              point_cloud := Some (points, colors);
              records := records self ++ logs |})
      end.
Proof.
  intros Hr Hrs. destruct sd as [ts dev r]. cbn in Hr. subst r.
  destruct (convert_readings_to_points_spec ts dev rs Hrs) as (colors & logs & E & _).
  exists colors, logs. unfold process. rewrite E.
  now destruct (map cartesian (parsed rs)).
Qed.


(** X12: the date shown under a figure is that of
    [latest_timestamp], which showing the scan of a selected
    timestamp never sets: once it has a value, every scan is shown
    with the local time of that value, whichever timestamp was
    selected, and when [time.localtime] raises for that value the
    callback raises the same; the number of points is that of the
    selected scan. *)
Theorem shown_timestamp_is_latest (t t0 : num) (visualizer v1 : @lidar num)
    (fig : figure) :
  latest_timestamp visualizer = Some t0 -> truth t0 = true ->
  process_scan_by_timestamp t visualizer = (Ok (Some fig), v1) ->
  exists points colors,
    point_cloud v1 = Some (points, colors)
    /\ update_point_cloud (Some t) visualizer
       = (match strftime_localtime (Some t0) with
          | Ok text =>
              Ok (Cloud figure fig (Some text) (Z.of_nat (List.length points)))
          | Raise e => Raise e
          end, v1).
Proof.
  intros Hlt Ht Hproc. unfold PointCloudServer.update_point_cloud. rewrite Hproc.
  unfold LidarVisualizer.process_scan_by_timestamp in Hproc.
  destruct (get_historical_scan_frame t visualizer) as (Hlt1 & _ & Hsd & _).
  destruct (get_historical_scan t visualizer) as [[[sd|]|e] self1]; cbn [fst snd] in *;
    try discriminate.
  destruct (Hsd sd eq_refl) as (dev & rows & Hrows & Hne & ->).
  destruct (process_scan (ScanDict (Some t) (Some dev) (Some (readings_of rows)))
              (readings_of rows) self1 eq_refl (readings_of_nonempty rows Hne))
    as (colors & logs & E).
  rewrite E in Hproc.
  destruct (map cartesian (parsed (readings_of rows))) as [|p ps]; [discriminate|].
  injection Hproc as <- <-. exists (p :: ps), colors. split; [reflexivity|].
  unfold get_latest_metadata, is_set. cbn [latest_timestamp point_cloud].
  rewrite Hlt1, Hlt, Ht. now destruct (strftime_localtime (Some t0)).
Qed.

(** X13: a download for a timestamp without readings does not fail:
    the point cloud kept from the scan shown before is written to the
    file named after the new timestamp, and that file is sent. *)
Theorem download_sends_previous_cloud (t : num) (visualizer : @lidar num)
    (old : list (point num) * list (color num)) (fs : @files num) :
  local_conn visualizer = true -> select_scan t = Ok [] ->
  point_cloud visualizer = Some old -> write_point_cloud (ply_path t) old = Ok tt ->
  exists v',
    download_point_cloud (Some t) visualizer fs
    = (Ok (Some (ply_path t)), v', (ply_path t, old) :: fs).
Proof.
  intros Hconn Hsel Hpc Hw. unfold PointCloudServer.download_point_cloud,
    LidarVisualizer.process_scan_by_timestamp, LidarVisualizer.get_historical_scan,
    get_connection, process, save_point_cloud.
  rewrite Hconn, Hsel. cbn [point_cloud LidarVisualizer.logger]. rewrite Hpc, Hw.
  eexists. reflexivity.
Qed.

End WithDatabase.

End LidarVisualizerFacts.


(** ** More on the point-cloud stages *)

Module CloudFacts.
Import Py Visualizer AdvancedVisualizer VisualizerSpec VisualizerFacts CloudSpec.
Import SortedFacts StatisticsFacts.

Section WithNumpy.
Context {num : Type} `{Float64 num}.

(** The loop of [convert_readings_to_points], in full. *)
Lemma convert_reading_loop (m : num) (rs : list (string * num)) :
  forall acc,
    fold_left (convert_reading m) rs acc
    = (fst (fst acc) ++ map cartesian (parsed rs),
       snd (fst acc) ++ map (colour_of m) (parsed rs),
       snd acc ++ map could_not_parse (unparsed rs)).
Proof.
  induction rs as [|[angle_key distance] rs IH]; intros [[points colors] logs].
  - cbn. now rewrite !app_nil_r.
  - cbn [fold_left parsed unparsed flat_map]. fold (parsed rs). fold (unparsed rs).
    rewrite IH. unfold convert_reading.
    destruct (parse_angle angle_key) as [angle_deg|e].
    + unfold colour_of, norm_distance. cbn [snd app map].
      destruct (colormap (if gt m zero then div distance m else zero)) as [[[r g] b] a].
      cbn [fst snd app map cartesian]. now rewrite <- !app_assoc.
    + cbn [fst snd app map]. now rewrite <- !app_assoc.
Qed.

Lemma parsed_unparsed_length (rs : list (string * num)) :
  (List.length (parsed rs) + List.length (unparsed rs) = List.length rs)%nat.
Proof.
  induction rs as [|[angle_key distance] rs IH]; [reflexivity|].
  cbn [parsed unparsed flat_map]. fold (parsed rs). fold (unparsed rs).
  destruct (parse_angle angle_key); cbn [app List.length]; lia.
Qed.

(** [convert_readings_to_points] on a scan with readings. *)
Lemma convert_readings_to_points_full (ts : option num) (dev : option string)
    (rs : list (string * num)) :
  rs <> [] ->
  exists max_distance,
    max_values (map snd rs) = Ok max_distance
    /\ convert_readings_to_points (Some (ScanDict ts dev (Some rs)))
       = (Ok (Some (map cartesian (parsed rs)),
              Some (map (colour_of max_distance) (parsed rs))),
          map could_not_parse (unparsed rs)).
Proof.
  intros Hrs. unfold convert_readings_to_points.
  assert (Hne : is_empty (ScanDict ts dev (Some rs)) = false)
    by (unfold is_empty; cbn; now destruct ts, dev).
  rewrite Hne. cbn [readings].
  destruct rs as [|[k d] rs]; [congruence|].
  destruct (max_values (map snd ((k, d) :: rs))) as [m|e] eqn:Em; [|discriminate].
  exists m. split; [reflexivity|]. rewrite convert_reading_loop. reflexivity.
Qed.

(** X14: no reading of a scan is lost silently: each one gives a
    point with its colour, or a warning that names its label; the
    points, the colours and the warnings keep the order of the
    readings. *)
Theorem every_reading_point_or_warning (ts : option num) (dev : option string)
    (rs : list (string * num)) :
  rs <> [] ->
  exists max_distance,
    max_values (map snd rs) = Ok max_distance
    /\ convert_readings_to_points (Some (ScanDict ts dev (Some rs)))
       = (Ok (Some (map cartesian (parsed rs)),
              Some (map (colour_of max_distance) (parsed rs))),
          map could_not_parse (unparsed rs))
    /\ (List.length (parsed rs) + List.length (unparsed rs) = List.length rs)%nat.
Proof.
  intros Hrs.
  destruct (convert_readings_to_points_full ts dev rs Hrs) as (m & Hm & E).
  exists m. split; [exact Hm|]. split; [exact E|apply parsed_unparsed_length].
Qed.

Lemma split_from_no_sep (sep : ascii) (s : string) :
  forall cur, no_sep sep s = true -> split_from sep cur s = [(cur ++ s)%string].
Proof.
  induction s as [|c s IH]; intros cur Hs; cbn.
  - f_equal. clear. induction cur as [|c cur IH]; cbn; congruence.
  - cbn in Hs. apply andb_true_iff in Hs as [Hc Hs].
    apply negb_true_iff in Hc. rewrite Hc, (IH _ Hs). f_equal.
    clear. induction cur as [|c0 cur IH]; cbn; congruence.
Qed.

Lemma split_from_sep (sep : ascii) (a rest : string) :
  forall cur,
    no_sep sep a = true ->
    split_from sep cur (a ++ String sep rest)
    = (cur ++ a)%string :: split_from sep EmptyString rest.
Proof.
  induction a as [|c a IH]; intros cur Ha; cbn.
  - rewrite Ascii.eqb_refl. f_equal. clear. induction cur as [|c cur IH]; cbn; congruence.
  - cbn in Ha. apply andb_true_iff in Ha as [Hc Ha].
    apply negb_true_iff in Hc. rewrite Hc, (IH _ Ha). f_equal.
    clear. induction cur as [|c0 cur IH]; cbn; congruence.
Qed.

Lemma parse_angle_fields (a b more : string) :
  no_sep "_" a = true -> no_sep "_" b = true ->
  parse_angle (a ++ "_" ++ b)
  = match float_of_string (num := num) b with
    | Some x => Ok x
    | None => Raise ValueError
    end
  /\ parse_angle (a ++ "_" ++ b ++ "_" ++ more) = parse_angle (num := num) (a ++ "_" ++ b)
  /\ parse_angle (num := num) a = Raise IndexError.
Proof.
  intros Ha Hb. unfold parse_angle, split. cbn [String.append].
  rewrite !(split_from_sep "_" a _ EmptyString Ha). cbn [String.append].
  rewrite (split_from_no_sep "_" b EmptyString Hb).
  rewrite (split_from_sep "_" b more EmptyString Hb).
  rewrite (split_from_no_sep "_" a EmptyString Ha). cbn [nth_error String.append].
  now destruct (float_of_string b).
Qed.

(** X15: the angle of a reading is read from the text between the
    first and the second underscore of its label, whatever stands
    before (it need not be [angle]) and whatever follows a second
    underscore; a label without underscore gives no angle. *)
Theorem parse_angle_reads_second_field (a b more : string) :
  no_sep "_" a = true -> no_sep "_" b = true ->
  let angle := match float_of_string (num := num) b with
               | Some x => Ok x
               | None => Raise ValueError
               end in
  parse_angle (a ++ "_" ++ b) = angle
  /\ parse_angle (a ++ "_" ++ b ++ "_" ++ more) = angle
  /\ parse_angle (num := num) a = Raise IndexError.
Proof.
  intros Ha Hb. cbv zeta.
  destruct (parse_angle_fields a b more Ha Hb) as (E1 & E2 & E3).
  rewrite E2, E1. now repeat split.
Qed.

End WithNumpy.

(** *** In binary64 *)

Section Extremes.
Variable f : float -> float -> float.
Variable R : float -> float -> Prop.
Hypothesis R_trans : forall a b c, R a b -> R b c -> R a c.
Hypothesis f_spec :
  forall a b, is_nan a = false -> is_nan b = false ->
              is_nan (f a b) = false /\ R (f a b) a /\ R (f a b) b.

Local Abbreviation bounds m p :=
  (R (fst (fst m)) (fst (fst p)) /\ R (snd (fst m)) (snd (fst p)) /\ R (snd m) (snd p)).

(** The reduction of [np.min] and [np.max] along the rows. *)
Lemma reduce_rows_bounds (rest : list (point float)) :
  forall (first : point float) (seen : list (point float)),
    numbers first = true -> forallb numbers rest = true ->
    (forall p, In p seen -> bounds first p) ->
    let m := reduce_rows f first rest in
    numbers m = true /\ (forall p, In p (seen ++ rest) -> bounds m p).
Proof.
  induction rest as [|[[px py] pz] rest IH]; intros [[ax ay] az] seen Hfirst Hrest Hseen.
  - cbn [reduce_rows fold_left]. split; [exact Hfirst|].
    intros p Hp. rewrite app_nil_r in Hp. now apply Hseen.
  - cbn [forallb] in Hrest. apply andb_prop in Hrest as [Hp Hrest].
    unfold numbers in Hfirst, Hp.
    apply andb_prop in Hfirst as [Hfirst Haz]. apply andb_prop in Hfirst as [Hax Hay].
    apply andb_prop in Hp as [Hp Hpz]. apply andb_prop in Hp as [Hpx Hpy].
    apply negb_true_iff in Hax, Hay, Haz, Hpx, Hpy, Hpz.
    destruct (f_spec ax px Hax Hpx) as (Nx & Ax & Px).
    destruct (f_spec ay py Hay Hpy) as (Ny & Ay & Py).
    destruct (f_spec az pz Haz Hpz) as (Nz & Az & Pz).
    unfold reduce_rows. cbn [fold_left].
    specialize (IH (f ax px, f ay py, f az pz) (seen ++ [(px, py, pz)])).
    unfold reduce_rows in IH. cbv zeta in IH.
    destruct IH as [Hm Hall].
    + unfold numbers. now rewrite Nx, Ny, Nz.
    + exact Hrest.
    + intros p Hin. apply in_app_or in Hin as [Hin|[<-|[]]].
      * destruct (Hseen p Hin) as (Sx & Sy & Sz). cbn [fst snd] in *.
        split; [apply (R_trans _ ax)|split; [apply (R_trans _ ay)|apply (R_trans _ az)]];
          assumption.
      * cbn [fst snd]. now repeat split.
    + cbv zeta. split; [exact Hm|].
      intros p Hin. apply Hall. rewrite <- app_assoc. exact Hin.
Qed.

End Extremes.

Section InBinary64.
Variables libm_cos libm_sin : float -> float.
Variable parse : string -> option float.
Variable cmap : float -> float * float * float * float.

Local Abbreviation numpy := (binary64 libm_cos libm_sin parse cmap).

Lemma np_minimum_spec (a b : float) :
  is_nan a = false -> is_nan b = false ->
  is_nan (@np_minimum float numpy a b) = false
  /\ leq (@np_minimum float numpy a b) a /\ leq (@np_minimum float numpy a b) b.
Proof.
  intros Ha Hb. cbn [np_minimum binary64]. rewrite Ha.
  destruct (flt a b) eqn:E.
  - split; [exact Ha|]. split; [now apply leq_refl|].
    apply fle_leq; [exact Ha|exact Hb|]. unfold Spec.fle. now apply flt_asym.
  - split; [exact Hb|]. split; [now apply fle_leq|now apply leq_refl].
Qed.

Lemma np_maximum_spec (a b : float) :
  is_nan a = false -> is_nan b = false ->
  is_nan (@np_maximum float numpy a b) = false
  /\ leq a (@np_maximum float numpy a b) /\ leq b (@np_maximum float numpy a b).
Proof.
  intros Ha Hb. cbn [np_maximum binary64]. rewrite Ha.
  destruct (flt b a) eqn:E.
  - split; [exact Ha|]. split; [now apply leq_refl|].
    apply fle_leq; [exact Hb|exact Ha|]. unfold Spec.fle. now apply flt_asym.
  - split; [exact Hb|]. split; [now apply fle_leq|now apply leq_refl].
Qed.

(** X17: for three points or more, none with a NaN among its
    coordinates, the corners that [calculate_object_dimensions] returns
    are those of a box that holds every point: each coordinate of each
    point lies between that of [min_coords] and that of [max_coords];
    no corner has a NaN coordinate, the width, depth and height are the
    rounded differences of the corners, and nothing is logged. *)
Theorem dimensions_box_holds_points (self : @visualizer float)
    (points : list (point float)) :
  (3 <= len points)%Z -> forallb numbers points = true ->
  exists d,
    @calculate_object_dimensions float numpy self points = (Some d, self)
    /\ (forall p, In p points -> within_box (min_coords d) (max_coords d) p)
    /\ numbers (min_coords d) = true /\ numbers (max_coords d) = true
    /\ (let '(lx, ly, lz) := min_coords d in
        let '(hx, hy, hz) := max_coords d in
        width d = fsub hx lx /\ depth d = fsub hy ly /\ height d = fsub hz lz).
Proof.
  intros Hlen Hnum. unfold calculate_object_dimensions.
  destruct (Z.ltb_spec (len points) 3) as [Hlt|_]; [lia|].
  destruct points as [|first rest]; [unfold len in Hlen; cbn in Hlen; lia|].
  cbn [forallb] in Hnum. apply andb_prop in Hnum as [Hfirst Hrest].
  assert (Hself : forall p, In p [first] ->
            leq (fst (fst first)) (fst (fst p)) /\ leq (snd (fst first)) (snd (fst p))
            /\ leq (snd first) (snd p)).
  { intros p [<-|[]]. destruct first as [[fx fy] fz]. unfold numbers in Hfirst.
    apply andb_prop in Hfirst as [Hf Hz]. apply andb_prop in Hf as [Hx Hy].
    apply negb_true_iff in Hx, Hy, Hz. cbn [fst snd].
    split; [|split]; now apply leq_refl. }
  assert (Hself' : forall p, In p [first] ->
            leq (fst (fst p)) (fst (fst first)) /\ leq (snd (fst p)) (snd (fst first))
            /\ leq (snd p) (snd first)).
  { intros p [<-|[]]. destruct (Hself first (or_introl eq_refl)) as (? & ? & ?).
    now repeat split. }
  pose proof (reduce_rows_bounds (@np_minimum float numpy) leq leq_trans np_minimum_spec
                rest first [first] Hfirst Hrest Hself) as [Nmin Hmin].
  pose proof (reduce_rows_bounds (@np_maximum float numpy) (fun a b => leq b a)
                (fun a b c Hab Hbc => leq_trans c b a Hbc Hab) np_maximum_spec
                rest first [first] Hfirst Hrest Hself') as [Nmax Hmax].
  cbv zeta in Hmin, Hmax, Nmin, Nmax.
  destruct (@reduce_rows float (@np_minimum float numpy) first rest) as [[lx ly] lz].
  destruct (@reduce_rows float (@np_maximum float numpy) first rest) as [[hx hy] hz].
  eexists. split; [reflexivity|].
  cbn [min_coords max_coords center width depth height sub binary64].
  split; [|split; [exact Nmin|split; [exact Nmax|now repeat split]]].
  intros [[x y] z] Hin. unfold within_box.
  destruct (Hmin (x, y, z) Hin) as (? & ? & ?).
  destruct (Hmax (x, y, z) Hin) as (? & ? & ?).
  cbn [fst snd] in *. now repeat split.
Qed.

End InBinary64.

End CloudFacts.


(** ** The test sender against the recorder and the visualizer *)

Module SenderFacts.
Import Spec Receiver SqliteFacts ReceiverFacts Sender.
Import Visualizer VisualizerSpec CloudSpec CloudFacts.

Lemma digits_no_sep (d : Decimal.uint) : no_sep "_" (NilEmpty.string_of_uint d) = true.
Proof. induction d; cbn; assumption || reflexivity. Qed.

Lemma str_no_sep (n : nat) : no_sep "_" (str n) = true.
Proof.
  unfold str, NilZero.string_of_uint.
  destruct (Nat.to_uint n) eqn:E; try (rewrite <- E; apply digits_no_sep). reflexivity.
Qed.

Section WithEnvironment.
Variable clock : nat -> float.
Variable statistics_mean : list float -> float.
Variable sort_unordered : list float -> list float.
Variable DEVICE_ID : string.
Variable draw : nat -> float.

Hypothesis clock_number : forall n, is_nan (clock n) = false.

Local Abbreviation on_message := (on_message clock statistics_mean sort_unordered).
Local Abbreviation message := (message DEVICE_ID draw).

Lemma message_well_formed (message_id : Z) (timestamp send_time : float) :
  - 2 ^ 63 <= message_id < 2 ^ 63 -> is_nan timestamp = false ->
  (forall i, In i angles -> is_nan (draw i) = false) ->
  scan_fields_ok (message message_id timestamp send_time) = true
  /\ send_time_ok (message message_id timestamp send_time) = true
  /\ readings_ok (message message_id timestamp send_time) = true.
Proof.
  intros Hid Hts Hdraw. unfold Sender.message, generate_test_data.
  split; [|split].
  - assert (Hb : bindable (PyInt message_id) = true).
    { unfold bindable, bind_param.
      destruct (Z.leb_spec (- 2 ^ 63) message_id); [|lia].
      destruct (Z.ltb_spec message_id (2 ^ 63)); [|lia]. reflexivity. }
    unfold scan_fields_ok, field_ok. cbn [app dict_get String.eqb Ascii.eqb Bool.eqb].
    rewrite Hb, (bound_number timestamp Hts). reflexivity.
  - reflexivity.
  - unfold readings_ok, reading_params. cbn [app dict_get String.eqb Ascii.eqb Bool.eqb].
    apply forallb_forall. intros r Hr. apply in_map_iff in Hr as [[k v] [<- Hk]].
    apply in_map_iff in Hk as [i [[= <- <-] Hi]].
    unfold insertable, bound_row. cbn [params bind_params bind_param].
    rewrite (bound_number (draw i) (Hdraw i Hi)). reflexivity.
Qed.

(** X18: every message of the test sender whose timestamp and
    distances are numbers is stored by the recorder as it was sent, when
    the recorder's clock gives numbers: one Scan row with the sender's
    timestamp, device and message number and the latency of the message
    (null when the latency is a NaN, which finite times never give),
    then its 36 readings under the row's id, labelled [angle_0] to
    [angle_350]; the only other row that may follow is a statistics
    snapshot. *)
Theorem sender_message_stored (message_id : Z) (timestamp send_time : float)
    (s : state) (c : connection) :
  db_connection s = Some c -> closed c = false ->
  - 2 ^ 63 <= message_id < 2 ^ 63 -> is_nan timestamp = false ->
  (forall i, In i angles -> is_nan (draw i) = false) ->
  let receive_time := clock (ticks s) in
  let latency := fmul (fsub receive_time send_time) f1000 in
  let data_id := Z.of_nat (S (List.length (scans (rows c)))) in
  let readings :=
    map (fun i => SensorReading data_id (PyStr ("angle_" ++ str i)) (PyFloat (draw i)))
      angles in
  exists s' c' extra,
    on_message (Ok (PyDict (message message_id timestamp send_time))) s = (Ok tt, s')
    /\ db_connection s' = Some c'
    /\ rows c'
       = rows c
         ++ SensorData (PyFloat timestamp) (PyFloat receive_time) (PyInt message_id)
              (PyStr DEVICE_ID) (if is_nan latency then PyNone else PyFloat latency)
            :: readings ++ extra
    /\ (is_finite receive_time = true -> is_finite send_time = true ->
        is_nan latency = false)
    /\ (extra = [] \/ exists stats, is_performance_stats stats = true /\ extra = [stats])
    /\ message_counts s' = message_counts s + 1
    /\ latencies s' = latencies s ++ [latency]
    /\ List.length readings = 36%nat.
Proof.
  intros Hdb Hc Hid Hts Hdraw. cbv zeta.
  destruct (message_well_formed message_id timestamp send_time Hid Hts Hdraw)
    as (Hf & Hs & Hr).
  destruct (on_message_spec clock statistics_mean sort_unordered clock_number
              _ s c Hdb Hc Hf Hs)
    as (done & c1 & c' & lrt' & tk' & lg' & E & _ & _ & Hc1 & Hc' & _).
  specialize (Hc1 Hr). cbv zeta in Hc1.
  set (latency := fmul (fsub (clock (ticks s)) send_time) f1000) in *.
  change (latency_of (message message_id timestamp send_time) (clock (ticks s)))
    with (Some latency) in *.
  assert (Hrow : scan_row (message message_id timestamp send_time) (clock (ticks s))
                   (clock (S (ticks s))) (Some latency)
                 = SensorData (PyFloat timestamp) (PyFloat (clock (ticks s)))
                     (PyInt message_id) (PyStr DEVICE_ID)
                     (if is_nan latency then PyNone else PyFloat latency)).
  { unfold scan_row, scan_params, bound_row, Sender.message, generate_test_data.
    cbn [app dict_get dict_get_default String.eqb Ascii.eqb Bool.eqb value_of_latency].
    rewrite (bound_number timestamp Hts), (bound_number _ (clock_number (ticks s))).
    cbn [bound]. now destruct latency. }
  rewrite Hrow in Hc1.
  set (row := SensorData (PyFloat timestamp) (PyFloat (clock (ticks s)))
                (PyInt message_id) (PyStr DEVICE_ID)
                (if is_nan latency then PyNone else PyFloat latency)) in *.
  assert (Hid' : lastrowid (add_rows c [row])
                 = Z.of_nat (S (List.length (scans (rows c))))).
  { unfold lastrowid, add_rows, rows. cbn [durable pending].
    rewrite app_assoc, scans_app, length_app. cbn. f_equal. lia. }
  rewrite Hid' in Hc1.
  set (data_id := Z.of_nat (S (List.length (scans (rows c))))) in *.
  assert (Hrd : reading_rows data_id (message message_id timestamp send_time)
                = map (fun i => SensorReading data_id (PyStr ("angle_" ++ str i))
                                  (PyFloat (draw i))) angles).
  { unfold reading_rows, reading_params, Sender.message, generate_test_data.
    cbn [app dict_get String.eqb Ascii.eqb Bool.eqb]. rewrite !map_map.
    apply map_ext_in. intros i Hi. unfold bound_row.
    now rewrite (bound_number (draw i) (Hdraw i Hi)). }
  rewrite Hrd in Hc1.
  set (readings := map (fun i => SensorReading data_id (PyStr ("angle_" ++ str i))
                                   (PyFloat (draw i))) angles) in *.
  assert (Hrows1 : rows c1 = rows c ++ row :: readings).
  { rewrite Hc1. destruct (_ =? 0); [rewrite rows_committed|]; apply rows_add_rows. }
  eexists. exists c'.
  exists (skipn (List.length (rows c1)) (rows c')).
  split; [exact E|]. cbn [db_connection message_counts latencies].
  split; [reflexivity|].
  assert (Hlat : is_finite (clock (ticks s)) = true -> is_finite send_time = true ->
                 is_nan latency = false).
  { intros Hr' Hs'. now apply FloatFacts.latency_number. }
  destruct Hc' as [->|(_ & _ & _ & stats & Hstats & ->)].
  - rewrite skipn_all, Hrows1, app_nil_r.
    split; [reflexivity|]. split; [exact Hlat|]. split; [now left|]. now repeat split.
  - rewrite rows_committed, rows_add_rows, skipn_app, skipn_all, Nat.sub_diag.
    cbn [skipn app]. rewrite Hrows1, <- app_assoc. cbn [app].
    split; [reflexivity|]. split; [exact Hlat|]. split; [right; now exists stats|].
    now repeat split.
Qed.

End WithEnvironment.

Section WithNumpy.
Context {num : Type} `{Float64 num}.

(** X19: the visualizer reads an angle from every label of the test
    sender: when [float] accepts the decimal numerals, a scan of the
    sender gives 36 readings with the angles 0 to 350 and no label is
    refused. *)
Theorem sender_labels_all_parse (angle_of : nat -> num) (distance : nat -> num) :
  (forall i, In i angles -> float_of_string (str i) = Some (angle_of i)) ->
  let rs := map (fun i => (("angle_" ++ str i)%string, distance i)) angles in
  parsed rs = map (fun i => (angle_of i, distance i)) angles
  /\ unparsed rs = []
  /\ List.length (parsed rs) = 36%nat.
Proof.
  intros Hfloat. cbv zeta.
  assert (Hparse : forall i, In i angles ->
             parse_angle (num := num) ("angle_" ++ str i) = Ok (angle_of i)).
  { intros i Hi.
    destruct (parse_angle_fields "angle" (str i) "" eq_refl (str_no_sep i))
      as (E & _ & _).
    rewrite (Hfloat i Hi) in E. exact E. }
  assert (Hgen : forall l : list nat,
             (forall i, In i l -> In i angles) ->
             parsed (map (fun i => (("angle_" ++ str i)%string, distance i)) l)
             = map (fun i => (angle_of i, distance i)) l
             /\ unparsed (map (fun i => (("angle_" ++ str i)%string, distance i)) l) = []).
  { induction l as [|i l IH]; intros Hl; [now split|].
    destruct IH as [IHp IHu]; [intros j Hj; apply Hl; now right|].
    cbn [map parsed unparsed flat_map].
    fold (parsed (map (fun i => (("angle_" ++ str i)%string, distance i)) l)).
    fold (unparsed (map (fun i => (("angle_" ++ str i)%string, distance i)) l)).
    rewrite Hparse, IHp, IHu by (apply Hl; now left). now split. }
  destruct (Hgen angles (fun i Hi => Hi)) as [Hp Hu]. rewrite Hp, Hu.
  split; [reflexivity|]. split; [reflexivity|]. now rewrite length_map.
Qed.

End WithNumpy.

End SenderFacts.


(** ** Clustering and the pipeline *)

Module PipelineFacts.
Import Visualizer LidarVisualizer AdvancedVisualizer AdvancedPipeline.

Lemma insert_unique_in (x y : Z) (l : list Z) :
  In y (insert_unique x l) <-> y = x \/ In y l.
Proof.
  induction l as [|z l IH]; cbn.
  - intuition congruence.
  - destruct (Z.ltb_spec x z); [cbn; intuition congruence|].
    destruct (Z.eqb_spec x z); [subst; cbn; intuition congruence|].
    cbn. rewrite IH. intuition congruence.
Qed.

Lemma insert_unique_sorted (x : Z) (l : list Z) :
  StronglySorted Z.lt l -> StronglySorted Z.lt (insert_unique x l).
Proof.
  induction l as [|z l IH]; intros Hl; cbn.
  - repeat constructor.
  - inversion Hl as [|? ? Hs Hall]; subst.
    destruct (Z.ltb_spec x z).
    + constructor; [exact Hl|]. constructor; [exact H|].
      eapply Forall_impl; [|exact Hall]. cbn. lia.
    + destruct (Z.eqb_spec x z); [exact Hl|].
      constructor; [now apply IH|]. apply Forall_forall. intros y Hy.
      apply insert_unique_in in Hy as [->|Hy]; [lia|].
      now apply (proj1 (Forall_forall _ _) Hall).
Qed.

Lemma np_unique_in (l : list Z) (y : Z) : In y (np_unique l) <-> In y l.
Proof.
  induction l as [|x l IH]; cbn; [tauto|]. rewrite insert_unique_in, IH. intuition congruence.
Qed.

Lemma np_unique_sorted (l : list Z) : StronglySorted Z.lt (np_unique l).
Proof.
  induction l as [|x l IH]; cbn; [constructor|]. now apply insert_unique_sorted.
Qed.

Lemma sorted_nodup (l : list Z) : StronglySorted Z.lt l -> NoDup l.
Proof.
  induction 1 as [|x l Hs IH Hall]; constructor; [|exact IH].
  intros Hin. apply (proj1 (Forall_forall _ _) Hall) in Hin. lia.
Qed.

Lemma filter_nodup {A : Type} (f : A -> bool) (l : list A) : NoDup l -> NoDup (filter f l).
Proof.
  induction 1 as [|x l Hx Hl IH]; cbn; [constructor|].
  destruct (f x); [|exact IH]. constructor; [|exact IH].
  intros Hin. apply filter_In in Hin. tauto.
Qed.

Section WithPoints.
Context {A : Type}.

Lemma take_where (label : Z) (labels : list Z) :
  forall (points pre : list A),
    List.length points = List.length labels ->
    take (pre ++ points)
      (map fst (filter (fun '(_, l) => l =? label)
                  (combine (seq (List.length pre) (List.length labels)) labels)))
    = Ok (group points labels label).
Proof.
  induction labels as [|l labels IH]; intros [|p points] pre Hlen; try discriminate.
  - reflexivity.
  - cbn in Hlen. injection Hlen as Hlen.
    cbn [List.length seq combine filter]. unfold group. cbn [combine filter].
    specialize (IH points (pre ++ [p]) Hlen).
    rewrite <- app_assoc, length_app in IH. cbn [app List.length] in IH.
    rewrite Nat.add_1_r in IH.
    destruct (l =? label).
    + cbn [map fst take]. rewrite nth_error_app2, Nat.sub_diag by lia. cbn [nth_error].
      now rewrite IH.
    + exact IH.
Qed.

Lemma take_group (points : list A) (labels : list Z) (label : Z) :
  List.length points = List.length labels ->
  take points (np_where_eq labels label) = Ok (group points labels label).
Proof. intros Hlen. exact (take_where label labels points [] Hlen). Qed.

Lemma group_cons (p : A) (l : Z) (points : list A) (labels : list Z) (k : Z) :
  group (p :: points) (l :: labels) k
  = if l =? k then p :: group points labels k else group points labels k.
Proof. unfold group. cbn. now destruct (l =? k). Qed.

(** The groups of distinct labels that cover the labels in use hold
    each labelled point once. *)
Lemma groups_permutation (ks : list Z) :
  NoDup ks -> (forall k, In k ks -> 0 <= k) ->
  forall (points : list A) (labels : list Z),
    (forall l, In l labels -> 0 <= l -> In l ks) ->
    Permutation (List.concat (map (group points labels) ks)) (labelled points labels).
Proof.
  intros Hnd Hpos points. induction points as [|p points IH]; intros labels Hcover.
  - unfold group, labelled. cbn. clear. induction ks; cbn; [constructor|assumption].
  - destruct labels as [|l labels].
    { unfold group, labelled. cbn. clear. induction ks; cbn; [constructor|assumption]. }
    assert (Hcover' : forall l0, In l0 labels -> 0 <= l0 -> In l0 ks)
      by (intros l0 H0; apply Hcover; now right).
    specialize (IH labels Hcover').
    unfold labelled. cbn [combine filter]. fold (labelled points labels).
    destruct (Z.leb_spec 0 l) as [Hl|Hl].
    + cbn [map fst].
      destruct (in_split l ks (Hcover l (or_introl eq_refl) Hl)) as (ks1 & ks2 & ->).
      apply NoDup_remove_2 in Hnd.
      assert (Hsame : forall ks', ~ In l ks' ->
                map (group (p :: points) (l :: labels)) ks'
                = map (group points labels) ks').
      { intros ks' Hks'. apply map_ext_in. intros k Hk. rewrite group_cons.
        destruct (Z.eqb_spec l k); [subst; contradiction|reflexivity]. }
      rewrite map_app in *. cbn [map] in *. rewrite concat_app in *. cbn [List.concat] in *.
      rewrite (Hsame ks1), (Hsame ks2)
        by (intros Hin; apply Hnd, in_or_app; tauto).
      rewrite group_cons, Z.eqb_refl. cbn [app].
      symmetry. apply Permutation_cons_app. symmetry. exact IH.
    + rewrite <- IH. apply Permutation_refl'. f_equal. apply map_ext_in.
      intros k Hk. rewrite group_cons. specialize (Hpos k Hk).
      destruct (Z.eqb_spec l k); [lia|reflexivity].
Qed.

Lemma group_nonempty (points : list A) (labels : list Z) (k : Z) :
  List.length points = List.length labels -> In k labels -> group points labels k <> [].
Proof.
  revert points. induction labels as [|l labels IH]; intros [|p points] Hlen Hin;
    try discriminate; [destruct Hin|].
  rewrite group_cons. destruct (Z.eqb_spec l k); [discriminate|].
  destruct Hin as [->|Hin]; [congruence|]. apply IH; [now injection Hlen|exact Hin].
Qed.

End WithPoints.

Section WithOpen3d.
Context {num : Type} `{Float64 num}.
Variable cluster_dbscan : list (point num) -> num -> Z -> result (list Z).

Lemma gather_groups (points : list (point num)) (labels : list Z) (ks : list Z) :
  List.length points = List.length labels ->
  gather points labels ks = Ok (map (group points labels) ks).
Proof.
  intros Hlen. induction ks as [|k ks IH]; [reflexivity|].
  cbn [gather map]. now rewrite (take_group points labels k Hlen), IH.
Qed.

(** X20: when the clustering gives one label per point, the clusters
    returned are a partition of the points that are not noise: every
    point with a label that is not negative is in one cluster, no
    other point is in any, and no cluster is empty. *)
Theorem clusters_partition_labelled_points (self : @visualizer num)
    (points : list (point num)) (eps : num) (min_points : Z) (labels : list Z) :
  min_points <= len points ->
  cluster_dbscan points eps min_points = Ok labels ->
  List.length labels = List.length points ->
  exists clusters,
    cluster_points cluster_dbscan self points eps min_points
    = ((clusters, labels), logger INFO "Clustering found" [PyInt (len clusters)] self)
    /\ Permutation (List.concat clusters) (labelled points labels)
    /\ Forall (fun cluster => cluster <> []) clusters.
Proof.
  intros Hmin Hdb Hlen. unfold cluster_points.
  destruct (Z.ltb_spec (len points) min_points); [lia|]. rewrite Hdb.
  rewrite gather_groups by congruence.
  eexists. split; [reflexivity|]. split.
  - apply groups_permutation.
    + apply filter_nodup, sorted_nodup, np_unique_sorted.
    + intros k Hk. apply filter_In in Hk as [_ Hk]. now apply Z.leb_le.
    + intros l Hl Hpos. apply filter_In. split; [now apply np_unique_in|].
      now apply Z.leb_le.
  - apply Forall_forall. intros cluster Hc. apply in_map_iff in Hc as (k & <- & Hk).
    apply filter_In in Hk as [Hk _]. apply (proj1 (np_unique_in _ _)) in Hk.
    apply group_nonempty; [congruence|exact Hk].
Qed.

End WithOpen3d.

Section WithPipeline.
Context {num : Type} `{Float64 num}.
Variable remove_statistical_outlier :
  list (point num) -> Z -> num -> result (list (point num) * list nat).
Variable segment_plane :
  list (point num) -> num -> Z -> Z -> result (@plane_model num * list nat).
Variable select_by_index : list (point num) -> list nat -> bool -> list (point num).
Variable cluster_dbscan : list (point num) -> num -> Z -> result (list Z).
Variable truth : num -> bool.
Variable sqlite3_connect : result unit.
Variable select_max_timestamp : result (option num).
Variable select_scan : num -> result (list (@joined_row num)).
Variable colors_at : list (color num) -> list nat -> result (list (color num)).
Variable colors_outside : list (color num) -> Z -> list nat -> result (list (color num)).
Variable ten thirty : num.
Variable figure : Type.
Variable enhanced_figure :
  list (point num) -> list (color num) -> list (point num) -> list (color num) ->
  list (point num) -> list (color num) -> list (list (point num)) -> option num -> figure.

Local Abbreviation filter_step := (filter_step remove_statistical_outlier colors_at).
Local Abbreviation ground_step :=
  (ground_step segment_plane select_by_index colors_at colors_outside ten).
Local Abbreviation cluster_step := (cluster_step cluster_dbscan thirty).
Local Abbreviation process_scan_with_advanced_features :=
  (process_scan_with_advanced_features remove_statistical_outlier segment_plane
     select_by_index cluster_dbscan truth sqlite3_connect select_max_timestamp
     select_scan colors_at colors_outside ten thirty figure enhanced_figure).

Lemma quiet_refl (self : @visualizer num) : without_too_few_points self self.
Proof. exists []. split; [now rewrite app_nil_r|constructor]. Qed.

Lemma quiet_trans (a b c : @visualizer num) :
  without_too_few_points a b -> without_too_few_points b c ->
  without_too_few_points a c.
Proof.
  intros (n1 & E1 & F1) (n2 & E2 & F2). exists (n1 ++ n2). split.
  - now rewrite E2, E1, app_assoc.
  - apply Forall_app. now split.
Qed.

Lemma quiet_logger (lvl : level) (m : string) (a : list value) (self : @visualizer num) :
  too_few_points (LogRecord lvl m a) = false ->
  without_too_few_points self (logger lvl m a self).
Proof. intros Hm. exists [LogRecord lvl m a]. split; [reflexivity|]. now constructor. Qed.

Lemma quiet_ground_plane (self : @visualizer num) (g : option (@plane_model num)) :
  without_too_few_points self {| ground_plane := g; logs := logs self |}.
Proof. exists []. split; [cbn; now rewrite app_nil_r|constructor]. Qed.

Lemma quiet_filter_outliers (self : @visualizer num) (points : list (point num)) :
  20 < len points ->
  without_too_few_points self
    (snd (filter_outliers remove_statistical_outlier self points 20 two)).
Proof.
  intros Hlen. unfold filter_outliers.
  destruct (Z.ltb_spec (len points) (20 + 1)); [lia|].
  destruct (remove_statistical_outlier points 20 two) as [[fp idx]|e]; cbn [snd];
    now apply quiet_logger.
Qed.

Lemma quiet_segment_ground_plane (self : @visualizer num) (points : list (point num)) :
  3 < len points ->
  without_too_few_points self
    (snd (segment_ground_plane segment_plane select_by_index self points ten 3 100)).
Proof.
  intros Hlen. unfold segment_ground_plane.
  destruct (Z.ltb_spec (len points) 3); [lia|].
  destruct (segment_plane points ten 3 100) as [[model inliers]|e]; cbn [snd].
  - eapply quiet_trans; [apply quiet_ground_plane|].
    eapply quiet_trans; now apply quiet_logger.
  - now apply quiet_logger.
Qed.

Lemma quiet_cluster_points (self : @visualizer num) (points : list (point num)) :
  10 < len points ->
  without_too_few_points self (snd (cluster_points cluster_dbscan self points thirty 10)).
Proof.
  intros Hlen. unfold cluster_points.
  destruct (Z.ltb_spec (len points) 10); [lia|].
  destruct (cluster_dbscan points thirty 10) as [labels|e]; cbn [snd];
    [|now apply quiet_logger].
  destruct (gather _ _ _); cbn [snd]; now apply quiet_logger.
Qed.

Lemma quiet_calculate_object_dimensions (self : @visualizer num)
    (points : list (point num)) :
  without_too_few_points self (snd (calculate_object_dimensions self points)).
Proof.
  unfold calculate_object_dimensions.
  destruct (len points <? 3); [now apply quiet_logger|].
  destruct points as [|p rest]; [now apply quiet_logger|].
  destruct (reduce_rows np_minimum p rest) as [[minx miny] minz].
  destruct (reduce_rows np_maximum p rest) as [[maxx maxy] maxz].
  apply quiet_refl.
Qed.

Lemma quiet_dimensions_loop (clusters : list (list (point num))) :
  forall (self : @visualizer num) (i : Z) (acc : list (@cluster_dimension num)),
    without_too_few_points self (snd (dimensions_loop self i clusters acc)).
Proof.
  induction clusters as [|cluster rest IH]; intros self i acc; cbn [dimensions_loop].
  - apply quiet_refl.
  - pose proof (quiet_calculate_object_dimensions self cluster) as Hq.
    destruct (calculate_object_dimensions self cluster) as [dims self1].
    eapply quiet_trans; [exact Hq|apply IH].
Qed.

Lemma quiet_filter_step (flag : bool) (self : @visualizer num)
    (points : list (point num)) (colors : list (color num)) :
  without_too_few_points self (snd (filter_step flag self points colors)).
Proof.
  unfold AdvancedPipeline.filter_step.
  destruct flag; cbn [andb]; [|apply quiet_refl].
  destruct (Z.ltb_spec 20 (len points)); [|apply quiet_refl].
  pose proof (quiet_filter_outliers self points ltac:(assumption)) as Hq.
  destruct (filter_outliers remove_statistical_outlier self points 20 two)
    as [[fp idx] self1].
  now destruct (colors_at colors idx).
Qed.

Lemma quiet_ground_step (flag : bool) (self : @visualizer num)
    (points : list (point num)) (colors : list (color num)) :
  without_too_few_points self (snd (ground_step flag self points colors)).
Proof.
  unfold AdvancedPipeline.ground_step.
  destruct flag; cbn [andb]; [|apply quiet_refl].
  destruct (Z.ltb_spec 3 (len points)); [|apply quiet_refl].
  pose proof (quiet_segment_ground_plane self points ltac:(assumption)) as Hq.
  destruct (segment_ground_plane segment_plane select_by_index self points ten 3 100)
    as [[[gp op] gi] self1].
  destruct (0 <? len gi); [|exact Hq].
  destruct (colors_at colors gi); [|exact Hq].
  now destruct (colors_outside colors (len points) gi).
Qed.

Lemma quiet_cluster_step (flag : bool) (self : @visualizer num)
    (objects : list (point num)) :
  without_too_few_points self (snd (cluster_step flag self objects)).
Proof.
  unfold AdvancedPipeline.cluster_step.
  destruct flag; cbn [andb]; [|apply quiet_refl].
  destruct (Z.ltb_spec 10 (len objects)); [|apply quiet_refl].
  pose proof (quiet_cluster_points self objects ltac:(assumption)) as Hq.
  destruct (cluster_points cluster_dbscan self objects thirty 10)
    as [[found labels] self1].
  destruct (0 <? len found); [|exact Hq].
  pose proof (quiet_dimensions_loop found self1 0 []) as Hd.
  destruct (dimensions_loop self1 0 found []) as [dims self2].
  exact (quiet_trans _ _ _ Hq Hd).
Qed.

(** X21: the pipeline calls the outlier filter, the ground
    segmentation and the clustering only with more points than each
    of them asks for, so the warnings of these stages for too few
    points are never logged by it; whatever the scan and the
    libraries answer, it only adds records to the log. *)
Theorem pipeline_never_warns_of_too_few_points (timestamp : option num)
    (filter_outliers segment_ground cluster_objects : bool)
    (base : @lidar num) (self : @visualizer num) :
  without_too_few_points self
    (snd (snd (process_scan_with_advanced_features timestamp filter_outliers
                 segment_ground cluster_objects (base, self)))).
Proof.
  unfold AdvancedPipeline.process_scan_with_advanced_features.
  match goal with
  | |- context [let '(scan, base) := ?X in _] => destruct X as [[[sd|]|e] base1]
  end; cbn [snd]; try apply quiet_refl.
  destruct (convert_readings_to_points (Some sd)) as [[[[[|p ps]|] [colors|]]|e] logs];
    cbn [snd]; try apply quiet_refl.
  pose proof (quiet_filter_step filter_outliers self (p :: ps) colors) as H1.
  destruct (filter_step filter_outliers self (p :: ps) colors) as [[[fp fc]|e] self1];
    cbn [snd] in *; [|exact H1].
  pose proof (quiet_ground_step segment_ground self1 fp fc) as H2.
  destruct (ground_step segment_ground self1 fp fc)
    as [[[[gp gc] [op oc]]|e] self2]; cbn [snd] in *;
    [|exact (quiet_trans _ _ _ H1 H2)].
  pose proof (quiet_cluster_step cluster_objects self2 op) as H3.
  destruct (cluster_step cluster_objects self2 op) as [[found dims] self3].
  cbn [snd] in *. exact (quiet_trans _ _ _ H1 (quiet_trans _ _ _ H2 H3)).
Qed.

(** X22: when the plane fit of the ground segmentation raises, the
    pipeline goes on with the stage's fallback: all the points of the
    scan are counted and drawn as ground, none as object, nothing is
    clustered, and the only trace of the failure is an error record
    in the log. *)
Theorem failed_plane_fit_counts_all_as_ground (cluster_objects : bool)
    (base base1 : @lidar num) (self : @visualizer num) (sd : scan_dict num)
    (points : list (point num)) (colors : list (color num)) (logs : list log_record)
    (e : exn) :
  get_latest_scan truth sqlite3_connect select_max_timestamp select_scan base
  = (Ok (Some sd), base1) ->
  convert_readings_to_points (Some sd) = (Ok (Some points, Some colors), logs) ->
  3 < len points ->
  segment_plane points ten 3 100 = Raise e ->
  process_scan_with_advanced_features None false true cluster_objects (base, self)
  = (Ok (Some
           (enhanced_figure points colors points [] [] [] [] (Visualizer.timestamp sd),
            {| scan_timestamp := Visualizer.timestamp sd;
               original_points := len points;
               filtered_points := len points;
               ground_points := len points;
               object_points := 0;
               clusters := 0;
               cluster_dimensions := None |})),
     (with_records logs base1,
      logger ERROR "Error in ground plane segmentation" [] self)).
Proof.
  intros Hscan Hconv Hlen Hfit.
  unfold AdvancedPipeline.process_scan_with_advanced_features.
  rewrite Hscan, Hconv.
  destruct points as [|p ps]; [unfold len in Hlen; cbn in Hlen; lia|].
  unfold AdvancedPipeline.filter_step, AdvancedPipeline.ground_step. cbn [andb].
  destruct (Z.ltb_spec 3 (len (p :: ps))); [|lia].
  unfold segment_ground_plane.
  destruct (Z.ltb_spec (len (p :: ps)) 3); [lia|]. rewrite Hfit.
  unfold AdvancedPipeline.cluster_step.
  now destruct cluster_objects.
Qed.

End WithPipeline.

End PipelineFacts.


(** ** Sample runs of the further statements *)

Module FurtherRuns.
Import Py Spec Receiver ReceiverFacts ReceiverRuns Invariants ReceiverRobust StatisticsFacts.
Import Visualizer VisualizerSpec LidarVisualizer PointCloudServer AdvancedVisualizer.
Import CloudSpec CloudFacts LidarVisualizerFacts Sender SenderFacts.
Import AdvancedPipeline PipelineFacts Samples.

Lemma on_message_never_raises_witness :
  fst (on_message brisk_clock naive_mean sort_ordered sample_payload (listening brisk_clock)) = Ok tt.
Proof.
  exact (on_message_never_raises brisk_clock naive_mean sort_ordered sample_payload
           (listening brisk_clock) I).
Defined.

Lemma deliver_only_grows_witness :
  fst (deliver brisk_clock naive_mean sort_ordered mixed_payloads (listening brisk_clock)) = Ok tt
  /\ extends (listening brisk_clock)
       (snd (deliver brisk_clock naive_mean sort_ordered mixed_payloads (listening brisk_clock)))
  /\ message_counts
       (snd (deliver brisk_clock naive_mean sort_ordered mixed_payloads (listening brisk_clock)))
     <= message_counts (listening brisk_clock) + 4
  /\ scan_count (snd (deliver brisk_clock naive_mean sort_ordered mixed_payloads (listening brisk_clock)))
     - scan_count (listening brisk_clock)
     <= message_counts
          (snd (deliver brisk_clock naive_mean sort_ordered mixed_payloads (listening brisk_clock)))
        - message_counts (listening brisk_clock).
Proof.
  exact (deliver_only_grows brisk_clock naive_mean sort_ordered mixed_payloads (listening brisk_clock)
           ltac:(repeat constructor)).
Defined.

Lemma non_dict_payload_not_stored_witness :
  on_message brisk_clock naive_mean sort_ordered (Ok (PyList [PyStr "x"])) (listening brisk_clock)
  = (Ok tt,
     logged_error "Error processing message"
       (set_message_counts (message_counts (listening brisk_clock) + 1)
          (set_ticks (S (ticks (listening brisk_clock))) (listening brisk_clock)))).
Proof.
  exact (non_dict_payload_not_stored brisk_clock naive_mean sort_ordered (PyList [PyStr "x"])
           (listening brisk_clock) eq_refl).
Defined.

Lemma database_error_commits_witness :
  store_message brisk_clock (PyDict null_reading_items) (brisk_clock 2) None
    (listening brisk_clock)
  = (Ok tt,
     upd (listening brisk_clock)
       (committed
          (add_rows connect
             [scan_row null_reading_items (brisk_clock 2) (brisk_clock 2) None;
              SensorReading 1 (PyStr "angle_0") (PyFloat f100)]))
       3 [LogRecord INFO "Database ready" []; LogRecord INFO "Connected to broker" [];
          LogRecord ERROR "Database error" []]).
Proof.
  exact (database_error_commits brisk_clock null_reading_items (brisk_clock 2) None
           (listening brisk_clock) connect
           [scan_params null_reading_items (brisk_clock 2) (brisk_clock 2) None;
            SensorReading 1 (PyStr "angle_0") (PyFloat f100)]
           (SensorReading 1 (PyStr "angle_90") PyNone) []
           eq_refl eq_refl eq_refl eq_refl eq_refl).
Defined.

Lemma unbindable_message_counted_witness :
  on_message brisk_clock naive_mean sort_ordered (Ok (PyDict huge_id_items)) (listening brisk_clock)
  = (Ok tt,
     State [fmul (fsub (brisk_clock 2) (S754_zero false)) f1000] 1
       (Some (brisk_clock 1)) (brisk_clock 0) (Some connect) 4
       [LogRecord INFO "Database ready" []; LogRecord INFO "Connected to broker" [];
        LogRecord ERROR "Error processing message" []]).
Proof.
  exact (unbindable_message_counted brisk_clock naive_mean sort_ordered huge_id_items
           (listening brisk_clock) connect []
           (scan_params huge_id_items (brisk_clock 2) (brisk_clock 3)
              (latency_of huge_id_items (brisk_clock 2)))
           [] eq_refl eq_refl eq_refl eq_refl eq_refl eq_refl).
Defined.

Lemma signal_shutdown_witness :
  (exists c',
      db_connection (snd (main_interrupted brisk_clock naive_mean sort_ordered (listening brisk_clock)))
      = Some c'
      /\ closed c' = true /\ pending c' = [] /\ prefix_of (rows connect) (durable c'))
  /\ (fst (report_statistics brisk_clock naive_mean sort_ordered
             (snd (Receiver.logger INFO "Shutting down receiver..." [] (listening brisk_clock))))
      = Ok tt ->
      fst (main_interrupted brisk_clock naive_mean sort_ordered (listening brisk_clock))
      = Raise Sqlite3Error)
  /\ (forall e,
        fst (report_statistics brisk_clock naive_mean sort_ordered
               (snd (Receiver.logger INFO "Shutting down receiver..." [] (listening brisk_clock))))
        = Raise e ->
        fst (main_interrupted brisk_clock naive_mean sort_ordered (listening brisk_clock)) = Ok tt
        /\ In (LogRecord ERROR "Error in main" [])
             (log (snd (main_interrupted brisk_clock naive_mean sort_ordered (listening brisk_clock))))).
Proof.
  exact (signal_shutdown brisk_clock naive_mean sort_ordered (listening brisk_clock) connect
           eq_refl eq_refl).
Defined.

Lemma reported_latencies_ordered_witness :
  exists mn mx p95,
    In (LogRecord INFO "Latency (ms)"
          [PyFloat (naive_mean (latencies after_three)); PyFloat mn; PyFloat mx; PyFloat p95])
       (log (snd (report_statistics brisk_clock naive_mean sort_ordered after_three)))
    /\ In mn (latencies after_three) /\ In mx (latencies after_three)
    /\ In p95 (latencies after_three)
    /\ (forall x, In x (latencies after_three) -> leq mn x /\ leq x mx).
Proof.
  eapply (reported_latencies_ordered brisk_clock naive_mean sort_ordered after_three).
  - vm_compute. discriminate.
  - vm_compute. reflexivity.
  - vm_compute. reflexivity.
  - vm_compute. reflexivity.
  - vm_compute. reflexivity.
Defined.

Lemma p95_of_few_is_last_witness :
  exists front p,
    p95_of sort_ordered [f100; f50] = Ok p
    /\ sorted sort_ordered [f100; f50] = front ++ [p]
    /\ (forall x, In x [f100; f50] -> leq x p).
Proof.
  apply (p95_of_few_is_last sort_ordered [f100; f50]); [discriminate|reflexivity|cbn; lia].
Defined.

Lemma historical_scan_last_reading_wins_witness :
  exists dev items,
    @get_historical_scan float (Ok tt) scan_of_two (fl 7) shown_before
    = (Ok (Some (ScanDict (Some (fl 7)) (Some dev) (Some items))), shown_before)
    /\ (exists id ts a v, hd_error two_rows = Some (id, ts, dev, a, v))
    /\ NoDup (map fst items)
    /\ (forall k, dict_lookup items k = last_value two_rows k)
    /\ (0 < List.length items <= List.length two_rows)%nat.
Proof.
  apply (@historical_scan_last_reading_wins float (Ok tt) scan_of_two (fl 7) shown_before two_rows);
    [reflexivity|reflexivity|discriminate].
Defined.


Lemma shown_timestamp_is_latest_witness :
  exists fig v1 points colors,
    point_cloud v1 = Some (points, colors)
    /\ @update_point_cloud float numpy nonzero (Ok tt) (Ok None) scan_of_two drawn draw_figure
         epoch_plus_7 (Some f1) shown_before
       = (Ok (Cloud drawn fig (Some "1970-01-01 00:00:07")
                (Z.of_nat (List.length points))), v1).
Proof.
  do 2 eexists.
  apply (@shown_timestamp_is_latest float numpy nonzero (Ok tt) (Ok None) scan_of_two drawn
           draw_figure epoch_plus_7 f1 (fl 7) shown_before); [reflexivity|reflexivity|].
  vm_compute. reflexivity.
Defined.

Lemma download_sends_previous_cloud_witness :
  exists v',
    @download_point_cloud float numpy (Ok tt) no_scan drawn draw_figure write_ok ply_name
      (Some f1) shown_before []
    = (Ok (Some (ply_name f1)), v',
       [(ply_name f1, ([(f1, f0, f0)], [(f0, f0, f0)]))]).
Proof.
  apply (@download_sends_previous_cloud float numpy (Ok tt) no_scan drawn draw_figure write_ok
           ply_name f1 shown_before ([(f1, f0, f0)], [(f0, f0, f0)]) []); reflexivity.
Defined.

Lemma every_reading_point_or_warning_witness :
  exists max_distance,
    @max_values float numpy (map snd [("angle_0", f100); ("north", f50)]) = Ok max_distance
    /\ @convert_readings_to_points float numpy
         (Some (ScanDict None None (Some [("angle_0", f100); ("north", f50)])))
       = (Ok (Some (map (@cartesian float numpy)
                      (@parsed float numpy [("angle_0", f100); ("north", f50)])),
              Some (map (@colour_of float numpy max_distance)
                      (@parsed float numpy [("angle_0", f100); ("north", f50)]))),
          map could_not_parse (@unparsed float numpy [("angle_0", f100); ("north", f50)]))
    /\ (List.length (@parsed float numpy [("angle_0", f100); ("north", f50)])
        + List.length (@unparsed float numpy [("angle_0", f100); ("north", f50)])
        = List.length [("angle_0", f100); ("north", f50)])%nat.
Proof.
  apply (@every_reading_point_or_warning float numpy None None
           [("angle_0", f100); ("north", f50)]).
  discriminate.
Defined.

Lemma parse_angle_reads_second_field_witness :
  @parse_angle float numpy ("angle" ++ "_" ++ "90") = Ok f90
  /\ @parse_angle float numpy ("angle" ++ "_" ++ "90" ++ "_" ++ "left") = Ok f90
  /\ @parse_angle float numpy "angle" = Raise IndexError.
Proof.
  exact (@parse_angle_reads_second_field float numpy "angle" "90" "left" eq_refl eq_refl).
Defined.

Lemma dimensions_box_holds_points_witness :
  exists d,
    @calculate_object_dimensions float numpy fresh three_points = (Some d, fresh)
    /\ (forall p, In p three_points -> within_box (min_coords d) (max_coords d) p)
    /\ numbers (min_coords d) = true /\ numbers (max_coords d) = true
    /\ (let '(lx, ly, lz) := min_coords d in
        let '(hx, hy, hz) := max_coords d in
        width d = fsub hx lx /\ depth d = fsub hy ly /\ height d = fsub hz lz).
Proof.
  apply (dimensions_box_holds_points table_cos table_sin integer_literal gray fresh
           three_points); [discriminate|reflexivity].
Defined.

Lemma sender_message_stored_witness :
  exists s' c' extra,
    on_message brisk_clock naive_mean sort_ordered
      (Ok (PyDict (message "raspi_test" (fun _ => f100) 0 (brisk_clock 0) (brisk_clock 1))))
      (listening brisk_clock)
    = (Ok tt, s')
    /\ db_connection s' = Some c'
    /\ rows c'
       = rows connect
         ++ SensorData (PyFloat (brisk_clock 0)) (PyFloat (brisk_clock 2)) (PyInt 0)
              (PyStr "raspi_test")
              (PyFloat (fmul (fsub (brisk_clock 2) (brisk_clock 1)) f1000))
            :: map (fun i => SensorReading 1 (PyStr ("angle_" ++ str i)) (PyFloat f100))
                 angles
            ++ extra
    /\ (is_finite (brisk_clock 2) = true -> is_finite (brisk_clock 1) = true ->
        is_nan (fmul (fsub (brisk_clock 2) (brisk_clock 1)) f1000) = false)
    /\ (extra = [] \/ exists stats, is_performance_stats stats = true /\ extra = [stats])
    /\ message_counts s' = message_counts (listening brisk_clock) + 1
    /\ latencies s'
       = latencies (listening brisk_clock)
         ++ [fmul (fsub (brisk_clock 2) (brisk_clock 1)) f1000]
    /\ List.length
         (map (fun i => SensorReading 1 (PyStr ("angle_" ++ str i)) (PyFloat f100)) angles)
       = 36%nat.
Proof.
  apply (sender_message_stored brisk_clock naive_mean sort_ordered "raspi_test"
           (fun _ => f100) brisk_clock_number 0 (brisk_clock 0) (brisk_clock 1)
           (listening brisk_clock) connect);
    [reflexivity|reflexivity|lia|reflexivity|reflexivity].
Defined.

Lemma sender_labels_all_parse_witness :
  @parsed float numpy (map (fun i => (("angle_" ++ str i)%string, f100)) angles)
  = map (fun i => (fl (Z.of_nat i), f100)) angles
  /\ @unparsed float numpy (map (fun i => (("angle_" ++ str i)%string, f100)) angles) = []
  /\ List.length
       (@parsed float numpy (map (fun i => (("angle_" ++ str i)%string, f100)) angles))
     = 36%nat.
Proof.
  apply (@sender_labels_all_parse float numpy (fun i => fl (Z.of_nat i)) (fun _ => f100)).
  intros i Hi. unfold angles in Hi. cbn [seq map Nat.mul Nat.add] in Hi.
  repeat (destruct Hi as [<-|Hi]; [reflexivity|]). destruct Hi.
Defined.

Lemma clusters_partition_labelled_points_witness :
  exists clusters,
    @cluster_points float one_noise fresh three_points (fl 30) 2
    = ((clusters, [0; -1; 0]),
       AdvancedVisualizer.logger INFO "Clustering found" [PyInt (len clusters)] fresh)
    /\ Permutation (List.concat clusters) (labelled three_points [0; -1; 0])
    /\ Forall (fun cluster => cluster <> []) clusters.
Proof.
  apply (@clusters_partition_labelled_points float one_noise fresh three_points (fl 30) 2
           [0; -1; 0]); [discriminate|reflexivity|reflexivity].
Defined.

Lemma failed_plane_fit_counts_all_as_ground_witness :
  exists sd base1 points colors logs,
    @process_scan_with_advanced_features float numpy no_outlier_removal no_segment_plane
      select_none one_noise nonzero (Ok tt) (Ok (Some (fl 7))) scan_of_four no_colors_at
      no_colors_outside f10 (fl 30) unit no_figure None false true true
      (shown_before, fresh)
    = (Ok (Some
             (no_figure points colors points [] [] [] [] (Visualizer.timestamp sd),
              {| scan_timestamp := Visualizer.timestamp sd;
                 original_points := len points;
                 filtered_points := len points;
                 ground_points := len points;
                 object_points := 0;
                 clusters := 0;
                 cluster_dimensions := None |})),
       (with_records logs base1,
        AdvancedVisualizer.logger ERROR "Error in ground plane segmentation" [] fresh)).
Proof.
  do 5 eexists.
  apply (@failed_plane_fit_counts_all_as_ground float numpy no_outlier_removal
           no_segment_plane select_none one_noise nonzero (Ok tt) (Ok (Some (fl 7)))
           scan_of_four no_colors_at no_colors_outside f10 (fl 30) unit no_figure true
           shown_before _ fresh _ _ _ _ ValueError).
  - reflexivity.
  - reflexivity.
  - unfold len. cbn [List.length app]. lia.
  - reflexivity.
Defined.

End FurtherRuns.
